(** * Strava progress tracker: token lifecycle, bulk fetch and aggregation

    A shallow embedding of [backend/main.go] (the token-gated,
    refresh-capable variant, lines 1-957) and the properties of its token
    store, bulk fetcher, activity cache and aggregation passes.

    Conventions.
    - [float64] is an interface ([Float64]) with the operations the program
      uses; [binary64] instantiates it with IEEE 754 binary64 arithmetic.
    - Go's [time] and the typed decoding of [encoding/json] are interfaces
      ([GoTime], [GoJson]); [gotime_model] and [gojson_model] are
      executable models of the calls made here.
    - Handlers are state transformers over a [World]: the in-memory token
      mirror, the mutex, the files and a log of the effects performed. *)

From Stdlib Require Import ZArith Floats Lia QArith Qcanon Ascii.
From stdpp Require Import gmap strings list fin_maps.

#[local] Set Warnings "-register-all,-inexact-float".
#[local] Open Scope Z_scope.

(** ** Numbers *)

(** The [float64] operations used by the program. *)
Class Float64 (F : Type) := {
  fzero : F;                      (* the zero value of a float64 field *)
  fadd : F → F → F;               (* x + y *)
  fdiv : F → F → F;               (* x / y *)
  fltb : F → F → bool;            (* x < y *)
  fleb : F → F → bool;            (* x <= y *)
  f1000 : F;                      (* 1000.0 *)
  f4_8 : F;                       (* 4.8 *)
  f3_8 : F;                       (* 3.8 *)
  f3_0 : F                        (* 3.0 *)
}.

Definition fgtb {F} `{Float64 F} (x y : F) : bool := fltb y x.
Definition fgeb {F} `{Float64 F} (x y : F) : bool := fleb y x.

(** ** Data model *)

(** [TokenData] and [StravaTokenResponse] have the same three fields; the
    conversion [TokenData(tokenResponse)] is the identity on them. *)
Record TokenData := {
  AccessToken : string;
  RefreshToken : string;
  ExpiresAt : Z                   (* Unix seconds *)
}.

Definition StravaTokenResponse := TokenData.

Definition noTokens : TokenData :=
  {| AccessToken := ""; RefreshToken := ""; ExpiresAt := 0 |}.

(** A decoded JSON value ([interface{}] after [json.Unmarshal]); every JSON
    number decodes to a [float64]. *)
Inductive json {F : Type} : Type :=
  | JNull
  | JBool (b : bool)
  | JNum (x : F)
  | JStr (s : string)
  | JArr (l : list json)
  | JObj (o : gmap string json).
Arguments json : clear implicits.

Record PaceStat {F : Type} := {
  Red : F;
  Orange : F;
  Yellow : F;
  Green : F
}.
Arguments PaceStat : clear implicits.

Record MinimalActivityData {F : Type} := {
  StartDate : string;
  Distance : F;
  MovingTime : F;
  Type_ : string
}.
Arguments MinimalActivityData : clear implicits.

Record MonthlySportStats {F : Type} := {
  MonthYear : string;
  RunWalkHike : F;
  Bike : F;
  Other : F
}.
Arguments MonthlySportStats : clear implicits.

Record StravaActivity {F : Type} := {
  sa_ID : Z;
  sa_Name : string;
  sa_Distance : F;
  sa_MovingTime : F;
  sa_ElapsedTime : F;
  sa_Type : string;
  sa_StartDate : string;
  sa_StartDateLocal : string
}.
Arguments StravaActivity : clear implicits.

Record MonthlyPaceStats {F : Type} := {
  p_MonthYear : string;
  RunWalkHikeTime : F;
  RunWalkHikeDistance : F;
  BikeTime : F;
  BikeDistance : F;
  OtherTime : F;
  OtherDistance : F;
  RunWalkHikePace : F;
  BikePace : F;
  OtherPace : F
}.
Arguments MonthlyPaceStats : clear implicits.

(** A [time.Time]: the instant in Unix seconds and the zone offset it is
    displayed in.  Sub-second digits play no part in a month key or a day
    truncation, the only uses made of a parsed time. *)
Record Time := {
  unixSec : Z;
  zoneOffset : Z
}.

(** Calls into Go's [time] package, whose behaviour is not repository
    code. *)
Class GoTime := {
  (* time.Parse(time.RFC3339, s) *)
  time_Parse_RFC3339 : string → option Time;
  (* t.Format("2006-01") *)
  Format_2006_01 : Time → string;
  (* time.ParseInLocation("2006-01-02", s, time.UTC), as a day number:
     the result is midnight UTC of that day *)
  time_ParseInLocation_date : string → option Z
}.

(** [json.Unmarshal(data, &activities)] with [activities []StravaActivity]. *)
Class GoJson (F : Type) := {
  json_Unmarshal_StravaActivities : json F → option (list (StravaActivity F))
}.

(** ** Files, effects and the world *)

Definition dataFilePath : string := "data/strava_activities.json".
Definition tokenFilePath : string := "data/strava_token.json".
Definition dataDir : string := "data".
Definition tokenTTLMargin_ns : Z := 60 * 1000000000.
Definition perPage : Z := 200.
Definition StatusOK : Z := 200.

(** What a file holds: the token document written by [saveToken], a JSON
    document, or bytes that are not valid JSON (an empty or torn file). *)
Inductive FileContent {F : Type} : Type :=
  | FToken (t : TokenData)
  | FJson (v : json F)
  | FBytes (raw : string).
Arguments FileContent : clear implicits.

Inductive TokenGrant :=
  | GrantAuthorizationCode (code : string)
  | GrantRefreshToken (refresh_token : string).

(** Effects visible outside the process, in the order performed. *)
Inductive Event :=
  | EvPostToken (g : TokenGrant)
  | EvGetActivities (accessToken : string) (page : Z)
  | EvReadFile (path : string)
  | EvMkdirAll (path : string)
  | EvWriteFile (path : string)
  | EvCreate (path : string).

(** An HTTP exchange: a transport error, or a status with the body decoded
    ([None] when the body does not decode). *)
Inductive HttpResult (B : Type) :=
  | HttpErr
  | HttpResp (statusCode : Z) (decoded : option B).
Arguments HttpErr {B}.
Arguments HttpResp {B}.

Inductive WriteResult := WriteDone | WriteRefused | WriteTorn.

(** Everything outside the process: the clock, the upstream API and the
    operating system's willingness to perform file operations. *)
Record Env {F : Type} := {
  now_ns : Z;
  http_PostForm_token : TokenGrant → HttpResult StravaTokenResponse;
  http_Get_activities : string → Z → HttpResult (json F);
  os_MkdirAll_ok : string → bool;
  os_WriteFile_result : string → WriteResult;
  os_Create_ok : string → bool;
  json_Encode_ok : bool;
  os_ReadFile_denied : string → bool
}.
Arguments Env : clear implicits.

Inductive GoError :=
  | ErrNoAccessToken
  | ErrNoRefreshToken
  | ErrRefreshRequest
  | ErrRefreshStatus (statusCode : Z)
  | ErrRefreshDecode
  | ErrSaveRefreshed (cause : GoError)
  | ErrMkdirData
  | ErrWriteTokenFile
  | ErrFetchNetwork
  | ErrFetchStatus (statusCode : Z)
  | ErrFetchDecode
  | ErrCreateDataFile
  | ErrEncodeData
  | ErrDataFileNotFound
  | ErrDataFileRead
  | ErrDataFileParse
  | ErrNoValidActivities.

Inductive result (A : Type) :=
  | OK (a : A)
  | Fail (e : GoError).
Arguments OK {A}.
Arguments Fail {A}.

Record World {F : Type} := {
  currentTokens : TokenData;
  tokenMutex : bool;              (* true while some goroutine holds it *)
  files : gmap string (FileContent F);
  trace : list Event
}.
Arguments World : clear implicits.

(** How a call ends: it returns, it blocks for ever in [Lock], the runtime
    aborts ([Unlock] of a free mutex), or the model ran out of fuel. *)
Inductive outcome {F A : Type} :=
  | Ret (a : A) (w : World F)
  | Blocked (w : World F)
  | Fatal (w : World F)
  | OutOfFuel.
Arguments outcome : clear implicits.

Definition M (F A : Type) : Type := World F → outcome F A.

Inductive Body {F : Type} :=
  | BError (msg : string) (details : option GoError)
  | BRedirect (url : string)
  | BDistanceStats (stats : list (MonthlySportStats F))
  | BPaceStats (stats : list (MonthlyPaceStats F))
  | BWeekly (weeklyData : gmap Z (PaceStat F))
  | BActivities (activities : list (json F)).
Arguments Body : clear implicits.

Record Response {F : Type} := {
  status : Z;
  body : Body F
}.
Arguments Response : clear implicits.

(** ** The backend *)

Section Model.
Context {F : Type} {num : Float64 F} {gotime : GoTime} {gojson : GoJson F}.
Context (env : Env F).

#[local] Abbreviation M := (M F).
#[local] Abbreviation World := (World F).

#[export] Instance M_ret : MRet M := λ A a w, Ret a w.

#[export] Instance M_bind : MBind M := λ A B f m w,
  match m w with
  | Ret a w' => f a w'
  | Blocked w' => Blocked w'
  | Fatal w' => Fatal w'
  | OutOfFuel => OutOfFuel
  end.

(** *** Primitive effects *)

Definition with_tokens (t : TokenData) (w : World) : World :=
  {| currentTokens := t; tokenMutex := tokenMutex w;
     files := files w; trace := trace w |}.

Definition with_mutex (b : bool) (w : World) : World :=
  {| currentTokens := currentTokens w; tokenMutex := b;
     files := files w; trace := trace w |}.

Definition with_files (fs : gmap string (FileContent F)) (w : World) : World :=
  {| currentTokens := currentTokens w; tokenMutex := tokenMutex w;
     files := fs; trace := trace w |}.

Definition with_event (e : Event) (w : World) : World :=
  {| currentTokens := currentTokens w; tokenMutex := tokenMutex w;
     files := files w; trace := trace w ++ [e] |}.

(** [tokenMutex.Lock()]: a [sync.Mutex] is not reentrant, so locking a held
    mutex blocks until some other goroutine releases it; within one request
    nobody does. *)
Definition Lock : M () := λ w,
  if tokenMutex w then Blocked w else Ret () (with_mutex true w).

(** [tokenMutex.Unlock()]: unlocking a free mutex is a fatal runtime error. *)
Definition Unlock : M () := λ w,
  if tokenMutex w then Ret () (with_mutex false w) else Fatal w.

(** [defer d] at the head of [body]: [d] runs when [body] returns. *)
Definition defer {A} (d : M ()) (body : M A) : M A :=
  a ← body; d;; mret a.

Definition getTokens : M TokenData := λ w, Ret (currentTokens w) w.
Definition setTokens (t : TokenData) : M () := λ w, Ret () (with_tokens t w).
Definition emit (e : Event) : M () := λ w, Ret () (with_event e w).

Definition http_PostForm (g : TokenGrant) : M (HttpResult StravaTokenResponse) :=
  emit (EvPostToken g);; mret (http_PostForm_token env g).

Definition client_Do (accessToken : string) (page : Z) : M (HttpResult (json F)) :=
  emit (EvGetActivities accessToken page);;
  mret (http_Get_activities env accessToken page).

Definition os_MkdirAll (path : string) : M bool :=
  emit (EvMkdirAll path);; mret (os_MkdirAll_ok env path).

(** [os.WriteFile]: replaces the file, is refused before touching it, or
    fails after truncating it. *)
Definition os_WriteFile (path : string) (c : FileContent F) : M bool := λ w,
  let w := with_event (EvWriteFile path) w in
  match os_WriteFile_result env path with
  | WriteDone => Ret true (with_files (<[path := c]> (files w)) w)
  | WriteRefused => Ret false w
  | WriteTorn => Ret false (with_files (<[path := FBytes ""]> (files w)) w)
  end.

(** [os.Create]: truncates or creates the file. *)
Definition os_Create (path : string) : M bool := λ w,
  let w := with_event (EvCreate path) w in
  if os_Create_ok env path
  then Ret true (with_files (<[path := FBytes ""]> (files w)) w)
  else Ret false w.

(** [encoder.Encode(v)] into the file just created. *)
Definition encoder_Encode (path : string) (v : json F) : M bool := λ w,
  if json_Encode_ok env
  then Ret true (with_files (<[path := FJson v]> (files w)) w)
  else Ret false w.

Inductive ReadError := NotExist | ReadDenied.

Definition os_ReadFile (path : string) : M (ReadError + FileContent F) := λ w,
  let w := with_event (EvReadFile path) w in
  match files w !! path with
  | None => Ret (inl NotExist) w
  | Some c => if os_ReadFile_denied env path then Ret (inl ReadDenied) w
              else Ret (inr c) w
  end.

(** *** Token management *)

(** [saveToken]; [json.MarshalIndent] of three scalar fields cannot fail. *)
Definition saveToken (t : TokenData) : M (result ()) :=
  Lock;;
  defer Unlock (
    setTokens t;;
    made ← os_MkdirAll dataDir;
    if negb made then mret (Fail ErrMkdirData) else
    written ← os_WriteFile tokenFilePath (FToken t);
    if negb written then mret (Fail ErrWriteTokenFile) else
    mret (OK ())).

(** The assignments of [refreshAccessToken] after a decoded response. *)
Definition mergeRefreshed (cur : TokenData) (newTokens : StravaTokenResponse)
  : TokenData :=
  {| AccessToken := AccessToken newTokens;
     RefreshToken := if decide (RefreshToken newTokens = "")
                     then RefreshToken cur else RefreshToken newTokens;
     ExpiresAt := ExpiresAt newTokens |}.

(** [refreshAccessToken] *)
Definition refreshAccessToken : M (result ()) :=
  Lock;;
  defer Unlock (
    cur ← getTokens;
    if decide (RefreshToken cur = "") then mret (Fail ErrNoRefreshToken) else
    resp ← http_PostForm (GrantRefreshToken (RefreshToken cur));
    match resp with
    | HttpErr => mret (Fail ErrRefreshRequest)
    | HttpResp statusCode decoded =>
      if negb (statusCode =? StatusOK)
      then mret (Fail (ErrRefreshStatus statusCode)) else
      match decoded with
      | None => mret (Fail ErrRefreshDecode)
      | Some newTokens =>
        setTokens (mergeRefreshed cur newTokens);;
        cur' ← getTokens;
        saved ← saveToken cur';
        match saved with
        | Fail e => mret (Fail (ErrSaveRefreshed e))
        | OK _ => mret (OK ())
        end
      end
    end).

(** *** Go's [time.Time] in the expiry checks

    A [time.Time] without a monotonic clock reading holds its seconds
    since the year 1 in an int64.  [time.Unix(sec, 0)] is
    [sec + unixToInternal], an int64 addition that wraps around, so an
    [expires_at] above 9223371974719179007 lands before the year 1;
    [Time.Add] saturates instead ([Time.addSec]).  The comparisons
    [After] and [Before] are on these seconds, then on the nanoseconds.
    The clock [now_ns] is the system's, in nanoseconds since 1970, a time
    Go holds exactly. *)
Definition wrap64 (z : Z) : Z := (z + 2 ^ 63) mod 2 ^ 64 - 2 ^ 63.

Definition unixToInternal : Z := 62135596800.

(** [time.Unix(sec, 0)], in seconds since the year 1. *)
Definition time_Unix (sec : Z) : Z := wrap64 (sec + unixToInternal).

(** [t.Add(d)] for a [d] of whole seconds, in seconds since the year 1:
    [sum := t.ext + d; if (sum > t.ext) == (d > 0) { t.ext = sum }
     else if d > 0 { t.ext = 1<<63 - 1 } else { t.ext = -(1<<63 - 1) }]. *)
Definition time_Add_seconds (t d : Z) : Z :=
  let sum := wrap64 (t + d) in
  if Bool.eqb (t <? sum) (0 <? d) then sum
  else if 0 <? d then 2 ^ 63 - 1 else - (2 ^ 63 - 1).

(** [time.Now()], in nanoseconds since the year 1. *)
Definition time_Now_ns : Z := now_ns env + unixToInternal * 1000000000.

(** [time.Now().Add(tokenTTLMargin).After(time.Unix(ExpiresAt, 0))] *)
Definition expiresWithinMargin (t : TokenData) : bool :=
  time_Unix (ExpiresAt t) * 1000000000 <? time_Now_ns + tokenTTLMargin_ns.

(** [ensureValidToken] *)
Definition ensureValidToken : M (result string) :=
  Lock;;
  defer Unlock (
    cur ← getTokens;
    if decide (AccessToken cur = "") then mret (Fail ErrNoAccessToken) else
    if expiresWithinMargin cur then
      Unlock;;
      defer Lock (
        refreshed ← refreshAccessToken;
        match refreshed with
        | Fail e => mret (Fail e)
        | OK _ => cur' ← getTokens; mret (OK (AccessToken cur'))
        end)
    else mret (OK (AccessToken cur))).

Definition frontendURL : string := "http://localhost:5173".

(** [handleStravaCallback], on the query parameters [code] and [error]. *)
Definition handleStravaCallback (code error : string) : M (Response F) :=
  if decide (code = "") then
    if decide (error = "")
    then mret {| status := 400;
                 body := BError "Authorization code not found" None |}
    else mret {| status := 307;
                 body := BRedirect (frontendURL +:+ "/?auth_status=denied") |}
  else
    resp ← http_PostForm (GrantAuthorizationCode code);
    match resp with
    | HttpErr =>
      mret {| status := 500;
              body := BError "Failed to request token from Strava" None |}
    | HttpResp statusCode decoded =>
      if negb (statusCode =? StatusOK)
      then mret {| status := 500;
                   body := BError "Strava token exchange failed" None |}
      else
      match decoded with
      | None => mret {| status := 500;
                        body := BError "Failed to decode token response" None |}
      | Some tokenResponse =>
        saved ← saveToken tokenResponse;
        match saved with
        | Fail _ => mret {| status := 500;
                            body := BError "Failed to save token locally" None |}
        | OK _ => mret {| status := 307;
                          body := BRedirect (frontendURL +:+ "/?auth_status=success") |}
        end
      end
    end.

(** *** Bulk fetch *)

(** [activity[key]] on a decoded activity (a JSON [null] element decodes
    to a nil map, where every key is missing). *)
Definition index (activity : json F) (key : string) : option (json F) :=
  match activity with
  | JObj o => o !! key
  | _ => None
  end.

Definition isObjectOrNull (v : json F) : bool :=
  match v with
  | JObj _ | JNull => true
  | _ => false
  end.

(** Decoding a JSON value into [[]map[string]interface{}]. *)
Definition decodeRawActivities (v : json F) : option (list (json F)) :=
  match v with
  | JNull => Some []
  | JArr l => if forallb isObjectOrNull l then Some l else None
  | _ => None
  end.

(** [json.Unmarshal(fileContent, &rawActivities)] *)
Definition json_Unmarshal_raw (c : FileContent F) : option (list (json F)) :=
  match c with
  | FJson v => decodeRawActivities v
  | FToken _ | FBytes _ => None
  end.

(** Encoding [allActivities]: a slice that never received an element is
    still nil and encodes as [null]. *)
Definition encodeActivities (allActivities : list (json F)) : json F :=
  match allActivities with
  | [] => JNull
  | _ => JArr allActivities
  end.

(** The page loop of [fetchAndSaveAllActivities]; [fuel] bounds the number
    of pages requested.  [http.NewRequest] cannot fail on the fixed URL. *)
Fixpoint fetchPages (fuel : nat) (accessToken : string) (page : Z)
    (allActivities : list (json F)) : M (result (list (json F))) :=
  match fuel with
  | O => λ _, OutOfFuel
  | S fuel' =>
    resp ← client_Do accessToken page;
    match resp with
    | HttpErr => mret (Fail ErrFetchNetwork)
    | HttpResp statusCode decoded =>
      if negb (statusCode =? StatusOK)
      then mret (Fail (ErrFetchStatus statusCode)) else
      match decoded ≫= decodeRawActivities with
      | None => mret (Fail ErrFetchDecode)
      | Some currentActivities =>
        let allActivities := allActivities ++ currentActivities in
        if Z.of_nat (length currentActivities) <? perPage
        then mret (OK allActivities)
        else fetchPages fuel' accessToken (page + 1) allActivities
      end
    end
  end.

(** [fetchAndSaveAllActivities] *)
Definition fetchAndSaveAllActivities (fuel : nat) (accessToken : string)
  : M (result ()) :=
  fetched ← fetchPages fuel accessToken 1 [];
  match fetched with
  | Fail e => mret (Fail e)
  | OK allActivities =>
    made ← os_MkdirAll dataDir;
    if negb made then mret (Fail ErrMkdirData) else
    created ← os_Create dataFilePath;
    if negb created then mret (Fail ErrCreateDataFile) else
    encoded ← encoder_Encode dataFilePath (encodeActivities allActivities);
    if negb encoded then mret (Fail ErrEncodeData) else
    mret (OK ())
  end.

(** *** Monthly aggregation *)

(** [classifyActivity] *)
Definition classifyActivity (activityType : string) : string :=
  if decide (activityType = "Run") then "RunWalkHike"
  else if decide (activityType = "Walk") then "RunWalkHike"
  else if decide (activityType = "Hike") then "RunWalkHike"
  else if decide (activityType = "TrailRun") then "RunWalkHike"
  else if decide (activityType = "Ride") then "Bike"
  else if decide (activityType = "VirtualRide") then "Bike"
  else if decide (activityType = "Handcycle") then "Bike"
  else "Other".

(** [getFloat]; the [int] and [int64] cases cannot arise from decoded
    JSON. *)
Definition getFloat (v : option (json F)) : F * bool :=
  match v with
  | Some (JNum f) => (f, true)
  | _ => (fzero, false)
  end.

(** The type assertion [v.(string)]. *)
Definition assertString (v : option (json F)) : string * bool :=
  match v with
  | Some (JStr s) => (s, true)
  | _ => ("", false)
  end.

(** The body of the extraction loop of [readLocalActivities]: the minimal
    record of an activity, when it is kept. *)
Definition extractMinimal (activity : json F) : option (MinimalActivityData F) :=
  let '(distance, _) := getFloat (index activity "distance") in
  let '(movingTime, _) := getFloat (index activity "moving_time") in
  let '(startDate, ok1) := assertString (index activity "start_date") in
  let '(activityType, ok2) := assertString (index activity "type") in
  if ok1 && ok2 && fgtb distance fzero && fgtb movingTime fzero
  then Some {| StartDate := startDate; Distance := distance;
               MovingTime := movingTime; Type_ := activityType |}
  else None.

(** [readLocalActivities] *)
Definition readLocalActivities : M (result (list (MinimalActivityData F))) :=
  read ← os_ReadFile dataFilePath;
  match read with
  | inl NotExist => mret (Fail ErrDataFileNotFound)
  | inl ReadDenied => mret (Fail ErrDataFileRead)
  | inr fileContent =>
    match json_Unmarshal_raw fileContent with
    | None => mret (Fail ErrDataFileParse)
    | Some rawActivities =>
      let minimalActivities := omap extractMinimal rawActivities in
      if decide (length minimalActivities = 0%nat)
      then mret (Fail ErrNoValidActivities)
      else mret (OK minimalActivities)
    end
  end.

Definition zeroSportStats : MonthlySportStats F :=
  {| MonthYear := ""; RunWalkHike := fzero; Bike := fzero; Other := fzero |}.

(** One iteration of the loop of [calculateMonthlyDistanceStats]. *)
Definition distanceStep (statsMap : gmap string (MonthlySportStats F))
    (activity : MinimalActivityData F) : gmap string (MonthlySportStats F) :=
  match time_Parse_RFC3339 (StartDate activity) with
  | None => statsMap
  | Some t =>
    let monthYear := Format_2006_01 t in
    let category := classifyActivity (Type_ activity) in
    let stat :=
      match statsMap !! monthYear with
      | Some stat => stat
      | None => {| MonthYear := monthYear; RunWalkHike := fzero;
                   Bike := fzero; Other := fzero |}
      end in
    let stat :=
      if decide (category = "RunWalkHike") then
        {| MonthYear := MonthYear stat;
           RunWalkHike := fadd (RunWalkHike stat) (Distance activity);
           Bike := Bike stat; Other := Other stat |}
      else if decide (category = "Bike") then
        {| MonthYear := MonthYear stat; RunWalkHike := RunWalkHike stat;
           Bike := fadd (Bike stat) (Distance activity); Other := Other stat |}
      else if decide (category = "Other") then
        {| MonthYear := MonthYear stat; RunWalkHike := RunWalkHike stat;
           Bike := Bike stat; Other := fadd (Other stat) (Distance activity) |}
      else stat in
    <[monthYear := stat]> statsMap
  end.

(** The aggregation of [calculateMonthlyDistanceStats] once the activities
    are read.  The order of the result is that of a Go map iteration, which
    is unspecified. *)
Definition monthlyDistanceStats (activities : list (MinimalActivityData F))
  : list (MonthlySportStats F) :=
  (map_to_list (foldl distanceStep ∅ activities)).*2.

(** [calculateMonthlyDistanceStats] *)
Definition calculateMonthlyDistanceStats : M (result (list (MonthlySportStats F))) :=
  read ← readLocalActivities;
  match read with
  | Fail e => mret (Fail e)
  | OK activities => mret (OK (monthlyDistanceStats activities))
  end.

(** One iteration of the accumulation loop of [calculateMonthlyPaceStats]. *)
Definition paceStep (paceMap : gmap string (MonthlyPaceStats F))
    (activity : MinimalActivityData F) : gmap string (MonthlyPaceStats F) :=
  match time_Parse_RFC3339 (StartDate activity) with
  | None => paceMap
  | Some t =>
    let monthYear := Format_2006_01 t in
    let category := classifyActivity (Type_ activity) in
    let stat :=
      match paceMap !! monthYear with
      | Some stat => stat
      | None =>
        {| p_MonthYear := monthYear;
           RunWalkHikeTime := fzero; RunWalkHikeDistance := fzero;
           BikeTime := fzero; BikeDistance := fzero;
           OtherTime := fzero; OtherDistance := fzero;
           RunWalkHikePace := fzero; BikePace := fzero; OtherPace := fzero |}
      end in
    let stat :=
      if decide (category = "RunWalkHike") then
        {| p_MonthYear := p_MonthYear stat;
           RunWalkHikeTime := fadd (RunWalkHikeTime stat) (MovingTime activity);
           RunWalkHikeDistance := fadd (RunWalkHikeDistance stat) (Distance activity);
           BikeTime := BikeTime stat; BikeDistance := BikeDistance stat;
           OtherTime := OtherTime stat; OtherDistance := OtherDistance stat;
           RunWalkHikePace := RunWalkHikePace stat; BikePace := BikePace stat;
           OtherPace := OtherPace stat |}
      else if decide (category = "Bike") then
        {| p_MonthYear := p_MonthYear stat;
           RunWalkHikeTime := RunWalkHikeTime stat;
           RunWalkHikeDistance := RunWalkHikeDistance stat;
           BikeTime := fadd (BikeTime stat) (MovingTime activity);
           BikeDistance := fadd (BikeDistance stat) (Distance activity);
           OtherTime := OtherTime stat; OtherDistance := OtherDistance stat;
           RunWalkHikePace := RunWalkHikePace stat; BikePace := BikePace stat;
           OtherPace := OtherPace stat |}
      else if decide (category = "Other") then
        {| p_MonthYear := p_MonthYear stat;
           RunWalkHikeTime := RunWalkHikeTime stat;
           RunWalkHikeDistance := RunWalkHikeDistance stat;
           BikeTime := BikeTime stat; BikeDistance := BikeDistance stat;
           OtherTime := fadd (OtherTime stat) (MovingTime activity);
           OtherDistance := fadd (OtherDistance stat) (Distance activity);
           RunWalkHikePace := RunWalkHikePace stat; BikePace := BikePace stat;
           OtherPace := OtherPace stat |}
      else stat in
    <[monthYear := stat]> paceMap
  end.

(** The body of the second loop of [calculateMonthlyPaceStats]: the three
    guarded divisions. *)
Definition derivePaces (stat : MonthlyPaceStats F) : MonthlyPaceStats F :=
  {| p_MonthYear := p_MonthYear stat;
     RunWalkHikeTime := RunWalkHikeTime stat;
     RunWalkHikeDistance := RunWalkHikeDistance stat;
     BikeTime := BikeTime stat; BikeDistance := BikeDistance stat;
     OtherTime := OtherTime stat; OtherDistance := OtherDistance stat;
     RunWalkHikePace :=
       if fgtb (RunWalkHikeDistance stat) fzero
       then fdiv (RunWalkHikeTime stat) (RunWalkHikeDistance stat)
       else RunWalkHikePace stat;
     BikePace :=
       if fgtb (BikeDistance stat) fzero
       then fdiv (BikeTime stat) (BikeDistance stat)
       else BikePace stat;
     OtherPace :=
       if fgtb (OtherDistance stat) fzero
       then fdiv (OtherTime stat) (OtherDistance stat)
       else OtherPace stat |}.

(** The aggregation of [calculateMonthlyPaceStats] once the activities are
    read (result in Go map iteration order, unspecified). *)
Definition monthlyPaceStats (activities : list (MinimalActivityData F))
  : list (MonthlyPaceStats F) :=
  derivePaces <$> (map_to_list (foldl paceStep ∅ activities)).*2.

(** [calculateMonthlyPaceStats] *)
Definition calculateMonthlyPaceStats : M (result (list (MonthlyPaceStats F))) :=
  read ← readLocalActivities;
  match read with
  | Fail e => mret (Fail e)
  | OK activities => mret (OK (monthlyPaceStats activities))
  end.

Definition msgTokenInvalid : string :=
  "Token tidak valid, tidak dapat memproses data lokal. Silakan sinkronisasi ulang.".

(** [handleGetDistanceStats] (GET /api/stats) *)
Definition handleGetDistanceStats : M (Response F) :=
  checked ← ensureValidToken;
  match checked with
  | Fail e => mret {| status := 401; body := BError msgTokenInvalid (Some e) |}
  | OK _ =>
    computed ← calculateMonthlyDistanceStats;
    match computed with
    | Fail e => mret {| status := 500;
                        body := BError "Gagal menghitung statistik jarak" (Some e) |}
    | OK stats => mret {| status := 200; body := BDistanceStats stats |}
    end
  end.

(** [handleGetPaceStats] (GET /api/pace-stats) *)
Definition handleGetPaceStats : M (Response F) :=
  checked ← ensureValidToken;
  match checked with
  | Fail e => mret {| status := 401; body := BError msgTokenInvalid (Some e) |}
  | OK _ =>
    computed ← calculateMonthlyPaceStats;
    match computed with
    | Fail e => mret {| status := 500;
                        body := BError "Gagal menghitung statistik pace" (Some e) |}
    | OK stats => mret {| status := 200; body := BPaceStats stats |}
    end
  end.

(** *** Date-range pace zones *)

Definition zoneRed : string := "🔴 Merah (Maks/Interval)".
Definition zoneOrange : string := "🟠 Oranye (Tempo/Threshold)".
Definition zoneYellow : string := "🟡 Kuning (Steady/Aerobic)".
Definition zoneGreen : string := "🟢 Hijau (Easy/Recovery)".

(** [getPaceZone] *)
Definition getPaceZone (speed : F) : string :=
  if fgeb speed f4_8 then zoneRed
  else if fgeb speed f3_8 then zoneOrange
  else if fgeb speed f3_0 then zoneYellow
  else zoneGreen.

Definition zeroPaceStat : PaceStat F :=
  {| Red := fzero; Orange := fzero; Yellow := fzero; Green := fzero |}.

(** [calculatePaceStats] *)
Definition calculatePaceStats (activity : StravaActivity F) : PaceStat F :=
  if negb (bool_decide (sa_Type activity = "Run")) then zeroPaceStat else
  let distanceM := sa_Distance activity in
  let movingTimeS := sa_MovingTime activity in
  if fleb distanceM fzero || fleb movingTimeS fzero then zeroPaceStat else
  let avgSpeedMPS := fdiv distanceM movingTimeS in
  let paceZone := getPaceZone avgSpeedMPS in
  let distanceKM := fdiv distanceM f1000 in
  if decide (paceZone = zoneRed) then
    {| Red := distanceKM; Orange := fzero; Yellow := fzero; Green := fzero |}
  else if decide (paceZone = zoneOrange) then
    {| Red := fzero; Orange := distanceKM; Yellow := fzero; Green := fzero |}
  else if decide (paceZone = zoneYellow) then
    {| Red := fzero; Orange := fzero; Yellow := distanceKM; Green := fzero |}
  else if decide (paceZone = zoneGreen) then
    {| Red := fzero; Orange := fzero; Yellow := fzero; Green := distanceKM |}
  else zeroPaceStat.

(** [loadLocalActivities]: nil when the file cannot be read or decoded. *)
Definition loadLocalActivities : M (list (StravaActivity F)) :=
  read ← os_ReadFile "data/strava_activities.json";
  match read with
  | inr (FJson v) => mret (default [] (json_Unmarshal_StravaActivities v))
  | _ => mret []
  end.

Definition secondsPerDay : Z := 86400.

(** [t.Truncate(24 * time.Hour)] on a UTC instant in Unix seconds. *)
Definition truncateDay (t : Z) : Z := secondsPerDay * (t / secondsPerDay).

(** The key [t.Format("2006-01-02")] of a UTC instant.  The rendering is
    one-to-one on calendar days, so the map is keyed by the day's number
    (days since 1970-01-01) instead of its text. *)
Definition dateKey (t : Z) : Z := t / secondsPerDay.

(** The zero-filling loop of [handleGetWeeklyPaceStats]:
    [for current.Before(endDate.AddDate(0, 0, 1))].  [bound] is an upper
    bound on the iterations, which the loop condition ends before. *)
Fixpoint zeroFill (bound : nat) (current endDate : Z)
    (weeklyData : gmap Z (PaceStat F)) : gmap Z (PaceStat F) :=
  match bound with
  | O => weeklyData
  | S bound' =>
    if current <? endDate + secondsPerDay
    then zeroFill bound' (current + secondsPerDay) endDate
           (<[dateKey current := zeroPaceStat]> weeklyData)
    else weeklyData
  end.

Definition zeroFillBound (startDate endDate : Z) : nat :=
  Z.to_nat ((endDate + secondsPerDay - startDate) / secondsPerDay + 1).

(** One iteration of the activity loop of [handleGetWeeklyPaceStats]. *)
Definition addDailyActivity (startDate endDate : Z)
    (weeklyData : gmap Z (PaceStat F)) (activity : StravaActivity F)
  : gmap Z (PaceStat F) :=
  match time_Parse_RFC3339 (sa_StartDateLocal activity) with
  | None => weeklyData
  | Some activityTime =>
    let activityDate := truncateDay (unixSec activityTime) in
    if ((activityDate =? startDate) || (startDate <? activityDate))
       && ((activityDate =? endDate) || (activityDate <? endDate + secondsPerDay))
    then
      let dateStr := dateKey activityDate in
      let paceStats := calculatePaceStats activity in
      let currentDayStats := default zeroPaceStat (weeklyData !! dateStr) in
      <[dateStr :=
          {| Red := fadd (Red currentDayStats) (Red paceStats);
             Orange := fadd (Orange currentDayStats) (Orange paceStats);
             Yellow := fadd (Yellow currentDayStats) (Yellow paceStats);
             Green := fadd (Green currentDayStats) (Green paceStats) |}]>
        weeklyData
    else weeklyData
  end.

(** Steps 3 and 4 of [handleGetWeeklyPaceStats]. *)
Definition weeklyPaceData (startDate endDate : Z)
    (activities : list (StravaActivity F)) : gmap Z (PaceStat F) :=
  foldl (addDailyActivity startDate endDate)
        (zeroFill (zeroFillBound startDate endDate) startDate endDate ∅)
        activities.

(** The default range: Monday to Sunday of the week containing now, UTC. *)
Definition defaultWeek : Z * Z :=
  let now := now_ns env / 1000000000 in
  let weekday := (now / secondsPerDay + 4) mod 7 in
  let offset := 1 - weekday in
  let offset := if 0 <? offset then -6 else offset in
  let startDate := truncateDay (now + offset * secondsPerDay) in
  let endDate := truncateDay (startDate + 6 * secondsPerDay) in
  (startDate, endDate).

(** [handleGetWeeklyPaceStats] (GET /api/weekly-pace-stats), on the query
    parameters [startDate] and [endDate]. *)
Definition handleGetWeeklyPaceStats (startQuery endQuery : string)
  : M (Response F) :=
  let range :=
    if negb (bool_decide (startQuery = "")) && negb (bool_decide (endQuery = ""))
    then
      match time_ParseInLocation_date startQuery with
      | None => inl "Invalid startDate format. Use YYYY-MM-DD."
      | Some startDay =>
        match time_ParseInLocation_date endQuery with
        | None => inl "Invalid endDate format. Use YYYY-MM-DD."
        | Some endDay => inr (startDay * secondsPerDay, endDay * secondsPerDay)
        end
      end
    else inr defaultWeek in
  match range with
  | inl msg => mret {| status := 400; body := BError msg None |}
  | inr (startDate, endDate) =>
    activities ← loadLocalActivities;
    mret {| status := 200;
            body := BWeekly (weeklyPaceData startDate endDate activities) |}
  end.

(** *** Token file at startup, status and the activity endpoint *)

(** [os.Stat] fails for a reason other than a missing file on the paths
    the operating system says so. *)
Context (os_Stat_denied : string → bool).

(** [json.Unmarshal(data, &currentTokens)] on a JSON document other than
    the one [saveToken] writes: the struct after the call (fields present
    in the document are overwritten, whether or not an error is reported). *)
Context (json_Unmarshal_TokenData : json F → TokenData → TokenData).

Inductive StatResult := StatOK | StatNotExist | StatError.

(** [os.Stat(path)]: a query, it changes nothing. *)
Definition os_Stat (path : string) : M StatResult := λ w,
  Ret (if os_Stat_denied path then StatError
       else match files w !! path with
            | Some _ => StatOK
            | None => StatNotExist
            end) w.

(** [loadToken]: the document [saveToken] wrote carries all three fields,
    so decoding it replaces the mirror; bytes that are not JSON are
    rejected before any field is touched. *)
Definition loadToken : M () :=
  Lock;;
  defer Unlock (
    read ← os_ReadFile tokenFilePath;
    match read with
    | inl _ => mret ()
    | inr (FToken t) => setTokens t
    | inr (FJson v) =>
      cur ← getTokens; setTokens (json_Unmarshal_TokenData v cur)
    | inr (FBytes _) => mret ()
    end).

(** The body of the answer of GET /api/status (always 200); the expiry is
    the instant that is printed, when [ExpiresAt > 0]. *)
Record StatusReport := {
  file_status : StatResult;
  token_status : bool;
  token_expires : option Z;
  refresh_token : bool
}.

(** [handleStatus]; the validity test is
    [time.Now().Before(time.Unix(ExpiresAt, 0).Add(-tokenTTLMargin))]. *)
Definition handleStatus : M StatusReport :=
  fileStatus ← os_Stat dataFilePath;
  Lock;;
  cur ← getTokens;
  let isTokenValid :=
    negb (bool_decide (AccessToken cur = ""))
    && (time_Now_ns
        <? time_Add_seconds (time_Unix (ExpiresAt cur))
             (Z.quot (- tokenTTLMargin_ns) 1000000000)
           * 1000000000) in
  let expiryInfo := if 0 <? ExpiresAt cur then Some (ExpiresAt cur) else None in
  Unlock;;
  cur' ← getTokens;
  mret {| file_status := fileStatus;
          token_status := isTokenValid;
          token_expires := expiryInfo;
          refresh_token := negb (bool_decide (RefreshToken cur' = "")) |}.

Definition msgTokenRelogin : string :=
  "Token tidak valid atau gagal di-refresh. Silakan login ulang via /api/auth/strava".

(** The first half of [handleGetActivities]: serving the local file.  The
    result is either the answers after which the handler returns ([inl]),
    or the answers written before it goes on to fetch ([inr]): a local file
    that does not parse is answered with 500 and then refreshed all the
    same. *)
Definition serveLocalActivities (fileExist shouldRefresh : bool)
  : M (list (Response F) + list (Response F)) :=
  if fileExist && negb shouldRefresh then
    read ← os_ReadFile dataFilePath;
    match read with
    | inl NotExist =>
      mret (inl [{| status := 500;
                    body := BError "Gagal membaca file lokal"
                                   (Some ErrDataFileNotFound) |}])
    | inl ReadDenied =>
      mret (inl [{| status := 500;
                    body := BError "Gagal membaca file lokal"
                                   (Some ErrDataFileRead) |}])
    | inr fileContent =>
      match json_Unmarshal_raw fileContent with
      | None =>
        mret (inr [{| status := 500;
                      body := BError "Gagal mengurai file JSON lokal"
                                     (Some ErrDataFileParse) |}])
      | Some localActivities =>
        mret (inl [{| status := 200; body := BActivities localActivities |}])
      end
    end
  else mret (inr []).

(** [json.Unmarshal(fileContent, &savedActivities)] with its error ignored:
    an array is decoded element by element, an element that is not an
    object being left a nil map; anything but an array leaves the slice
    nil. *)
Definition json_Unmarshal_raw_ignoring_error (c : FileContent F)
  : list (json F) :=
  match c with
  | FJson (JArr l) =>
    map (λ v, match v with JObj _ => v | _ => JNull end) l
  | _ => []
  end.

(** The second half of [handleGetActivities]: the bulk fetch, then the
    cache just written is read back and sent, after the [answers] already
    written. *)
Definition syncAndServeActivities (fuel : nat) (accessToken : string)
    (answers : list (Response F)) : M (list (Response F)) :=
  fetched ← fetchAndSaveAllActivities fuel accessToken;
  match fetched with
  | Fail e =>
    mret (answers ++
          [{| status := 500;
              body := BError "Gagal mengambil dan menyimpan aktivitas dari Strava"
                             (Some e) |}])
  | OK _ =>
    read ← os_ReadFile dataFilePath;
    match read with
    | inl NotExist =>
      mret (answers ++
            [{| status := 500;
                body := BError "Gagal membaca file setelah sinkronisasi."
                               (Some ErrDataFileNotFound) |}])
    | inl ReadDenied =>
      mret (answers ++
            [{| status := 500;
                body := BError "Gagal membaca file setelah sinkronisasi."
                               (Some ErrDataFileRead) |}])
    | inr fileContent =>
      mret (answers ++
            [{| status := 200;
                body := BActivities
                          (json_Unmarshal_raw_ignoring_error fileContent) |}])
    end
  end.

(** [handleGetActivities] (GET /api/activities), on the query parameter
    [refresh].  The result lists the calls to [c.JSON] in order; the client
    receives the status of the first and the bodies one after the other. *)
Definition handleGetActivities (fuel : nat) (refresh : string)
  : M (list (Response F)) :=
  checked ← ensureValidToken;
  match checked with
  | Fail e => mret [{| status := 401; body := BError msgTokenRelogin (Some e) |}]
  | OK accessToken =>
    let shouldRefresh := bool_decide (refresh = "true") in
    stat ← os_Stat dataFilePath;
    let fileExist := match stat with StatOK => true | _ => false end in
    served ← serveLocalActivities fileExist shouldRefresh;
    match served with
    | inl answers => mret answers
    | inr answers => syncAndServeActivities fuel accessToken answers
    end
  end.

End Model.

(** ** Instances *)

(** IEEE 754 binary64, the arithmetic of Go's [float64]. *)
#[export] Instance binary64 : Float64 float := {|
  fzero := 0%float;
  fadd := PrimFloat.add;
  fdiv := PrimFloat.div;
  fltb := PrimFloat.ltb;
  fleb := PrimFloat.leb;
  f1000 := 1000%float;
  f4_8 := 4.8%float;
  f3_8 := 3.8%float;
  f3_0 := 3%float
|}.

(** Exact rational arithmetic: what [float64] sums are up to rounding. *)
Definition exact_rational : Float64 Qc := {|
  fzero := 0%Qc;
  fadd := Qcplus;
  fdiv := Qcdiv;
  fltb := λ x y, negb (Qle_bool y x);
  fleb := λ x y, Qle_bool x y;
  f1000 := Q2Qc 1000;
  f4_8 := Q2Qc (48 # 10);
  f3_8 := Q2Qc (38 # 10);
  f3_0 := Q2Qc 3
|}.

(** An executable model of the [time] calls on the proleptic Gregorian
    calendar. *)
Module GoTimeModel.

Definition isLeap (y : Z) : bool :=
  ((y mod 4 =? 0) && negb (y mod 100 =? 0)) || (y mod 400 =? 0).

Definition daysIn (y m : Z) : Z :=
  if m =? 2 then (if isLeap y then 29 else 28)
  else if (m =? 4) || (m =? 6) || (m =? 9) || (m =? 11) then 30
  else 31.

(** Days from 1970-01-01 to the civil date [y-m-d]. *)
Definition daysFromCivil (y m d : Z) : Z :=
  let y := if m <=? 2 then y - 1 else y in
  let era := y / 400 in
  let yoe := y mod 400 in
  let doy := (153 * (if 2 <? m then m - 3 else m + 9) + 2) / 5 + d - 1 in
  let doe := yoe * 365 + yoe / 4 - yoe / 100 + doy in
  era * 146097 + doe - 719468.

(** The civil year and month of a day number. *)
Definition civilYearMonth (z : Z) : Z * Z :=
  let z := z + 719468 in
  let era := z / 146097 in
  let doe := z mod 146097 in
  let yoe := (doe - doe / 1460 + doe / 36524 - doe / 146096) / 365 in
  let doy := doe - (365 * yoe + yoe / 4 - yoe / 100) in
  let mp := (5 * doy + 2) / 153 in
  let m := if mp <? 10 then mp + 3 else mp - 9 in
  ((if m <=? 2 then yoe + era * 400 + 1 else yoe + era * 400), m).

Definition digitValue (c : ascii) : option Z :=
  let n := Z.of_nat (nat_of_ascii c) in
  if (48 <=? n) && (n <=? 57) then Some (n - 48) else None.

Definition isDigit (c : ascii) : bool := bool_decide (is_Some (digitValue c)).

(** Reads exactly [n] decimal digits. *)
Fixpoint number (n : nat) (acc : Z) (s : string) : option (Z * string) :=
  match n with
  | O => Some (acc, s)
  | S n' =>
    match s with
    | String c rest => d ← digitValue c; number n' (10 * acc + d) rest
    | EmptyString => None
    end
  end.

Definition literal (c : ascii) (s : string) : option string :=
  match s with
  | String c' rest => if decide (c = c') then Some rest else None
  | EmptyString => None
  end.

(** [YYYY-MM-DD] at the head of [s]. *)
Definition civilDate (s : string) : option (Z * Z * Z * string) :=
  '(y, s) ← number 4 0 s;
  s ← literal "-"%char s;
  '(m, s) ← number 2 0 s;
  s ← literal "-"%char s;
  '(d, s) ← number 2 0 s;
  if (1 <=? m) && (m <=? 12) && (1 <=? d) && (d <=? daysIn y m)
  then Some (y, m, d, s) else None.

(** [HH:MM] or [HH:MM:SS] fields, two digits each. *)
Definition clock (s : string) : option (Z * Z * Z * string) :=
  '(h, s) ← number 2 0 s;
  s ← literal ":"%char s;
  '(mi, s) ← number 2 0 s;
  s ← literal ":"%char s;
  '(sec, s) ← number 2 0 s;
  if (h <? 24) && (mi <? 60) && (sec <? 60)
  then Some (h, mi, sec, s) else None.

Fixpoint skipDigits (s : string) : string :=
  match s with
  | String c rest => if isDigit c then skipDigits rest else s
  | EmptyString => s
  end.

(** An optional fraction of a second: a point and at least one digit. *)
Definition fraction (s : string) : option string :=
  match s with
  | String "."%char (String c rest) =>
    if isDigit c then Some (skipDigits rest) else None
  | _ => Some s
  end.

(** [Z] or a numeric offset [+HH:MM] / [-HH:MM], ending the text. *)
Definition zone (s : string) : option Z :=
  match s with
  | String "Z"%char EmptyString => Some 0
  | String sign rest =>
    '(h, rest) ← number 2 0 rest;
    rest ← literal ":"%char rest;
    '(mi, rest) ← number 2 0 rest;
    if negb (bool_decide (rest = "")) || negb ((h <? 24) && (mi <? 60))
    then None
    else if decide (sign = "+"%char) then Some (h * 3600 + mi * 60)
    else if decide (sign = "-"%char) then Some (- (h * 3600 + mi * 60))
    else None
  | EmptyString => None
  end.

Definition parseRFC3339 (s : string) : option Time :=
  '(y, m, d, s) ← civilDate s;
  s ← literal "T"%char s;
  '(h, mi, sec, s) ← clock s;
  s ← fraction s;
  offset ← zone s;
  Some {| unixSec := daysFromCivil y m d * 86400
                       + h * 3600 + mi * 60 + sec - offset;
          zoneOffset := offset |}.

Definition digitChar (d : Z) : ascii := ascii_of_nat (Z.to_nat (48 + d mod 10)).

Definition pad2 (n : Z) : string :=
  String (digitChar (n / 10)) (String (digitChar n) "").

Definition pad4 (n : Z) : string :=
  String (digitChar (n / 1000)) (String (digitChar (n / 100)) (pad2 n)).

Definition formatMonth (t : Time) : string :=
  let '(y, m) := civilYearMonth ((unixSec t + zoneOffset t) / 86400) in
  pad4 y +:+ "-" +:+ pad2 m.

Definition parseDate (s : string) : option Z :=
  '(y, m, d, rest) ← civilDate s;
  if decide (rest = "") then Some (daysFromCivil y m d) else None.

End GoTimeModel.

#[export] Instance gotime_model : GoTime := {|
  time_Parse_RFC3339 := GoTimeModel.parseRFC3339;
  Format_2006_01 := GoTimeModel.formatMonth;
  time_ParseInLocation_date := GoTimeModel.parseDate
|}.

(** An executable model of the typed decoding: keys are matched exactly, a
    missing or [null] field keeps its zero value, and a field of the wrong
    JSON type fails the whole decoding. *)
Module GoJsonModel.

(** The integer a binary64 number denotes, when it is one. *)
Definition integerValue (x : float) : option Z :=
  match Prim2SF x with
  | S754_zero _ => Some 0
  | S754_finite negative m e =>
    let magnitude :=
      if 0 <=? e then Some (Z.pos m * 2 ^ e)
      else if Z.pos m mod 2 ^ (- e) =? 0 then Some (Z.pos m / 2 ^ (- e))
      else None in
    (λ v, if negative then - v else v) <$> magnitude
  | _ => None
  end.

Definition numberField (o : gmap string (json float)) (key : string)
  : option float :=
  match o !! key with
  | None | Some JNull => Some 0%float
  | Some (JNum x) => Some x
  | Some _ => None
  end.

Definition stringField (o : gmap string (json float)) (key : string)
  : option string :=
  match o !! key with
  | None | Some JNull => Some ""
  | Some (JStr s) => Some s
  | Some _ => None
  end.

Definition zeroActivity : StravaActivity float :=
  {| sa_ID := 0; sa_Name := ""; sa_Distance := 0%float;
     sa_MovingTime := 0%float; sa_ElapsedTime := 0%float;
     sa_Type := ""; sa_StartDate := "";
     sa_StartDateLocal := "" |}.

Definition activity (v : json float) : option (StravaActivity float) :=
  match v with
  | JNull => Some zeroActivity
  | JObj o =>
    id ← numberField o "id" ≫= integerValue;
    name ← stringField o "name";
    distance ← numberField o "distance";
    movingTime ← numberField o "moving_time";
    elapsedTime ← numberField o "elapsed_time";
    type ← stringField o "type";
    startDate ← stringField o "start_date";
    startDateLocal ← stringField o "start_date_local";
    Some {| sa_ID := id; sa_Name := name; sa_Distance := distance;
            sa_MovingTime := movingTime; sa_ElapsedTime := elapsedTime;
            sa_Type := type; sa_StartDate := startDate;
            sa_StartDateLocal := startDateLocal |}
  | _ => None
  end.

Definition activities (v : json float) : option (list (StravaActivity float)) :=
  match v with
  | JNull => Some []
  | JArr l => mapM activity l
  | _ => None
  end.

End GoJsonModel.

#[export] Instance gojson_model : GoJson float := {|
  json_Unmarshal_StravaActivities := GoJsonModel.activities
|}.

(** ** Vocabulary of the properties *)

(** The value a call returned, when it returned. *)
Definition returned {F A} (o : outcome F A) : option A :=
  match o with
  | Ret a _ => Some a
  | _ => None
  end.

(** The world a call left behind: on return, or where it stopped. *)
Definition finalWorld {F A} (o : outcome F A) : option (World F) :=
  match o with
  | Ret _ w | Blocked w | Fatal w => Some w
  | OutOfFuel => None
  end.

(** What [ensureValidToken] makes of the refresh it waited for. *)
Definition afterRefresh {F} (o : outcome F (result ())) : outcome F (result string) :=
  match o with
  | Ret (OK _) w' => Ret (OK (AccessToken (currentTokens w'))) w'
  | Ret (Fail e) w' => Ret (Fail e) w'
  | Blocked w' => Blocked w'
  | Fatal w' => Fatal w'
  | OutOfFuel => OutOfFuel
  end.

(** The answer of the stats handlers to a failed token check. *)
Definition unauthorized {F} (e : GoError) : Response F :=
  {| status := 401; body := BError msgTokenInvalid (Some e) |}.

(** The answers of the activities route: to a failed token check, to a
    local file that does not parse, and to a failed bulk fetch. *)
Definition reloginAnswer {F} (e : GoError) : Response F :=
  {| status := 401; body := BError msgTokenRelogin (Some e) |}.

Definition corruptCacheAnswer {F} : Response F :=
  {| status := 500;
     body := BError "Gagal mengurai file JSON lokal" (Some ErrDataFileParse) |}.

Definition fetchFailedAnswer {F} (e : GoError) : Response F :=
  {| status := 500;
     body := BError "Gagal mengambil dan menyimpan aktivitas dari Strava"
                    (Some e) |}.

(** The answer of the OAuth callback after a successful exchange. *)
Definition successRedirect {F} : Response F :=
  {| status := 307; body := BRedirect (frontendURL +:+ "/?auth_status=success") |}.

(** The answers of the OAuth callback without a code, and after a token
    that could not be saved. *)
Definition missingCodeAnswer {F} (error : string) : Response F :=
  if decide (error = "")
  then {| status := 400; body := BError "Authorization code not found" None |}
  else {| status := 307;
          body := BRedirect (frontendURL +:+ "/?auth_status=denied") |}.

Definition saveFailedAnswer {F} : Response F :=
  {| status := 500; body := BError "Failed to save token locally" None |}.

(** The failures of a page request in the bulk fetch. *)
Definition pageFailure (e : GoError) : Prop :=
  e = ErrFetchNetwork ∨ (∃ statusCode, e = ErrFetchStatus statusCode)
  ∨ e = ErrFetchDecode.

(** Page [page] is answered 200 with at least [perPage] activities: the
    loop goes on to the next page. *)
Definition fullPage {F} (env : Env F) (accessToken : string) (page : Z) : Prop :=
  ∃ v currentActivities,
    http_Get_activities env accessToken page = HttpResp StatusOK (Some v)
    ∧ decodeRawActivities v = Some currentActivities
    ∧ perPage ≤ Z.of_nat (length currentActivities).

(** The activities of page [page], when it is answered 200 with a body
    that decodes. *)
Definition pageActivities {F} (env : Env F) (accessToken : string) (page : Z)
  : option (list (json F)) :=
  match http_Get_activities env accessToken page with
  | HttpErr => None
  | HttpResp statusCode decoded =>
    if statusCode =? StatusOK then decoded ≫= decodeRawActivities else None
  end.

(** The requests of a bulk fetch of [n] pages, in order. *)
Definition pageRequests (accessToken : string) (first : Z) (n : nat)
  : list Event :=
  (λ page, EvGetActivities accessToken page) <$> seqZ first (Z.of_nat n).

(** Page [page] fails with error [e]. *)
Definition failingPage {F} (env : Env F) (accessToken : string) (page : Z)
    (e : GoError) : Prop :=
  (http_Get_activities env accessToken page = HttpErr ∧ e = ErrFetchNetwork)
  ∨ (∃ statusCode decoded,
       http_Get_activities env accessToken page = HttpResp statusCode decoded
       ∧ statusCode ≠ StatusOK ∧ e = ErrFetchStatus statusCode)
  ∨ (∃ decoded,
       http_Get_activities env accessToken page = HttpResp StatusOK decoded
       ∧ decoded ≫= decodeRawActivities = None ∧ e = ErrFetchDecode).

Definition isReadFile (e : Event) : bool :=
  match e with
  | EvReadFile _ => true
  | _ => false
  end.

Section Vocabulary.
Context {F : Type} {num : Float64 F} {gotime : GoTime}.

(** The sum of a sequence of numbers. *)
Definition sumF (l : list F) : F := foldr fadd fzero l.

(** The distance of one month over all categories. *)
Definition rowTotal (stat : MonthlySportStats F) : F :=
  fadd (fadd (RunWalkHike stat) (Bike stat)) (Other stat).

(** The monthly distance aggregate summed over all categories and months. *)
Definition aggregateTotal (stats : list (MonthlySportStats F)) : F :=
  sumF (rowTotal <$> stats).

Definition parses (s : string) : bool :=
  bool_decide (is_Some (time_Parse_RFC3339 s)).

(** The distance of a cached activity whose [start_date] is a string that
    parses as a timestamp: the right-hand side of the conservation property
    as the specification words it, over the raw cache. *)
Definition datedDistance (activity : json F) : option F :=
  match index activity "start_date" with
  | Some (JStr s) => if parses s then Some (getFloat (index activity "distance")).1
                     else None
  | _ => None
  end.

Definition cacheDistanceTotal (rawActivities : list (json F)) : F :=
  sumF (omap datedDistance rawActivities).

(** The same sum over the activities that [readLocalActivities] keeps. *)
Definition keptDistanceTotal (rawActivities : list (json F)) : F :=
  sumF (Distance <$>
        filter (λ a, parses (StartDate a) = true) (omap extractMinimal rawActivities)).

(** The month key of a kept activity, when its start date parses. *)
Definition monthOf (activity : MinimalActivityData F) : option string :=
  Format_2006_01 <$> time_Parse_RFC3339 (StartDate activity).

(** The distance a monthly record holds for a category. *)
Definition categoryDistance (category : string) (stat : MonthlySportStats F) : F :=
  if decide (category = "RunWalkHike") then RunWalkHike stat
  else if decide (category = "Bike") then Bike stat
  else Other stat.

(** The distance an accumulator map holds for a month and a category. *)
Definition cell (monthYear category : string)
    (statsMap : gmap string (MonthlySportStats F)) : F :=
  from_option (categoryDistance category) fzero (statsMap !! monthYear).

(** The distances of the activities of one month and one category, in
    cache order. *)
Definition cellDistances (monthYear category : string)
    (activities : list (MinimalActivityData F)) : list F :=
  Distance <$>
    filter (λ a, monthOf a = Some monthYear
                 ∧ classifyActivity (Type_ a) = category) activities.


(** The distances of a monthly pace record, as a monthly distance
    record. *)
Definition distancesOf (stat : MonthlyPaceStats F) : MonthlySportStats F :=
  {| MonthYear := p_MonthYear stat;
     RunWalkHike := RunWalkHikeDistance stat;
     Bike := BikeDistance stat;
     Other := OtherDistance stat |}.

(** No pace has been derived yet. *)
Definition pacesUnset (stat : MonthlyPaceStats F) : Prop :=
  RunWalkHikePace stat = fzero ∧ BikePace stat = fzero
  ∧ OtherPace stat = fzero.

(** The total of an accumulator map of the monthly distance aggregate. *)
Definition mapTotal (statsMap : gmap string (MonthlySportStats F)) : F :=
  aggregateTotal (map_to_list statsMap).*2.

(** The calendar day (UTC day number) an activity is counted on by the
    date-range aggregate, from its local start date. *)
Definition activityDay (activity : StravaActivity F) : option Z :=
  (λ t, dateKey (truncateDay (unixSec t)))
    <$> time_Parse_RFC3339 (sa_StartDateLocal activity).

(** The addition of the zone distances of one activity to a day's
    record. *)
Definition addPaceStat (currentDayStats paceStats : PaceStat F) : PaceStat F :=
  {| Red := fadd (Red currentDayStats) (Red paceStats);
     Orange := fadd (Orange currentDayStats) (Orange paceStats);
     Yellow := fadd (Yellow currentDayStats) (Yellow paceStats);
     Green := fadd (Green currentDayStats) (Green paceStats) |}.

(** The zone distances of the activities counted on day [d], in cache
    order. *)
Definition dayContributions (d : Z) (activities : list (StravaActivity F))
  : list (PaceStat F) :=
  calculatePaceStats <$> filter (λ a, activityDay a = Some d) activities.

(** An activity contributes to a pace zone: it is a run with positive
    distance and moving time. *)
Definition matchesZones (activity : StravaActivity F) : bool :=
  bool_decide (sa_Type activity = "Run")
  && negb (fleb (sa_Distance activity) fzero
           || fleb (sa_MovingTime activity) fzero).

End Vocabulary.

(** ** Scenarios *)

(** Concrete worlds over binary64, at time 1000 s after the epoch. *)
Definition scenarioEnv
    (post : TokenGrant → HttpResult StravaTokenResponse)
    (get : string → Z → HttpResult (json float)) : Env float :=
  {| now_ns := 1000 * 1000000000;
     http_PostForm_token := post;
     http_Get_activities := get;
     os_MkdirAll_ok := λ _, true;
     os_WriteFile_result := λ _, WriteDone;
     os_Create_ok := λ _, true;
     json_Encode_ok := true;
     os_ReadFile_denied := λ _, false |}.

Definition offlineEnv : Env float :=
  scenarioEnv (λ _, HttpErr) (λ _ _, HttpErr).

Definition scenarioWorld (t : TokenData) (fs : gmap string (FileContent float))
  : World float :=
  {| currentTokens := t; tokenMutex := false; files := fs; trace := [] |}.

(** A token valid for another hour. *)
Definition freshTokens : TokenData :=
  {| AccessToken := "access-1"; RefreshToken := "refresh-1"; ExpiresAt := 4600 |}.

(** A token that expires 30 seconds from now. *)
Definition expiringTokens : TokenData :=
  {| AccessToken := "access-1"; RefreshToken := "refresh-1"; ExpiresAt := 1030 |}.


(** An upstream that answers the refresh grant of [refresh-1] with a new
    access token and no refresh token. *)
Definition refreshedTokens : StravaTokenResponse :=
  {| AccessToken := "access-2"; RefreshToken := ""; ExpiresAt := 22600 |}.

Definition refreshingEnv : Env float :=
  scenarioEnv
    (λ g, match g with
          | GrantRefreshToken "refresh-1" => HttpResp 200 (Some refreshedTokens)
          | _ => HttpResp 400 None
          end)
    (λ _ _, HttpErr).

(** An upstream that rejects every token request. *)
Definition rejectingEnv : Env float :=
  scenarioEnv (λ _, HttpResp 401 None) (λ _ _, HttpResp 401 None).

(** An upstream that answers the authorization code [code-1] with a record
    that carries no refresh token. *)
Definition exchangingEnv : Env float :=
  scenarioEnv
    (λ g, match g with
          | GrantAuthorizationCode "code-1" => HttpResp 200 (Some refreshedTokens)
          | _ => HttpResp 400 None
          end)
    (λ _ _, HttpErr).

Definition tokenFileOnly (t : TokenData) : gmap string (FileContent float) :=
  {[ tokenFilePath := FToken t ]}.

(** A cached activity with the fields the aggregations read. *)
Definition cachedActivity (distance movingTime : float) (type date : string)
  : json float :=
  JObj (<["distance" := JNum distance]>
       (<["moving_time" := JNum movingTime]>
       (<["type" := JStr type]>
       (<["start_date" := JStr date]>
       (<["start_date_local" := JStr date]> ∅))))).

(** A 10 km run of 3000 s on 2024-03-15. *)
Definition morningRun : json float :=
  cachedActivity 10000 3000 "Run" "2024-03-15T10:00:00Z".

(** A 5 km ride recorded without moving time on 2024-03-16. *)
Definition manualRide : json float :=
  cachedActivity 5000 0 "Ride" "2024-03-16T08:00:00Z".

Definition cacheOf (v : json float) : gmap string (FileContent float) :=
  {[ dataFilePath := FJson v ]}.

(** An upstream whose first page is full (200 activities) and whose second
    page is answered with 401. *)
Definition secondPageFailsEnv : Env float :=
  scenarioEnv (λ _, HttpErr)
    (λ _ page, if page =? 1 then HttpResp 200 (Some (JArr (replicate 200 morningRun)))
               else HttpResp 401 None).

(** Cached activities over exact rationals. *)
Definition exactActivity (distance movingTime : Z) (type date : string)
  : json Qc :=
  JObj (<["distance" := JNum (Q2Qc (inject_Z distance))]>
       (<["moving_time" := JNum (Q2Qc (inject_Z movingTime))]>
       (<["type" := JStr type]>
       (<["start_date" := JStr date]> ∅)))).

Definition exactCache : list (json Qc) :=
  [exactActivity 10000 3000 "Run" "2024-03-15T10:00:00Z";
   exactActivity 20000 3600 "Ride" "2024-04-02T17:30:00+07:00";
   exactActivity 1500 0 "Swim" "2024-04-03T06:00:00Z";
   exactActivity 4000 2400 "Walk" "yesterday"].

Definition exactEnv : Env Qc :=
  {| now_ns := 1000 * 1000000000;
     http_PostForm_token := λ _, HttpErr;
     http_Get_activities := λ _ _, HttpErr;
     os_MkdirAll_ok := λ _, true;
     os_WriteFile_result := λ _, WriteDone;
     os_Create_ok := λ _, true;
     json_Encode_ok := true;
     os_ReadFile_denied := λ _, false |}.

Definition exactWorld : World Qc :=
  {| currentTokens := freshTokens; tokenMutex := false;
     files := {[ dataFilePath := FJson (JArr exactCache) ]}; trace := [] |}.

(** The monthly pace record of [morningRun] alone. *)
Definition marchPaceStats : MonthlyPaceStats float :=
  {| p_MonthYear := "2024-03";
     RunWalkHikeTime := 3000%float; RunWalkHikeDistance := 10000%float;
     BikeTime := 0%float; BikeDistance := 0%float;
     OtherTime := 0%float; OtherDistance := 0%float;
     RunWalkHikePace := PrimFloat.div 3000 10000;
     BikePace := 0%float; OtherPace := 0%float |}.

(** A cache for the week of Monday 2024-03-11 (day 19793) to Sunday
    2024-03-17 (day 19799). *)
Definition marchWeekCache : json float :=
  JArr [morningRun;
        cachedActivity 5000 1000 "Run" "2024-03-12T06:30:00Z";
        cachedActivity 30000 3600 "Ride" "2024-03-13T17:00:00Z";
        cachedActivity 8000 2400 "Run" "2024-03-20T07:00:00Z"].

Definition kilometres (red orange yellow green : float) : PaceStat float :=
  {| Red := red; Orange := orange; Yellow := yellow; Green := green |}.

(** Three short activities of one month, in two categories. *)
Definition shortActivities : list (json float) :=
  [cachedActivity 0.1 60 "Run" "2024-03-15T10:00:00Z";
   cachedActivity 0.2 60 "Ride" "2024-03-16T10:00:00Z";
   cachedActivity 0.3 60 "Run" "2024-03-17T10:00:00Z"].

(** A disk on which the data directory cannot be created. *)
Definition noDirectoryEnv : Env float :=
  {| now_ns := 1000 * 1000000000;
     http_PostForm_token := λ _, HttpErr;
     http_Get_activities := λ _ _, HttpErr;
     os_MkdirAll_ok := λ _, false;
     os_WriteFile_result := λ _, WriteRefused;
     os_Create_ok := λ _, false;
     json_Encode_ok := true;
     os_ReadFile_denied := λ _, false |}.

(** An activity without any field, and a full page of them. *)
Definition bareActivity : json float := JObj ∅.

Definition fullPageOfBare : list (json float) := replicate 200 bareActivity.

(** An upstream with one full page followed by a page of one activity. *)
Definition twoPages (page : Z) : HttpResult (json float) :=
  if page =? 1 then HttpResp 200 (Some (JArr fullPageOfBare))
  else if page =? 2 then HttpResp 200 (Some (JArr [manualRide]))
  else HttpErr.

Definition twoPagesEnv : Env float :=
  scenarioEnv (λ _, HttpErr) (λ _, twoPages).

(** The same upstream, over a disk on which the encoding fails. *)
Definition encodeFailsEnv : Env float :=
  {| now_ns := 1000 * 1000000000;
     http_PostForm_token := λ _, HttpErr;
     http_Get_activities := λ _, twoPages;
     os_MkdirAll_ok := λ _, true;
     os_WriteFile_result := λ _, WriteDone;
     os_Create_ok := λ _, true;
     json_Encode_ok := false;
     os_ReadFile_denied := λ _, false |}.

(** An upstream whose every page is full. *)
Definition endlessEnv : Env float :=
  scenarioEnv (λ _, HttpErr) (λ _ _, HttpResp 200 (Some (JArr fullPageOfBare))).

(** An upstream with a single page of one activity. *)
Definition onePageEnv : Env float :=
  scenarioEnv (λ _, HttpErr)
    (λ _ page, if page =? 1 then HttpResp 200 (Some (JArr [manualRide]))
               else HttpErr).

(** No [os.Stat] error other than a missing file. *)
Definition noStatErrors : string → bool := λ _, false.

(** A token decoder that is never reached when the token file holds a
    token document. *)
Definition keepTokens : json float → TokenData → TokenData := λ _ cur, cur.

(** A token that expires exactly at the end of the margin. *)
Definition boundaryTokens : TokenData :=
  {| AccessToken := "access-1"; RefreshToken := "refresh-1"; ExpiresAt := 1060 |}.

(** A 10 km run of 3000 s, as the date-range aggregate decodes it. *)
Definition tenKilometreRun : StravaActivity float :=
  {| sa_ID := 1; sa_Name := "Morning Run";
     sa_Distance := 10000%float; sa_MovingTime := 3000%float;
     sa_ElapsedTime := 3100%float;
     sa_Type := "Run";
     sa_StartDate := "2024-03-15T10:00:00Z";
     sa_StartDateLocal := "2024-03-15T10:00:00Z" |}.

(** A token with the greatest [expires_at] an int64 holds. *)
Definition farFutureTokens : TokenData :=
  {| AccessToken := "access-1"; RefreshToken := "refresh-1";
     ExpiresAt := 9223372036854775807 |}.


(** A cache file that is not JSON. *)
Definition corruptCache : gmap string (FileContent float) :=
  {[ dataFilePath := FBytes "{" ]}.

(** ** Properties of the token lifecycle *)

Section TokenProperties.
Context {F : Type} {num : Float64 F} {gotime : GoTime} {gojson : GoJson F}.
Context (env : Env F).

#[local] Abbreviation World := (World F).

Ltac unfold_m :=
  unfold defer, Lock, Unlock, getTokens, setTokens, http_PostForm, client_Do,
    os_MkdirAll, os_WriteFile, os_Create, encoder_Encode, os_ReadFile, emit;
  unfold mbind, M_bind, mret, M_ret.

Lemma relock_free (w : World) :
  tokenMutex w = false → with_mutex false (with_mutex true w) = w.
Proof. intros Hfree. destruct w; simpl in *. by subst. Qed.

(** A successful refresh response is merged into the in-memory mirror, and
    then [saveToken] locks the mutex [refreshAccessToken] still holds: the
    call blocks with the token file untouched. *)
Lemma refreshAccessToken_blocks (w : World) (newTokens : StravaTokenResponse) :
  tokenMutex w = false →
  RefreshToken (currentTokens w) ≠ "" →
  http_PostForm_token env (GrantRefreshToken (RefreshToken (currentTokens w)))
    = HttpResp StatusOK (Some newTokens) →
  refreshAccessToken env w =
    Blocked (with_tokens (mergeRefreshed (currentTokens w) newTokens)
               (with_event (EvPostToken (GrantRefreshToken (RefreshToken (currentTokens w))))
                  (with_mutex true w))).
Proof.
  intros Hfree Hrt Hpost. unfold refreshAccessToken, saveToken. unfold_m.
  rewrite Hfree. simpl. case_decide; [done|].
  simpl. rewrite Hpost. simpl. reflexivity.
Qed.

(** The ways [refreshAccessToken] can fail, each leaving the token mirror
    and the files as they were. *)
Lemma refreshAccessToken_fails (w : World) :
  tokenMutex w = false →
  (RefreshToken (currentTokens w) = "" ∨
   ∀ newTokens,
     http_PostForm_token env (GrantRefreshToken (RefreshToken (currentTokens w)))
       ≠ HttpResp StatusOK (Some newTokens)) →
  ∃ e evs,
    refreshAccessToken env w =
      Ret (Fail e) {| currentTokens := currentTokens w; tokenMutex := false;
                      files := files w; trace := trace w ++ evs |}
    ∧ (RefreshToken (currentTokens w) = "" → e = ErrNoRefreshToken ∧ evs = [])
    ∧ (RefreshToken (currentTokens w) ≠ "" →
       evs = [EvPostToken (GrantRefreshToken (RefreshToken (currentTokens w)))]).
Proof.
  intros Hfree Hpost. unfold refreshAccessToken. unfold_m.
  rewrite Hfree. simpl. case_decide as Hrt; simpl.
  - exists ErrNoRefreshToken, []. rewrite app_nil_r. done.
  - destruct Hpost as [|Hpost]; [done|].
    destruct (http_PostForm_token env _) as [|statusCode decoded] eqn:Hresp;
      simpl.
    { eexists _, _. split; [reflexivity|]. by split. }
    destruct (statusCode =? StatusOK) eqn:Hcode; simpl.
    2: { eexists _, _. split; [reflexivity|]. by split. }
    destruct decoded as [newTokens|]; simpl.
    2: { eexists _, _. split; [reflexivity|]. by split. }
    apply Z.eqb_eq in Hcode. subst. by destruct (Hpost newTokens).
Qed.

(** The upstream either answers the refresh with a decodable 200 or it
    does not. *)
Lemma refresh_answer_cases (w : World) :
  (∃ newTokens,
     http_PostForm_token env (GrantRefreshToken (RefreshToken (currentTokens w)))
       = HttpResp StatusOK (Some newTokens))
  ∨ (∀ newTokens,
     http_PostForm_token env (GrantRefreshToken (RefreshToken (currentTokens w)))
       ≠ HttpResp StatusOK (Some newTokens)).
Proof.
  destruct (http_PostForm_token env _) as [|statusCode [newTokens|]];
    [by right | | by right].
  destruct (decide (statusCode = StatusOK)) as [->|Hne].
  - left. by exists newTokens.
  - right. intros t Heq. by inversion Heq.
Qed.

(** [refreshAccessToken] never returns success: it fails or it blocks. *)
Lemma refreshAccessToken_never_succeeds (w w' : World) (u : ()) :
  tokenMutex w = false → refreshAccessToken env w ≠ Ret (OK u) w'.
Proof.
  intros Hfree Hret.
  destruct (decide (RefreshToken (currentTokens w) = "")) as [Hrt|Hrt].
  - destruct (refreshAccessToken_fails w Hfree (or_introl Hrt))
      as (e & evs & Heq & _). congruence.
  - destruct (refresh_answer_cases w) as [[newTokens Hpost]|Hpost].
    + rewrite (refreshAccessToken_blocks w newTokens Hfree Hrt Hpost) in Hret.
      discriminate.
    + destruct (refreshAccessToken_fails w Hfree (or_intror Hpost))
        as (e & evs & Heq & _). congruence.
Qed.

(** A returning [refreshAccessToken] has released the mutex. *)
Lemma refreshAccessToken_releases (w w' : World) (r : result ()) :
  tokenMutex w = false → refreshAccessToken env w = Ret r w' →
  tokenMutex w' = false ∧ currentTokens w' = currentTokens w
  ∧ files w' = files w.
Proof.
  intros Hfree Hret.
  assert (RefreshToken (currentTokens w) = "" ∨
          ∀ newTokens,
            http_PostForm_token env
              (GrantRefreshToken (RefreshToken (currentTokens w)))
              ≠ HttpResp StatusOK (Some newTokens)) as Hfail.
  { destruct (decide (RefreshToken (currentTokens w) = "")) as [|Hrt];
      [by left|].
    destruct (refresh_answer_cases w) as [[newTokens Hpost]|Hpost];
      [|by right].
    rewrite (refreshAccessToken_blocks w newTokens Hfree Hrt Hpost) in Hret.
    discriminate. }
  destruct (refreshAccessToken_fails w Hfree Hfail) as (e & evs & Heq & _).
  rewrite Heq in Hret. by inversion Hret.
Qed.

(** [ensureValidToken] on a record without access token. *)
Lemma ensureValidToken_unauthenticated (w : World) :
  tokenMutex w = false → AccessToken (currentTokens w) = "" →
  ensureValidToken env w = Ret (Fail ErrNoAccessToken) w.
Proof.
  intros Hfree Hat. unfold ensureValidToken. unfold_m.
  rewrite Hfree. simpl. case_decide; [|done]. simpl.
  by rewrite relock_free.
Qed.

(** [ensureValidToken] on a token that is not about to expire. *)
Lemma ensureValidToken_fresh (w : World) :
  tokenMutex w = false → AccessToken (currentTokens w) ≠ "" →
  expiresWithinMargin env (currentTokens w) = false →
  ensureValidToken env w = Ret (OK (AccessToken (currentTokens w))) w.
Proof.
  intros Hfree Hat Hexp. unfold ensureValidToken. unfold_m.
  rewrite Hfree. simpl. case_decide; [done|]. rewrite Hexp. simpl.
  by rewrite relock_free.
Qed.

(** [ensureValidToken] on a token about to expire: the outcome is that of
    [refreshAccessToken], which runs first. *)
Lemma ensureValidToken_expiring (w : World) :
  tokenMutex w = false → AccessToken (currentTokens w) ≠ "" →
  expiresWithinMargin env (currentTokens w) = true →
  ensureValidToken env w = afterRefresh (refreshAccessToken env w).
Proof.
  intros Hfree Hat Hexp. unfold afterRefresh, ensureValidToken. unfold_m.
  rewrite Hfree. simpl. case_decide; [done|]. rewrite Hexp. simpl.
  rewrite (relock_free w Hfree).
  destruct (refreshAccessToken env w) as [r w'| | |] eqn:Hrefresh; try done.
  destruct (refreshAccessToken_releases w w' r Hfree Hrefresh) as (Hfree' & _).
  destruct r; simpl; rewrite Hfree'; simpl; by rewrite (relock_free w' Hfree').
Qed.

(** A held mutex blocks [ensureValidToken] at once. *)
Lemma ensureValidToken_held (w : World) :
  tokenMutex w = true → ensureValidToken env w = Blocked w.
Proof.
  intros Hheld. unfold ensureValidToken. unfold_m. by rewrite Hheld.
Qed.

(** What a failing [ensureValidToken] leaves behind: the token mirror and
    the files as they were, and no file read. *)
Lemma ensureValidToken_failure_world (w w' : World) (e : GoError) :
  ensureValidToken env w = Ret (Fail e) w' →
  tokenMutex w = false ∧ currentTokens w' = currentTokens w
  ∧ files w' = files w
  ∧ ∃ evs, trace w' = trace w ++ evs ∧ ∀ ev, ev ∈ evs → isReadFile ev = false.
Proof.
  intros Hret.
  destruct (tokenMutex w) eqn:Hfree.
  { by rewrite (ensureValidToken_held w Hfree) in Hret. }
  split; [done|].
  destruct (decide (AccessToken (currentTokens w) = "")) as [Hat|Hat].
  { rewrite (ensureValidToken_unauthenticated w Hfree Hat) in Hret.
    inversion Hret; subst. repeat split; try done.
    exists []. rewrite app_nil_r. split; [done|]. by intros ev ?%elem_of_nil. }
  destruct (expiresWithinMargin env (currentTokens w)) eqn:Hexp.
  2: { by rewrite (ensureValidToken_fresh w Hfree Hat Hexp) in Hret. }
  rewrite (ensureValidToken_expiring w Hfree Hat Hexp) in Hret.
  unfold afterRefresh in Hret.
  destruct (refreshAccessToken env w) as [r w1| | |] eqn:Hrefresh; try done.
  destruct r as [u|e1]; [|inversion Hret; subst].
  { by destruct (refreshAccessToken_never_succeeds w w1 u Hfree). }
  assert (RefreshToken (currentTokens w) = "" ∨
          ∀ newTokens,
            http_PostForm_token env
              (GrantRefreshToken (RefreshToken (currentTokens w)))
              ≠ HttpResp StatusOK (Some newTokens)) as Hfail.
  { destruct (decide (RefreshToken (currentTokens w) = "")) as [|Hrt];
      [by left|].
    destruct (refresh_answer_cases w) as [[newTokens Hpost]|Hpost];
      [|by right].
    rewrite (refreshAccessToken_blocks w newTokens Hfree Hrt Hpost) in Hrefresh.
    discriminate. }
  destruct (refreshAccessToken_fails w Hfree Hfail)
    as (e2 & evs & Heq & Hnone & Hsome).
  rewrite Heq in Hrefresh. inversion Hrefresh; subst; simpl.
  repeat split; try done. exists evs. split; [done|].
  destruct (decide (RefreshToken (currentTokens w) = "")) as [Hrt|Hrt].
  - destruct (Hnone Hrt) as [_ ->]. by intros ev ?%elem_of_nil.
  - rewrite (Hsome Hrt). by intros ev ->%list_elem_of_singleton.
Qed.

(** The int64 wrap-around. *)
Lemma wrap64_range (z : Z) : - 2 ^ 63 ≤ wrap64 z < 2 ^ 63.
Proof.
  unfold wrap64.
  pose proof (Z.mod_pos_bound (z + 2 ^ 63) (2 ^ 64) ltac:(done)). lia.
Qed.

Lemma wrap64_small (z : Z) : - 2 ^ 63 ≤ z < 2 ^ 63 → wrap64 z = z.
Proof. intros Hz. unfold wrap64. rewrite Z.mod_small by lia. lia. Qed.

Lemma wrap64_over (z : Z) :
  2 ^ 63 ≤ z < 2 ^ 63 + 2 ^ 64 → wrap64 z = z - 2 ^ 64.
Proof.
  intros Hz. unfold wrap64.
  replace (z + 2 ^ 63) with (z - 2 ^ 63 + 1 * 2 ^ 64) by lia.
  rewrite Z.mod_add by done. rewrite Z.mod_small by lia. lia.
Qed.

(** [time.Unix] of an int64 is the Unix second itself, or 2^64 seconds
    before it when the addition wraps. *)
Lemma time_Unix_cases (sec : Z) :
  - 2 ^ 63 ≤ sec < 2 ^ 63 →
  (sec ≤ 9223371974719179007 ∧ time_Unix sec = sec + unixToInternal)
  ∨ (9223371974719179007 < sec
     ∧ time_Unix sec = sec + unixToInternal - 2 ^ 64).
Proof.
  intros Hsec. unfold time_Unix, unixToInternal.
  destruct (decide (sec ≤ 9223371974719179007)).
  - left. split; [done|]. apply wrap64_small. lia.
  - right. split; [lia|]. apply wrap64_over. lia.
Qed.

(** A token that expires 30 seconds from now is within the 60-second
    margin. *)
Lemma expires_in_30s_within_margin (t : TokenData) :
  - 2 ^ 63 ≤ ExpiresAt t < 2 ^ 63 →
  ExpiresAt t * 1000000000 ≤ now_ns env + 30 * 1000000000 →
  expiresWithinMargin env t = true.
Proof.
  intros Hint64 Hsoon.
  unfold expiresWithinMargin, time_Now_ns, tokenTTLMargin_ns.
  apply Z.ltb_lt.
  destruct (time_Unix_cases (ExpiresAt t) Hint64) as [[_ ->]|[_ ->]]; lia.
Qed.



(** C10. GET /api/stats and GET /api/pace-stats answer only after
    [ensureValidToken]: when it fails, both answer 401 with its error,
    having read no file and changed none; any other answer presupposes
    that it returned a token. *)
Theorem stats_handlers_require_valid_token (w : World) :
  (∀ e w', ensureValidToken env w = Ret (Fail e) w' →
     handleGetDistanceStats env w = Ret (unauthorized e) w'
     ∧ handleGetPaceStats env w = Ret (unauthorized e) w'
     ∧ files w' = files w
     ∧ ∃ evs, trace w' = trace w ++ evs
              ∧ ∀ ev, ev ∈ evs → isReadFile ev = false)
  ∧ (∀ r w1,
       handleGetDistanceStats env w = Ret r w1
       ∨ handleGetPaceStats env w = Ret r w1 →
       status r ≠ 401 →
       ∃ tok w0, ensureValidToken env w = Ret (OK tok) w0).
Proof.
  split.
  - intros e w' Hfail.
    destruct (ensureValidToken_failure_world w w' e Hfail)
      as (_ & _ & Hfiles & Htrace).
    unfold handleGetDistanceStats, handleGetPaceStats, mbind, M_bind.
    rewrite Hfail. by repeat split.
  - intros r w1 Hret Hstatus.
    unfold handleGetDistanceStats, handleGetPaceStats, mbind, M_bind in Hret.
    destruct (ensureValidToken env w) as [[tok|e] w0| | |] eqn:Hcheck.
    + by exists tok, w0.
    + destruct Hret as [Hret|Hret]; inversion Hret; subst; by destruct Hstatus.
    + by destruct Hret.
    + by destruct Hret.
    + by destruct Hret.
Qed.

(** C2 (as amended). Whenever the OAuth callback reports success, the
    in-memory mirror and the token file hold the upstream response in full:
    the refresh token is the one of the response, also when it is empty. *)
Theorem callback_persists_response_in_full
    (w w' : World) (code error : string) :
  handleStravaCallback env code error w = Ret successRedirect w' →
  ∃ tokenResponse,
    http_PostForm_token env (GrantAuthorizationCode code)
      = HttpResp StatusOK (Some tokenResponse)
    ∧ currentTokens w' = tokenResponse
    ∧ files w' !! tokenFilePath = Some (FToken tokenResponse)
    ∧ RefreshToken (currentTokens w') = RefreshToken tokenResponse.
Proof.
  unfold handleStravaCallback, saveToken, successRedirect. unfold_m.
  intros Hret.
  case_decide as Hcode.
  { case_decide; simpl in Hret; inversion Hret. }
  simpl in Hret.
  destruct (http_PostForm_token env _) as [|statusCode decoded] eqn:Hpost;
    simpl in Hret; [inversion Hret|].
  destruct (statusCode =? StatusOK) eqn:Hstatus; simpl in Hret;
    [|inversion Hret].
  apply Z.eqb_eq in Hstatus. subst statusCode.
  destruct decoded as [tokenResponse|]; simpl in Hret; [|inversion Hret].
  exists tokenResponse. split; [done|].
  destruct (tokenMutex w); simpl in Hret; [inversion Hret|].
  destruct (os_MkdirAll_ok env dataDir); simpl in Hret; [|inversion Hret].
  destruct (os_WriteFile_result env tokenFilePath); simpl in Hret;
    inversion Hret; subst; simpl.
  repeat split. apply lookup_insert_eq.
Qed.

End TokenProperties.

(** *** The token lifecycle on the scenarios *)

(** C9. A refresh whose upstream answer withholds the refresh token: the
    in-memory mirror takes the new access token and expiry and keeps the
    stored refresh token, but [refreshAccessToken] then blocks for ever in
    [saveToken] (it still holds the mutex [saveToken] locks), so the token
    file is never rewritten. *)
Theorem refresh_with_withheld_token_blocks :
  refreshAccessToken refreshingEnv
    (scenarioWorld expiringTokens (tokenFileOnly expiringTokens))
  = Blocked
      {| currentTokens := {| AccessToken := "access-2";
                             RefreshToken := "refresh-1";
                             ExpiresAt := 22600 |};
         tokenMutex := true;
         files := tokenFileOnly expiringTokens;
         trace := [EvPostToken (GrantRefreshToken "refresh-1")] |}.
Proof. reflexivity. Qed.

(** The same refresh seen from [ensureValidToken]: the request hangs. *)
Example ensureValidToken_hangs_on_successful_refresh :
  returned (ensureValidToken refreshingEnv
              (scenarioWorld expiringTokens (tokenFileOnly expiringTokens)))
  = None.
Proof. reflexivity. Qed.



(** No token was ever obtained: both stats endpoints answer 401. *)
Lemma stats_handlers_require_valid_token_witness :
  let w := scenarioWorld noTokens ∅ in
  ensureValidToken offlineEnv w = Ret (Fail ErrNoAccessToken) w
  ∧ handleGetDistanceStats offlineEnv w = Ret (unauthorized ErrNoAccessToken) w
  ∧ handleGetPaceStats offlineEnv w = Ret (unauthorized ErrNoAccessToken) w.
Proof.
  assert (ensureValidToken offlineEnv (scenarioWorld noTokens ∅)
          = Ret (Fail ErrNoAccessToken) (scenarioWorld noTokens ∅)) as Hfail
    by reflexivity.
  split; [exact Hfail|].
  destruct (stats_handlers_require_valid_token offlineEnv
              (scenarioWorld noTokens ∅)) as [Hdenied _].
  destruct (Hdenied _ _ Hfail) as (Hdistance & Hpace & _).
  by split.
Defined.

(** C2 (counterexample). A stored refresh token [refresh-1], a successful
    code exchange whose response carries an empty refresh token: the
    persisted record has the empty refresh token, not [refresh-1]. *)
Lemma callback_overwrites_refresh_token :
  let w := scenarioWorld freshTokens (tokenFileOnly freshTokens) in
  RefreshToken (currentTokens w) = "refresh-1"
  ∧ RefreshToken refreshedTokens = ""
  ∧ handleStravaCallback exchangingEnv "code-1" "" w
    = Ret successRedirect
        {| currentTokens := refreshedTokens;
           tokenMutex := false;
           files := tokenFileOnly refreshedTokens;
           trace := [EvPostToken (GrantAuthorizationCode "code-1");
                     EvMkdirAll dataDir; EvWriteFile tokenFilePath] |}
  ∧ tokenFileOnly refreshedTokens !! tokenFilePath
    = Some (FToken {| AccessToken := "access-2"; RefreshToken := "";
                      ExpiresAt := 22600 |} : FileContent float).
Proof. repeat split. Qed.

(** The same exchange, read through the amended property. *)
Lemma callback_persists_response_in_full_witness :
  let w := scenarioWorld freshTokens (tokenFileOnly freshTokens) in
  ∃ w',
    handleStravaCallback exchangingEnv "code-1" "" w = Ret successRedirect w'
    ∧ ∃ tokenResponse,
        http_PostForm_token exchangingEnv (GrantAuthorizationCode "code-1")
          = HttpResp StatusOK (Some tokenResponse)
        ∧ currentTokens w' = tokenResponse
        ∧ files w' !! tokenFilePath = Some (FToken tokenResponse)
        ∧ RefreshToken (currentTokens w') = RefreshToken tokenResponse.
Proof.
  eexists. split; [reflexivity|].
  apply (callback_persists_response_in_full exchangingEnv
           (scenarioWorld freshTokens (tokenFileOnly freshTokens)) _
           "code-1" "").
  reflexivity.
Defined.


(** ** Properties of the bulk fetch *)

Section FetchProperties.
Context {F : Type} (env : Env F).

#[local] Abbreviation World := (World F).

(** The page loop touches neither the files nor the token store. *)
Lemma fetchPages_frame (fuel : nat) (accessToken : string) (page : Z)
    (allActivities : list (json F)) (w w' : World)
    (r : result (list (json F))) :
  fetchPages env fuel accessToken page allActivities w = Ret r w' →
  files w' = files w ∧ currentTokens w' = currentTokens w
  ∧ tokenMutex w' = tokenMutex w.
Proof.
  revert page allActivities w.
  induction fuel as [|fuel IH]; intros page allActivities w Hret; [done|].
  simpl in Hret. unfold client_Do, emit, mbind, M_bind, mret, M_ret in Hret.
  simpl in Hret.
  destruct (http_Get_activities env accessToken page)
    as [|statusCode decoded]; simpl in Hret; [by inversion Hret|].
  destruct (statusCode =? StatusOK); simpl in Hret; [|by inversion Hret].
  destruct decoded as [v|]; simpl in Hret; [|by inversion Hret].
  destruct (decodeRawActivities v) as [currentActivities|];
    simpl in Hret; [|by inversion Hret].
  destruct (Z.of_nat (length currentActivities) <? perPage);
    simpl in Hret; [by inversion Hret|].
  destruct (IH _ _ _ Hret) as (Hfiles & Htokens & Hmutex).
  by rewrite Hfiles, Htokens, Hmutex.
Qed.

(** The errors raised after the page loop are not page failures. *)
Lemma fetchPages_errors (fuel : nat) (accessToken : string) (page : Z)
    (allActivities : list (json F)) (w w' : World) (e : GoError) :
  fetchPages env fuel accessToken page allActivities w = Ret (Fail e) w' →
  pageFailure e.
Proof.
  revert page allActivities w.
  induction fuel as [|fuel IH]; intros page allActivities w Hret; [done|].
  simpl in Hret. unfold client_Do, emit, mbind, M_bind, mret, M_ret in Hret.
  simpl in Hret.
  destruct (http_Get_activities env accessToken page)
    as [|statusCode decoded]; simpl in Hret.
  { inversion Hret. by left. }
  destruct (statusCode =? StatusOK); simpl in Hret.
  2: { inversion Hret. right. left. by eexists. }
  destruct decoded as [v|]; simpl in Hret.
  2: { inversion Hret. by right; right. }
  destruct (decodeRawActivities v) as [currentActivities|]; simpl in Hret.
  2: { inversion Hret. by right; right. }
  destruct (Z.of_nat (length currentActivities) <? perPage);
    simpl in Hret; [by inversion Hret|].
  by eapply IH.
Qed.

(** The page loop aborts at the first failing page, however many full
    pages precede it, given fuel for them. *)
Lemma fetchPages_aborts (k : nat) (fuel : nat) (accessToken : string)
    (page : Z) (allActivities : list (json F)) (w : World) (e : GoError) :
  (∀ i, 0 ≤ i < Z.of_nat k → fullPage env accessToken (page + i)) →
  failingPage env accessToken (page + Z.of_nat k) e →
  (k < fuel)%nat →
  ∃ w', fetchPages env fuel accessToken page allActivities w = Ret (Fail e) w'
        ∧ files w' = files w.
Proof.
  revert fuel page allActivities w.
  induction k as [|k IH]; intros fuel page allActivities w Hfull Hfail Hfuel;
    (destruct fuel as [|fuel]; [lia|]); simpl;
    unfold client_Do, emit, mbind, M_bind, mret, M_ret; simpl.
  - rewrite Z.add_0_r in Hfail.
    destruct Hfail as [[-> ->]|[(statusCode & decoded & -> & Hcode & ->)
                               |(decoded & -> & Hdecode & ->)]]; simpl.
    + by eexists.
    + apply Z.eqb_neq in Hcode. rewrite Hcode. simpl. by eexists.
    + destruct decoded as [v|]; simpl in Hdecode |- *;
        [rewrite Hdecode|]; by eexists.
  - destruct (Hfull 0 ltac:(lia)) as (v & currentActivities & Hget & Hdec & Hlen).
    rewrite Z.add_0_r in Hget. rewrite Hget. simpl. rewrite Hdec.
    assert ((Z.of_nat (length currentActivities) <? perPage) = false) as ->
      by (apply Z.ltb_ge; lia).
    destruct (IH fuel (page + 1) (allActivities ++ currentActivities)
                (with_event (EvGetActivities accessToken page) w))
      as (w' & Hret & Hfiles).
    + intros i Hi. replace (page + 1 + i) with (page + (i + 1)) by lia.
      apply Hfull. lia.
    + replace (page + 1 + Z.of_nat k) with (page + Z.of_nat (S k)) by lia.
      done.
    + lia.
    + exists w'. by split.
Qed.

(** The bulk fetch whose page [k + 1] is the first to fail returns that
    failure, with the files as they were. *)
Lemma fetchAndSaveAllActivities_aborts (k : nat) (fuel : nat)
    (accessToken : string) (w : World) (e : GoError) :
  (∀ i, 0 ≤ i < Z.of_nat k → fullPage env accessToken (1 + i)) →
  failingPage env accessToken (1 + Z.of_nat k) e →
  (k < fuel)%nat →
  ∃ w', fetchAndSaveAllActivities env fuel accessToken w = Ret (Fail e) w'
        ∧ files w' = files w.
Proof.
  intros Hfull Hfail Hfuel.
  destruct (fetchPages_aborts k fuel accessToken 1 [] w e Hfull Hfail Hfuel)
    as (w' & Hret & Hfiles).
  exists w'. unfold fetchAndSaveAllActivities, mbind, M_bind.
  by rewrite Hret.
Qed.

(** C5. When the bulk fetch fails on a page (transport error, status
    other than 200, or a body that does not decode), no file has been
    created or modified: the cache, present or absent, is as it was. *)
Theorem fetch_failure_leaves_cache_untouched (fuel : nat)
    (accessToken : string) (w w' : World) (e : GoError) :
  fetchAndSaveAllActivities env fuel accessToken w = Ret (Fail e) w' →
  pageFailure e →
  files w' = files w ∧ files w' !! dataFilePath = files w !! dataFilePath.
Proof.
  intros Hret Hpage.
  enough (files w' = files w) as Hfiles by (by rewrite Hfiles).
  unfold fetchAndSaveAllActivities, mbind, M_bind in Hret.
  destruct (fetchPages env fuel accessToken 1 [] w)
    as [[allActivities|e1] w1| | |] eqn:Hpages; try done.
  2: { inversion Hret; subst. by destruct (fetchPages_frame _ _ _ _ _ _ _ Hpages). }
  unfold os_MkdirAll, os_Create, encoder_Encode, emit, mbind, M_bind,
    mret, M_ret in Hret. simpl in Hret.
  destruct (os_MkdirAll_ok env dataDir); simpl in Hret.
  2: { inversion Hret; subst. by destruct Hpage as [|[[? ?]|]]. }
  destruct (os_Create_ok env dataFilePath); simpl in Hret.
  2: { inversion Hret; subst. by destruct Hpage as [|[[? ?]|]]. }
  destruct (json_Encode_ok env); simpl in Hret; inversion Hret; subst.
  by destruct Hpage as [|[[? ?]|]].
Qed.

End FetchProperties.

(** The bulk fetch that fails on its second page, over an existing cache. *)
Lemma fetch_failure_leaves_cache_untouched_witness :
  let w := scenarioWorld freshTokens (cacheOf (JArr [morningRun])) in
  ∃ w',
    fetchAndSaveAllActivities secondPageFailsEnv 5 "access-1" w
      = Ret (Fail (ErrFetchStatus 401)) w'
    ∧ trace w' = [EvGetActivities "access-1" 1; EvGetActivities "access-1" 2]
    ∧ files w' = files w
    ∧ files w' !! dataFilePath = files w !! dataFilePath.
Proof.
  eexists. split; [vm_compute; reflexivity|]. split; [reflexivity|].
  apply (fetch_failure_leaves_cache_untouched secondPageFailsEnv 5 "access-1"
           (scenarioWorld freshTokens (cacheOf (JArr [morningRun]))) _
           (ErrFetchStatus 401)).
  - vm_compute. reflexivity.
  - right. left. by exists 401.
Defined.

(** ** Properties of the monthly aggregation *)

Section MonthlyProperties.
Context {F : Type} {num : Float64 F} {gotime : GoTime} {gojson : GoJson F}.
Context (env : Env F).

#[local] Abbreviation World := (World F).

(** [readLocalActivities] on a readable cache. *)
Lemma readLocalActivities_readable (w : World) (c : FileContent F) :
  files w !! dataFilePath = Some c →
  os_ReadFile_denied env dataFilePath = false →
  readLocalActivities env w =
    Ret match json_Unmarshal_raw c with
        | None => Fail ErrDataFileParse
        | Some rawActivities =>
          if decide (length (omap extractMinimal rawActivities) = 0%nat)
          then Fail ErrNoValidActivities
          else OK (omap extractMinimal rawActivities)
        end
        (with_event (EvReadFile dataFilePath) w).
Proof.
  intros Hfile Hreadable.
  unfold readLocalActivities, os_ReadFile, mbind, M_bind, mret, M_ret.
  simpl. rewrite Hfile, Hreadable.
  destruct (json_Unmarshal_raw c) as [rawActivities|]; [|done].
  by case_decide.
Qed.

(** C1 (as amended). On a cache that parses as the empty JSON array both
    monthly aggregations fail with the no-valid-activities error, and with
    a valid token GET /api/stats and GET /api/pace-stats answer 500 with
    that error. *)
Theorem empty_cache_monthly_stats_fail (w : World) :
  files w !! dataFilePath = Some (FJson (JArr [])) →
  os_ReadFile_denied env dataFilePath = false →
  calculateMonthlyDistanceStats env w
    = Ret (Fail ErrNoValidActivities) (with_event (EvReadFile dataFilePath) w)
  ∧ calculateMonthlyPaceStats env w
    = Ret (Fail ErrNoValidActivities) (with_event (EvReadFile dataFilePath) w)
  ∧ (tokenMutex w = false → AccessToken (currentTokens w) ≠ "" →
     expiresWithinMargin env (currentTokens w) = false →
     handleGetDistanceStats env w
       = Ret {| status := 500;
                body := BError "Gagal menghitung statistik jarak"
                               (Some ErrNoValidActivities) |}
             (with_event (EvReadFile dataFilePath) w)
     ∧ handleGetPaceStats env w
       = Ret {| status := 500;
                body := BError "Gagal menghitung statistik pace"
                               (Some ErrNoValidActivities) |}
             (with_event (EvReadFile dataFilePath) w)).
Proof.
  intros Hfile Hreadable.
  pose proof (readLocalActivities_readable w _ Hfile Hreadable) as Hread.
  simpl in Hread.
  assert (calculateMonthlyDistanceStats env w
          = Ret (Fail ErrNoValidActivities)
                (with_event (EvReadFile dataFilePath) w)) as Hdistance.
  { unfold calculateMonthlyDistanceStats, mbind, M_bind. by rewrite Hread. }
  assert (calculateMonthlyPaceStats env w
          = Ret (Fail ErrNoValidActivities)
                (with_event (EvReadFile dataFilePath) w)) as Hpace.
  { unfold calculateMonthlyPaceStats, mbind, M_bind. by rewrite Hread. }
  repeat split; try done.
  - unfold handleGetDistanceStats, mbind, M_bind.
    rewrite (ensureValidToken_fresh env w) by done. by rewrite Hdistance.
  - unfold handleGetPaceStats, mbind, M_bind.
    rewrite (ensureValidToken_fresh env w) by done. by rewrite Hpace.
Qed.

(** *** Cells of the monthly distance aggregate *)

Lemma classifyActivity_cases (activityType : string) :
  classifyActivity activityType = "RunWalkHike"
  ∨ classifyActivity activityType = "Bike"
  ∨ classifyActivity activityType = "Other".
Proof. unfold classifyActivity. repeat case_decide; auto. Qed.

(** One activity adds its distance to the cell of its month and category
    and leaves every other cell as it was. *)
Lemma distanceStep_cell (statsMap : gmap string (MonthlySportStats F))
    (activity : MinimalActivityData F) (monthYear category : string) :
  category = "RunWalkHike" ∨ category = "Bike" ∨ category = "Other" →
  cell monthYear category (distanceStep statsMap activity)
  = if decide (monthOf activity = Some monthYear
               ∧ classifyActivity (Type_ activity) = category)
    then fadd (cell monthYear category statsMap) (Distance activity)
    else cell monthYear category statsMap.
Proof.
  intros Hcategory. unfold cell, distanceStep, monthOf.
  destruct (decide (_ ∧ _)) as [[Hmonth Hclass]|Hnot];
    (destruct (time_Parse_RFC3339 (StartDate activity)) as [t|]; [|done]);
    simpl in *.
  - assert (monthYear = Format_2006_01 t) as -> by congruence.
    rewrite lookup_insert_eq, Hclass.
    destruct (statsMap !! Format_2006_01 t) as [stat|];
      destruct Hcategory as [-> | [-> | ->]];
      unfold categoryDistance; repeat case_decide; simpl; done.
  - destruct (decide (monthYear = Format_2006_01 t)) as [->|Hother];
      [|by rewrite lookup_insert_ne].
    rewrite lookup_insert_eq.
    assert (classifyActivity (Type_ activity) ≠ category) as Hclass
      by (intros Hclass; by apply Hnot).
    destruct (statsMap !! Format_2006_01 t) as [stat|];
      destruct (classifyActivity_cases (Type_ activity)) as [Hc|[Hc|Hc]];
      destruct Hcategory as [-> | [-> | ->]]; rewrite Hc in *;
      unfold categoryDistance; repeat case_decide; simpl; done.
Qed.

(** Every cell of the accumulated map is the sum, in cache order, of the
    distances of the activities of that month and category.  No property of
    addition is used: this holds in binary64 as it stands. *)
Lemma monthly_cells_are_ordered_sums
    (activities : list (MinimalActivityData F))
    (statsMap : gmap string (MonthlySportStats F))
    (monthYear category : string) :
  category = "RunWalkHike" ∨ category = "Bike" ∨ category = "Other" →
  cell monthYear category (foldl distanceStep statsMap activities)
  = foldl fadd (cell monthYear category statsMap)
      (cellDistances monthYear category activities).
Proof.
  intros Hcategory. revert statsMap.
  induction activities as [|activity activities IH]; intros statsMap; [done|].
  simpl. rewrite IH, distanceStep_cell by done.
  unfold cellDistances. rewrite filter_cons.
  by case_decide.
Qed.

(** *** Zero-safe pace *)

Lemma paceStep_pacesUnset (paceMap : gmap string (MonthlyPaceStats F))
    (activity : MinimalActivityData F) :
  map_Forall (λ _, pacesUnset) paceMap →
  map_Forall (λ _, pacesUnset) (paceStep paceMap activity).
Proof.
  intros Hunset. unfold paceStep.
  destruct (time_Parse_RFC3339 (StartDate activity)) as [t|]; [|done].
  apply map_Forall_insert_2; [|done].
  destruct (paceMap !! Format_2006_01 t) as [stat|] eqn:Hstat.
  - apply Hunset in Hstat. by repeat case_decide.
  - by repeat case_decide.
Qed.

Lemma accumulated_pacesUnset (activities : list (MinimalActivityData F))
    (paceMap : gmap string (MonthlyPaceStats F)) :
  map_Forall (λ _, pacesUnset) paceMap →
  map_Forall (λ _, pacesUnset) (foldl paceStep paceMap activities).
Proof.
  revert paceMap. induction activities as [|activity activities IH];
    intros paceMap Hunset; [done|].
  simpl. by apply IH, paceStep_pacesUnset.
Qed.

(** Every record of the monthly pace aggregate is [derivePaces] of a record
    whose paces were unset. *)
Lemma monthlyPaceStats_derived (activities : list (MinimalActivityData F))
    (stat : MonthlyPaceStats F) :
  stat ∈ monthlyPaceStats activities →
  ∃ accumulated, stat = derivePaces accumulated ∧ pacesUnset accumulated.
Proof.
  unfold monthlyPaceStats. intros Hin.
  apply list_elem_of_fmap in Hin as (accumulated & -> & Hin).
  exists accumulated. split; [done|].
  apply list_elem_of_fmap in Hin as ([monthYear stat'] & -> & Hin).
  apply elem_of_map_to_list in Hin.
  by apply (accumulated_pacesUnset activities ∅ (map_Forall_empty _) _ _ Hin).
Qed.

(** C8. In every record of the monthly pace aggregate, each category's
    pace is the quotient time / distance only when the accumulated distance
    is greater than zero, and is exactly zero otherwise; in particular a
    category whose accumulated distance is zero has pace zero. *)
Theorem zero_distance_gives_zero_pace (w w' : World)
    (stats : list (MonthlyPaceStats F)) (stat : MonthlyPaceStats F) :
  fltb fzero fzero = false →
  calculateMonthlyPaceStats env w = Ret (OK stats) w' →
  stat ∈ stats →
  (RunWalkHikePace stat =
     if fgtb (RunWalkHikeDistance stat) fzero
     then fdiv (RunWalkHikeTime stat) (RunWalkHikeDistance stat) else fzero)
  ∧ (BikePace stat =
     if fgtb (BikeDistance stat) fzero
     then fdiv (BikeTime stat) (BikeDistance stat) else fzero)
  ∧ (OtherPace stat =
     if fgtb (OtherDistance stat) fzero
     then fdiv (OtherTime stat) (OtherDistance stat) else fzero)
  ∧ (RunWalkHikeDistance stat = fzero → RunWalkHikePace stat = fzero)
  ∧ (BikeDistance stat = fzero → BikePace stat = fzero)
  ∧ (OtherDistance stat = fzero → OtherPace stat = fzero).
Proof.
  intros Hzero Hret Hin.
  unfold calculateMonthlyPaceStats, mbind, M_bind in Hret.
  destruct (readLocalActivities env w) as [[activities|e] w1| | |];
    try done.
  inversion Hret; subst.
  destruct (monthlyPaceStats_derived activities stat Hin)
    as (accumulated & -> & Hrun & Hbike & Hother).
  unfold derivePaces, fgtb; simpl. rewrite Hrun, Hbike, Hother.
  repeat split; try done.
  - intros Hdist. by rewrite Hdist, Hzero.
  - intros Hdist. by rewrite Hdist, Hzero.
  - intros Hdist. by rewrite Hdist, Hzero.
Qed.

End MonthlyProperties.


(** ** Conservation of distance *)

Section Conservation.
Context {F : Type} {num : Float64 F} {gotime : GoTime} {gojson : GoJson F}.
Context (env : Env F).

(** The laws of exact addition.  binary64 addition is commutative but
    rounds, so it is associative only up to rounding. *)
Hypothesis fadd_assoc : ∀ x y z : F, fadd x (fadd y z) = fadd (fadd x y) z.
Hypothesis fadd_comm : ∀ x y : F, fadd x y = fadd y x.
Hypothesis fadd_zero_l : ∀ x : F, fadd fzero x = x.

#[local] Abbreviation World := (World F).

Lemma sumF_perm (l l' : list F) : l ≡ₚ l' → sumF l = sumF l'.
Proof.
  induction 1 as [|x l l' _ IH|x y l|l l' l'' _ IH1 _ IH2]; simpl.
  - done.
  - by rewrite IH.
  - by rewrite !fadd_assoc, (fadd_comm x y).
  - by rewrite IH1.
Qed.

Lemma sumF_app (l l' : list F) : sumF (l ++ l') = fadd (sumF l) (sumF l').
Proof.
  induction l as [|x l IH]; simpl; [by rewrite fadd_zero_l|].
  by rewrite IH, fadd_assoc.
Qed.

Lemma mapTotal_empty : mapTotal (∅ : gmap string (MonthlySportStats F)) = fzero.
Proof. unfold mapTotal. by rewrite map_to_list_empty. Qed.

Lemma mapTotal_insert_fresh (statsMap : gmap string (MonthlySportStats F))
    (monthYear : string) (stat : MonthlySportStats F) :
  statsMap !! monthYear = None →
  mapTotal (<[monthYear := stat]> statsMap)
    = fadd (rowTotal stat) (mapTotal statsMap).
Proof.
  intros Hfresh. unfold mapTotal, aggregateTotal.
  by rewrite (sumF_perm _ _
    (fmap_Permutation rowTotal _ _
      (fmap_Permutation snd _ _ (map_to_list_insert statsMap _ stat Hfresh)))).
Qed.

Lemma mapTotal_insert (statsMap : gmap string (MonthlySportStats F))
    (monthYear : string) (stat : MonthlySportStats F) :
  mapTotal (<[monthYear := stat]> statsMap)
    = fadd (rowTotal stat) (mapTotal (delete monthYear statsMap)).
Proof.
  rewrite <- insert_delete_eq.
  apply mapTotal_insert_fresh, lookup_delete_eq.
Qed.

Lemma mapTotal_lookup (statsMap : gmap string (MonthlySportStats F))
    (monthYear : string) (stat : MonthlySportStats F) :
  statsMap !! monthYear = Some stat →
  mapTotal statsMap = fadd (rowTotal stat) (mapTotal (delete monthYear statsMap)).
Proof.
  intros Hstat. rewrite <- mapTotal_insert. by rewrite insert_id.
Qed.

(** Adding a distance to one category adds it to the month's total. *)
Lemma rowTotal_add (r b o d : F) :
  fadd (fadd (fadd r d) b) o = fadd (fadd (fadd r b) o) d
  ∧ fadd (fadd r (fadd b d)) o = fadd (fadd (fadd r b) o) d
  ∧ fadd (fadd r b) (fadd o d) = fadd (fadd (fadd r b) o) d.
Proof.
  assert (fadd (fadd (fadd r b) d) o = fadd (fadd (fadd r b) o) d) as Hswap.
  { by rewrite <- (fadd_assoc (fadd r b) d o), (fadd_comm d o), fadd_assoc. }
  repeat split.
  - by rewrite <- (fadd_assoc r d b), (fadd_comm d b), (fadd_assoc r b d).
  - by rewrite (fadd_assoc r b d).
  - by rewrite fadd_assoc.
Qed.

(** One activity adds its distance to the total when its date parses, and
    nothing otherwise. *)
Lemma distanceStep_total (statsMap : gmap string (MonthlySportStats F))
    (activity : MinimalActivityData F) :
  mapTotal (distanceStep statsMap activity)
    = if parses (StartDate activity)
      then fadd (Distance activity) (mapTotal statsMap)
      else mapTotal statsMap.
Proof.
  unfold distanceStep, parses.
  destruct (time_Parse_RFC3339 (StartDate activity)) as [t|]; [|done].
  rewrite bool_decide_eq_true_2 by done.
  rewrite mapTotal_insert.
  destruct (rowTotal_add fzero fzero fzero (Distance activity))
    as (Hrun0 & Hbike0 & Hother0).
  destruct (statsMap !! Format_2006_01 t) as [stat|] eqn:Hstat.
  - rewrite (mapTotal_lookup _ _ _ Hstat).
    destruct (rowTotal_add (RunWalkHike stat) (Bike stat) (Other stat)
                (Distance activity)) as (Hrun & Hbike & Hother).
    rewrite (fadd_assoc (Distance activity)), (fadd_comm (Distance activity)).
    destruct (classifyActivity_cases (Type_ activity)) as [Hc|[Hc|Hc]];
      rewrite Hc; repeat case_decide; try done; unfold rowTotal; simpl.
    + by rewrite Hrun.
    + by rewrite Hbike.
    + by rewrite Hother.
  - rewrite delete_id by done.
    destruct (classifyActivity_cases (Type_ activity)) as [Hc|[Hc|Hc]];
      rewrite Hc; repeat case_decide; try done; unfold rowTotal; simpl.
    + by rewrite Hrun0, !fadd_zero_l.
    + by rewrite Hbike0, !fadd_zero_l.
    + by rewrite Hother0, !fadd_zero_l.
Qed.

Lemma accumulated_total (activities : list (MinimalActivityData F))
    (statsMap : gmap string (MonthlySportStats F)) :
  mapTotal (foldl distanceStep statsMap activities)
    = fadd (mapTotal statsMap)
        (sumF (Distance <$> filter (λ a, parses (StartDate a) = true) activities)).
Proof.
  revert statsMap.
  induction activities as [|activity activities IH]; intros statsMap; simpl.
  { by rewrite fadd_comm, fadd_zero_l. }
  rewrite IH, distanceStep_total, filter_cons.
  destruct (parses (StartDate activity)) eqn:Hparses.
  - rewrite decide_True by done. simpl.
    by rewrite (fadd_comm (Distance activity)), fadd_assoc.
  - by rewrite decide_False by done.
Qed.

(** In exact arithmetic, whenever the monthly distance aggregation
    succeeds, the sum of the aggregate over all categories and months
    equals the sum of [distance] over the cached activities that
    [readLocalActivities] keeps and whose start date parses. *)
Theorem monthly_distance_conserves_kept_distance (w w' : World)
    (stats : list (MonthlySportStats F)) :
  calculateMonthlyDistanceStats env w = Ret (OK stats) w' →
  ∃ content rawActivities,
    files w !! dataFilePath = Some content
    ∧ json_Unmarshal_raw content = Some rawActivities
    ∧ omap extractMinimal rawActivities ≠ []
    ∧ aggregateTotal stats = keptDistanceTotal rawActivities.
Proof.
  unfold calculateMonthlyDistanceStats, readLocalActivities, os_ReadFile,
    mbind, M_bind, mret, M_ret. simpl. intros Hret.
  destruct (files w !! dataFilePath) as [content|] eqn:Hfile;
    simpl in Hret; [|done].
  destruct (os_ReadFile_denied env dataFilePath); simpl in Hret; [done|].
  destruct (json_Unmarshal_raw content) as [rawActivities|] eqn:Hraw;
    simpl in Hret; [|done].
  case_decide as Hkept; simpl in Hret; [done|].
  inversion Hret; subst. exists content, rawActivities.
  repeat split; try done.
  { intros Hnil. by rewrite Hnil in Hkept. }
  unfold monthlyDistanceStats, keptDistanceTotal.
  change (aggregateTotal (map_to_list ?m).*2) with (mapTotal m).
  by rewrite accumulated_total, mapTotal_empty, fadd_zero_l.
Qed.

End Conservation.

(** *** The monthly aggregation on the scenarios *)

(** C1 (counterexample). With a valid token and the cache file [[]], both
    monthly stats endpoints answer 500 with an error, not 200 with the
    empty list. *)
Lemma empty_cache_is_an_error :
  let w := scenarioWorld freshTokens (cacheOf (JArr [])) in
  json_Unmarshal_raw (FJson (JArr []) : FileContent float) = Some []
  ∧ returned (handleGetDistanceStats offlineEnv w)
    = Some {| status := 500;
              body := BError "Gagal menghitung statistik jarak"
                             (Some ErrNoValidActivities) |}
  ∧ returned (handleGetPaceStats offlineEnv w)
    = Some {| status := 500;
              body := BError "Gagal menghitung statistik pace"
                             (Some ErrNoValidActivities) |}
  ∧ returned (calculateMonthlyDistanceStats offlineEnv w)
    = Some (Fail ErrNoValidActivities)
  ∧ returned (calculateMonthlyPaceStats offlineEnv w)
    = Some (Fail ErrNoValidActivities).
Proof. repeat split. Qed.

(** The empty cache, read through the amended property. *)
Lemma empty_cache_monthly_stats_fail_witness :
  let w := scenarioWorld freshTokens (cacheOf (JArr [])) in
  calculateMonthlyDistanceStats offlineEnv w
    = Ret (Fail ErrNoValidActivities) (with_event (EvReadFile dataFilePath) w)
  ∧ calculateMonthlyPaceStats offlineEnv w
    = Ret (Fail ErrNoValidActivities) (with_event (EvReadFile dataFilePath) w).
Proof.
  destruct (empty_cache_monthly_stats_fail offlineEnv
              (scenarioWorld freshTokens (cacheOf (JArr [])))
              eq_refl eq_refl) as (Hdistance & Hpace & _).
  by split.
Defined.

(** The specification's second scenario: one 10 km run of 3000 s. *)
Example single_run_monthly_stats :
  let w := scenarioWorld freshTokens (cacheOf (JArr [morningRun])) in
  returned (handleGetDistanceStats offlineEnv w)
    = Some {| status := 200;
              body := BDistanceStats
                        [{| MonthYear := "2024-03"; RunWalkHike := 10000%float;
                            Bike := 0%float; Other := 0%float |}] |}
  ∧ returned (handleGetPaceStats offlineEnv w)
    = Some {| status := 200; body := BPaceStats [marchPaceStats] |}.
Proof. repeat split. Qed.

(** A month with a run only: the bike and other paces are zero. *)
Lemma zero_distance_gives_zero_pace_witness :
  let w := scenarioWorld freshTokens (cacheOf (JArr [morningRun])) in
  returned (calculateMonthlyPaceStats offlineEnv w) = Some (OK [marchPaceStats])
  ∧ (BikeDistance marchPaceStats = 0%float → BikePace marchPaceStats = 0%float)
  ∧ (OtherDistance marchPaceStats = 0%float
     → OtherPace marchPaceStats = 0%float).
Proof.
  split; [reflexivity|].
  assert (fltb (F := float) fzero fzero = false) as Hzero by reflexivity.
  assert (calculateMonthlyPaceStats offlineEnv
            (scenarioWorld freshTokens (cacheOf (JArr [morningRun])))
          = Ret (OK [marchPaceStats])
                (with_event (EvReadFile dataFilePath)
                   (scenarioWorld freshTokens (cacheOf (JArr [morningRun])))))
    as Hret by reflexivity.
  destruct (zero_distance_gives_zero_pace offlineEnv _ _ _ marchPaceStats
              Hzero Hret (list_elem_of_here _ _))
    as (_ & _ & _ & _ & Hbike & Hother).
  by split.
Defined.

(** A cache with a run and a ride recorded without moving time, both
    with parseable start dates: the aggregate sums to 10000 m, the
    distances of the activities with parseable dates to 15000 m. *)
Lemma manual_activity_breaks_conservation :
  let w := scenarioWorld freshTokens (cacheOf (JArr [morningRun; manualRide])) in
  let stats := [{| MonthYear := "2024-03"; RunWalkHike := 10000%float;
                   Bike := 0%float; Other := 0%float |}] in
  returned (calculateMonthlyDistanceStats offlineEnv w) = Some (OK stats)
  ∧ omap datedDistance [morningRun; manualRide] = [10000%float; 5000%float]
  ∧ aggregateTotal stats = 10000%float
  ∧ cacheDistanceTotal [morningRun; manualRide] = 15000%float
  ∧ PrimFloat.ltb (aggregateTotal stats)
      (cacheDistanceTotal [morningRun; manualRide]) = true.
Proof. repeat split. Qed.

(** In binary64 the aggregate groups the additions by category, and the
    grouping shows in the last digit ((0.1 + 0.3) + 0.2 against
    0.1 + (0.2 + 0.3)). *)
Example binary64_totals_depend_on_grouping :
  aggregateTotal (monthlyDistanceStats (omap extractMinimal shortActivities))
    = 0.60000000000000009%float
  ∧ keptDistanceTotal shortActivities = 0.59999999999999998%float
  ∧ PrimFloat.ltb (keptDistanceTotal shortActivities)
      (aggregateTotal (monthlyDistanceStats (omap extractMinimal shortActivities)))
    = true.
Proof. repeat split. Qed.

(** Conservation over exact rationals, on a cache where one activity has
    no moving time and one has an unparseable date. *)
Lemma monthly_distance_conserves_kept_distance_witness :
  ∃ stats w' content rawActivities,
    calculateMonthlyDistanceStats (num := exact_rational) exactEnv exactWorld
      = Ret (OK stats) w'
    ∧ files exactWorld !! dataFilePath = Some content
    ∧ json_Unmarshal_raw content = Some rawActivities
    ∧ omap (extractMinimal (num := exact_rational)) rawActivities ≠ []
    ∧ aggregateTotal (num := exact_rational) stats
      = keptDistanceTotal (num := exact_rational) rawActivities.
Proof.
  eexists _, _.
  assert (calculateMonthlyDistanceStats (num := exact_rational) exactEnv
            exactWorld
          = Ret (OK (monthlyDistanceStats (num := exact_rational)
                       (omap (extractMinimal (num := exact_rational)) exactCache)))
                (with_event (EvReadFile dataFilePath) exactWorld)) as Hret
    by reflexivity.
  destruct (monthly_distance_conserves_kept_distance (num := exact_rational)
              exactEnv Qcplus_assoc Qcplus_comm Qcplus_0_l
              exactWorld _ _ Hret)
    as (content & rawActivities & Hfile & Hraw & Hkept & Htotal).
  exists content, rawActivities. by repeat split.
Defined.


(** ** Properties of the date-range aggregate *)

Section WeeklyProperties.
Context {F : Type} {num : Float64 F} {gotime : GoTime} {gojson : GoJson F}.
Context (env : Env F).

#[local] Abbreviation World := (World F).

Lemma dateKey_midnight (day : Z) : dateKey (day * secondsPerDay) = day.
Proof. unfold dateKey, secondsPerDay. by apply Z.div_mul. Qed.

(** The zero-filling loop enters one zero record per day from [current]
    to the end date, and leaves every other key alone. *)
Lemma zeroFill_lookup (bound : nat) (current endDay : Z)
    (weeklyData : gmap Z (PaceStat F)) (d : Z) :
  endDay + 1 - current ≤ Z.of_nat bound →
  zeroFill bound (current * secondsPerDay) (endDay * secondsPerDay) weeklyData
    !! d
  = if decide (current ≤ d ≤ endDay) then Some zeroPaceStat
    else weeklyData !! d.
Proof.
  revert current weeklyData.
  induction bound as [|bound IH]; intros current weeklyData Hbound; simpl.
  { destruct (decide (current ≤ d ≤ endDay)); [lia|done]. }
  destruct (current * secondsPerDay <? endDay * secondsPerDay + secondsPerDay)
    eqn:Hlt.
  - apply Z.ltb_lt in Hlt. unfold secondsPerDay in Hlt.
    replace (current * secondsPerDay + secondsPerDay)
      with ((current + 1) * secondsPerDay) by (unfold secondsPerDay; lia).
    rewrite IH by lia. rewrite dateKey_midnight.
    destruct (decide (current + 1 ≤ d ≤ endDay)) as [Hlater|Hnot];
      destruct (decide (current ≤ d ≤ endDay)) as [Hin|Hout];
      try done; try lia.
    + assert (d = current) as -> by lia. by rewrite lookup_insert_eq.
    + rewrite lookup_insert_ne by lia. done.
  - apply Z.ltb_ge in Hlt. unfold secondsPerDay in Hlt.
    destruct (decide (current ≤ d ≤ endDay)); [lia|done].
Qed.

(** The keys after zero-filling an empty map are the days of the range. *)
Lemma zeroFill_days (startDay endDay d : Z) :
  zeroFill (zeroFillBound (startDay * secondsPerDay) (endDay * secondsPerDay))
    (startDay * secondsPerDay) (endDay * secondsPerDay) ∅ !! d
  = if decide (startDay ≤ d ≤ endDay) then Some zeroPaceStat else None.
Proof.
  rewrite zeroFill_lookup; [by rewrite lookup_empty|].
  unfold zeroFillBound.
  replace (endDay * secondsPerDay + secondsPerDay - startDay * secondsPerDay)
    with ((endDay + 1 - startDay) * secondsPerDay)
    by (unfold secondsPerDay; lia).
  rewrite Z.div_mul by done. lia.
Qed.

(** An activity changes at most the record of its own day. *)
Lemma addDailyActivity_other_day (startDate endDate : Z)
    (weeklyData : gmap Z (PaceStat F)) (activity : StravaActivity F) (d : Z) :
  activityDay activity ≠ Some d →
  addDailyActivity startDate endDate weeklyData activity !! d = weeklyData !! d.
Proof.
  unfold addDailyActivity, activityDay. intros Hother.
  destruct (time_Parse_RFC3339 (sa_StartDateLocal activity)) as [t|];
    [|done].
  simpl in Hother.
  destruct (_ && _); [|done].
  rewrite lookup_insert_ne; [done|congruence].
Qed.

(** An activity is added only on a day of the range: no key is added. *)
Lemma addDailyActivity_days (startDay endDay : Z)
    (weeklyData : gmap Z (PaceStat F)) (activity : StravaActivity F) :
  (∀ d, is_Some (weeklyData !! d) ↔ startDay ≤ d ≤ endDay) →
  ∀ d, is_Some (addDailyActivity (startDay * secondsPerDay)
                  (endDay * secondsPerDay) weeklyData activity !! d)
       ↔ startDay ≤ d ≤ endDay.
Proof.
  intros Hdays. unfold addDailyActivity.
  destruct (time_Parse_RFC3339 (sa_StartDateLocal activity)) as [t|];
    [|done].
  simpl. unfold truncateDay.
  rewrite (Z.mul_comm secondsPerDay (unixSec t / secondsPerDay)).
  rewrite dateKey_midnight.
  set (day := unixSec t / secondsPerDay).
  destruct (((day * secondsPerDay =? startDay * secondsPerDay)
             || (startDay * secondsPerDay <? day * secondsPerDay))
            && ((day * secondsPerDay =? endDay * secondsPerDay)
                || (day * secondsPerDay <? endDay * secondsPerDay + secondsPerDay)))
    eqn:Hin; [|done].
  apply andb_true_iff in Hin as [Hfrom Hto].
  apply orb_true_iff in Hfrom, Hto.
  rewrite Z.eqb_eq, Z.ltb_lt in Hfrom, Hto. unfold secondsPerDay in Hfrom, Hto.
  assert (startDay ≤ day ≤ endDay) as Hday by lia.
  intros d. destruct (decide (d = day)) as [->|Hne].
  - rewrite lookup_insert_eq. split; [done|by eexists].
  - by rewrite lookup_insert_ne.
Qed.

(** An activity that is not a run with positive distance and moving time
    contributes four zeros. *)
Lemma calculatePaceStats_unmatched (activity : StravaActivity F) :
  matchesZones activity = false → calculatePaceStats activity = zeroPaceStat.
Proof.
  unfold matchesZones, calculatePaceStats. intros Hunmatched.
  destruct (bool_decide (sa_Type activity = "Run")); [|done].
  simpl in *. apply negb_false_iff in Hunmatched. by rewrite Hunmatched.
Qed.

(** A zero record stays zero under an activity that, if counted on that
    day, does not contribute to a zone. *)
Lemma addDailyActivity_quiet_day (startDate endDate : Z)
    (weeklyData : gmap Z (PaceStat F)) (activity : StravaActivity F) (d : Z) :
  fadd fzero fzero = fzero →
  weeklyData !! d = Some zeroPaceStat →
  (activityDay activity = Some d → matchesZones activity = false) →
  addDailyActivity startDate endDate weeklyData activity !! d
    = Some zeroPaceStat.
Proof.
  intros Hzero Hrecord Hquiet.
  destruct (decide (activityDay activity = Some d)) as [Hday|Hother].
  2: { by rewrite addDailyActivity_other_day. }
  specialize (Hquiet Hday). unfold addDailyActivity, activityDay in *.
  destruct (time_Parse_RFC3339 (sa_StartDateLocal activity)) as [t|];
    [|done].
  simpl in Hday. injection Hday as Hday.
  destruct (_ && _); [|done].
  rewrite Hday, lookup_insert_eq, Hrecord.
  rewrite (calculatePaceStats_unmatched activity Hquiet). simpl.
  by rewrite Hzero.
Qed.

(** Folding the activities keeps the days of the range, and keeps zero the
    record of a day on which no counted activity contributes to a zone. *)
Lemma addDailyActivities_lookup (startDay endDay : Z)
    (activities : list (StravaActivity F))
    (weeklyData : gmap Z (PaceStat F)) :
  fadd fzero fzero = fzero →
  (∀ d, is_Some (weeklyData !! d) ↔ startDay ≤ d ≤ endDay) →
  (∀ d, is_Some (foldl (addDailyActivity (startDay * secondsPerDay)
                          (endDay * secondsPerDay)) weeklyData activities !! d)
        ↔ startDay ≤ d ≤ endDay)
  ∧ (∀ d, weeklyData !! d = Some zeroPaceStat →
          (∀ activity, activity ∈ activities →
                       activityDay activity = Some d →
                       matchesZones activity = false) →
          foldl (addDailyActivity (startDay * secondsPerDay)
                   (endDay * secondsPerDay)) weeklyData activities !! d
          = Some zeroPaceStat).
Proof.
  intros Hzero. revert weeklyData.
  induction activities as [|activity activities IH];
    intros weeklyData Hdays; simpl; [done|].
  pose proof (addDailyActivity_days startDay endDay weeklyData activity Hdays)
    as Hdays'.
  destruct (IH _ Hdays') as [Hall Hquiet].
  split; [done|]. intros d Hrecord Hnone.
  apply Hquiet.
  - apply addDailyActivity_quiet_day; [done..|].
    apply Hnone, list_elem_of_here.
  - intros other Hin. by apply Hnone, list_elem_of_further.
Qed.

(** A map whose keys are the days [startDay .. endDay] has that many
    entries. *)
Lemma size_of_days (weeklyData : gmap Z (PaceStat F)) (startDay endDay : Z) :
  (∀ d, is_Some (weeklyData !! d) ↔ startDay ≤ d ≤ endDay) →
  size weeklyData = Z.to_nat (endDay - startDay + 1).
Proof.
  intros Hdays.
  assert (dom weeklyData = list_to_set (seqZ startDay (endDay - startDay + 1)))
    as Hdom.
  { apply set_eq. intros d.
    rewrite elem_of_dom, elem_of_list_to_set, elem_of_seqZ, Hdays. lia. }
  rewrite <- (size_dom (D := gset Z)), Hdom.
  rewrite size_list_to_set by apply NoDup_seqZ.
  by rewrite length_seqZ.
Qed.

(** [loadLocalActivities] always returns, having read the cache file. *)
Lemma loadLocalActivities_returns (w : World) :
  ∃ activities,
    loadLocalActivities env w
    = Ret activities (with_event (EvReadFile dataFilePath) w).
Proof.
  unfold loadLocalActivities, os_ReadFile, mbind, M_bind, mret, M_ret,
    dataFilePath.
  simpl.
  destruct (files w !! _) as [content|]; [|by eexists].
  destruct (os_ReadFile_denied env _); [by eexists|].
  destruct content; by eexists.
Qed.

(** The daily map of a range of whole days: one record per day, zero on
    the days where no counted activity contributes to a zone. *)
Lemma weeklyPaceData_days (startDay endDay : Z)
    (activities : list (StravaActivity F)) :
  fadd fzero fzero = fzero →
  size (weeklyPaceData (startDay * secondsPerDay) (endDay * secondsPerDay)
          activities)
    = Z.to_nat (endDay - startDay + 1)
  ∧ (∀ d, is_Some (weeklyPaceData (startDay * secondsPerDay)
                     (endDay * secondsPerDay) activities !! d)
          ↔ startDay ≤ d ≤ endDay)
  ∧ (∀ d, startDay ≤ d ≤ endDay →
          (∀ activity, activity ∈ activities →
                       activityDay activity = Some d →
                       matchesZones activity = false) →
          weeklyPaceData (startDay * secondsPerDay) (endDay * secondsPerDay)
            activities !! d
          = Some zeroPaceStat).
Proof.
  intros Hzero.
  assert (∀ d, is_Some (zeroFill
                 (zeroFillBound (startDay * secondsPerDay) (endDay * secondsPerDay))
                 (startDay * secondsPerDay) (endDay * secondsPerDay) ∅ !! d)
               ↔ startDay ≤ d ≤ endDay) as Hfilled.
  { intros d. rewrite zeroFill_days.
    destruct (decide (startDay ≤ d ≤ endDay)); [by split; eauto|].
    split; [by intros [? ?]|done]. }
  destruct (addDailyActivities_lookup startDay endDay activities _ Hzero Hfilled)
    as [Hdays Hquiet].
  split; [by apply size_of_days|]. split; [done|].
  intros d Hd Hnone. unfold weeklyPaceData.
  apply Hquiet; [|done].
  rewrite zeroFill_days. by rewrite decide_True.
Qed.

(** The default range is the seven days from the Monday on or before
    today (UTC). *)
Lemma defaultWeek_monday_to_sunday :
  ∃ monday,
    defaultWeek env = (monday * secondsPerDay, (monday + 6) * secondsPerDay)
    ∧ (monday + 4) mod 7 = 1
    ∧ monday ≤ now_ns env / 1000000000 / secondsPerDay ≤ monday + 6.
Proof.
  unfold defaultWeek, truncateDay.
  set (now := now_ns env / 1000000000).
  set (today := now / secondsPerDay).
  set (offset := if 0 <? 1 - (today + 4) mod 7 then -6
                 else 1 - (today + 4) mod 7).
  assert ((now + offset * secondsPerDay) / secondsPerDay = today + offset)
    as Hstart by (unfold today, secondsPerDay; by rewrite Z.div_add).
  exists (today + offset). rewrite Hstart.
  assert ((secondsPerDay * (today + offset) + 6 * secondsPerDay) / secondsPerDay
          = today + offset + 6) as Hend.
  { replace (secondsPerDay * (today + offset) + 6 * secondsPerDay)
      with ((today + offset + 6) * secondsPerDay) by ring.
    unfold secondsPerDay. by rewrite Z.div_mul. }
  rewrite Hend. split; [f_equal; apply Z.mul_comm|].
  clear Hstart Hend. subst offset. generalize today. clear. intros today.
  destruct (0 <? 1 - (today + 4) mod 7) eqn:Hsunday.
  - apply Z.ltb_lt in Hsunday. Z.div_mod_to_equations. lia.
  - apply Z.ltb_ge in Hsunday. Z.div_mod_to_equations. lia.
Qed.

(** Without both dates the aggregate covers the default week: seven
    entries. *)
Lemma weekly_stats_default_week (w : World) (startQuery endQuery : string) :
  fadd fzero fzero = fzero →
  startQuery = "" ∨ endQuery = "" →
  ∃ weeklyData w',
    handleGetWeeklyPaceStats env startQuery endQuery w
      = Ret {| status := 200; body := BWeekly weeklyData |} w'
    ∧ size weeklyData = 7%nat.
Proof.
  intros Hzero Hmissing.
  destruct (loadLocalActivities_returns w) as [activities Hload].
  destruct defaultWeek_monday_to_sunday as (monday & Hweek & _).
  unfold handleGetWeeklyPaceStats.
  assert (negb (bool_decide (startQuery = ""))
          && negb (bool_decide (endQuery = "")) = false) as ->.
  { destruct Hmissing as [-> | ->]; [done|]. apply andb_false_r. }
  rewrite Hweek. unfold mbind, M_bind. rewrite Hload. simpl.
  eexists _, _. split; [done|].
  destruct (weeklyPaceData_days monday (monday + 6) activities Hzero)
    as (-> & _). f_equal. lia.
Qed.

(** C7. For a range given by two dates with startDate ≤ endDate, the
    date-range aggregate answers 200 with exactly endDate − startDate + 1
    day entries, one for each calendar day of the range, and a day on which
    no cached activity is counted that is a run with positive distance and
    moving time carries four zero distances. *)
Theorem weekly_stats_one_entry_per_day (w : World)
    (startQuery endQuery : string) (startDay endDay : Z) :
  fadd fzero fzero = fzero →
  startQuery ≠ "" → endQuery ≠ "" →
  time_ParseInLocation_date startQuery = Some startDay →
  time_ParseInLocation_date endQuery = Some endDay →
  startDay ≤ endDay →
  ∃ weeklyData activities w',
    handleGetWeeklyPaceStats env startQuery endQuery w
      = Ret {| status := 200; body := BWeekly weeklyData |} w'
    ∧ loadLocalActivities env w = Ret activities w'
    ∧ size weeklyData = Z.to_nat (endDay - startDay + 1)
    ∧ (∀ d, is_Some (weeklyData !! d) ↔ startDay ≤ d ≤ endDay)
    ∧ (∀ d, startDay ≤ d ≤ endDay →
            (∀ activity, activity ∈ activities →
                         activityDay activity = Some d →
                         matchesZones activity = false) →
            weeklyData !! d = Some zeroPaceStat).
Proof.
  intros Hzero Hstart Hend Hparse1 Hparse2 Horder.
  destruct (loadLocalActivities_returns w) as [activities Hload].
  exists (weeklyPaceData (startDay * secondsPerDay) (endDay * secondsPerDay)
            activities), activities, (with_event (EvReadFile dataFilePath) w).
  split; [|split; [done|by apply weeklyPaceData_days]].
  unfold handleGetWeeklyPaceStats.
  rewrite !bool_decide_eq_false_2 by done. simpl.
  rewrite Hparse1, Hparse2. unfold mbind, M_bind. by rewrite Hload.
Qed.

(** The date-range handler answers 400 with a message, or 200 with the
    daily map and nothing else: it computes no totals over the range. *)
Lemma weekly_response_shape (w : World) (startQuery endQuery : string) :
  ∃ r w',
    handleGetWeeklyPaceStats env startQuery endQuery w = Ret r w'
    ∧ ((∃ msg, r = {| status := 400; body := BError msg None |})
       ∨ (∃ weeklyData, r = {| status := 200; body := BWeekly weeklyData |})).
Proof.
  destruct (loadLocalActivities_returns w) as [activities Hload].
  unfold handleGetWeeklyPaceStats, mbind, M_bind, mret, M_ret.
  destruct (negb (bool_decide (startQuery = ""))
            && negb (bool_decide (endQuery = ""))).
  - destruct (time_ParseInLocation_date startQuery) as [startDay|].
    2: { eexists _, _. split; [done|]. left. by eexists. }
    destruct (time_ParseInLocation_date endQuery) as [endDay|].
    2: { eexists _, _. split; [done|]. left. by eexists. }
    rewrite Hload. eexists _, _. split; [done|]. right. by eexists.
  - destruct defaultWeek as [startDate endDate].
    rewrite Hload. eexists _, _. split; [done|]. right. by eexists.
Qed.

End WeeklyProperties.

(** *** The date-range aggregate on the scenarios *)


(** The week of 2024-03-11: seven entries. *)
Lemma weekly_stats_one_entry_per_day_witness :
  let w := scenarioWorld freshTokens (cacheOf marchWeekCache) in
  (fadd (F := float) fzero fzero = fzero
   ∧ time_ParseInLocation_date "2024-03-11" = Some 19793
   ∧ time_ParseInLocation_date "2024-03-17" = Some 19799
   ∧ 19793 ≤ 19799)
  ∧ ∃ weeklyData activities w',
      handleGetWeeklyPaceStats offlineEnv "2024-03-11" "2024-03-17" w
        = Ret {| status := 200; body := BWeekly weeklyData |} w'
      ∧ loadLocalActivities offlineEnv w = Ret activities w'
      ∧ size weeklyData = 7%nat
      ∧ (∀ d, is_Some (weeklyData !! d) ↔ 19793 ≤ d ≤ 19799)
      ∧ (∀ d, 19793 ≤ d ≤ 19799 →
              (∀ activity, activity ∈ activities →
                           activityDay activity = Some d →
                           matchesZones activity = false) →
              weeklyData !! d = Some zeroPaceStat).
Proof.
  split; [by repeat split|].
  apply (weekly_stats_one_entry_per_day offlineEnv
           (scenarioWorld freshTokens (cacheOf marchWeekCache))
           "2024-03-11" "2024-03-17" 19793 19799);
    [reflexivity | discriminate | discriminate | reflexivity | reflexivity
    | lia].
Defined.

(** ** Further properties of the token store *)

Ltac unfold_go :=
  unfold defer, Lock, Unlock, getTokens, setTokens, http_PostForm, client_Do,
    os_MkdirAll, os_WriteFile, os_Create, encoder_Encode, os_ReadFile,
    os_Stat, emit;
  unfold mbind, M_bind, mret, M_ret.

Section TokenStoreProperties.
Context {F : Type} {num : Float64 F} {gotime : GoTime} {gojson : GoJson F}.
Context (env : Env F).

#[local] Abbreviation World := (World F).

(** Every way [saveToken] returns, with what it leaves behind. *)
Lemma saveToken_outcome (t : TokenData) (w : World) :
  tokenMutex w = false →
  saveToken env t w =
    if os_MkdirAll_ok env dataDir then
      match os_WriteFile_result env tokenFilePath with
      | WriteDone =>
        Ret (OK ())
          {| currentTokens := t; tokenMutex := false;
             files := <[tokenFilePath := FToken t]> (files w);
             trace := trace w ++ [EvMkdirAll dataDir; EvWriteFile tokenFilePath] |}
      | WriteRefused =>
        Ret (Fail ErrWriteTokenFile)
          {| currentTokens := t; tokenMutex := false; files := files w;
             trace := trace w ++ [EvMkdirAll dataDir; EvWriteFile tokenFilePath] |}
      | WriteTorn =>
        Ret (Fail ErrWriteTokenFile)
          {| currentTokens := t; tokenMutex := false;
             files := <[tokenFilePath := FBytes ""]> (files w);
             trace := trace w ++ [EvMkdirAll dataDir; EvWriteFile tokenFilePath] |}
      end
    else
      Ret (Fail ErrMkdirData)
        {| currentTokens := t; tokenMutex := false; files := files w;
           trace := trace w ++ [EvMkdirAll dataDir] |}.
Proof.
  intros Hfree. unfold saveToken. unfold_go. rewrite Hfree. simpl.
  destruct (os_MkdirAll_ok env dataDir); simpl; [|done].
  destruct (os_WriteFile_result env tokenFilePath); simpl;
    unfold with_files, with_event, with_mutex; simpl;
    by rewrite <- app_assoc.
Qed.

Lemma saveToken_held (t : TokenData) (w : World) :
  tokenMutex w = true → saveToken env t w = Blocked w.
Proof. intros Hheld. unfold saveToken. unfold_go. by rewrite Hheld. Qed.

(** Whenever [saveToken] reports success, the in-memory mirror and the
    token file hold the record it was given, the mutex is free again and
    no other file has changed. *)
Theorem saveToken_success_mirror_equals_file (t : TokenData) (w w' : World) :
  saveToken env t w = Ret (OK ()) w' →
  currentTokens w' = t
  ∧ files w' !! tokenFilePath = Some (FToken t)
  ∧ tokenMutex w' = false
  ∧ ∀ path, path ≠ tokenFilePath → files w' !! path = files w !! path.
Proof.
  intros Hret. destruct (tokenMutex w) eqn:Hfree.
  { by rewrite saveToken_held in Hret. }
  rewrite saveToken_outcome in Hret by done.
  destruct (os_MkdirAll_ok env dataDir); [|done].
  destruct (os_WriteFile_result env tokenFilePath); inversion Hret; subst;
    simpl.
  repeat split; [apply lookup_insert_eq|].
  intros path Hother. by rewrite lookup_insert_ne.
Qed.

(** When [saveToken] reports a failure, the in-memory mirror has already
    been replaced by the new record although the token file does not hold
    it: the file is as it was, or torn. *)
Theorem saveToken_failure_mirror_ahead_of_file (t : TokenData) (w w' : World)
    (e : GoError) :
  saveToken env t w = Ret (Fail e) w' →
  currentTokens w' = t
  ∧ tokenMutex w' = false
  ∧ (files w' = files w ∨ files w' = <[tokenFilePath := FBytes ""]> (files w)).
Proof.
  intros Hret. destruct (tokenMutex w) eqn:Hfree.
  { by rewrite saveToken_held in Hret. }
  rewrite saveToken_outcome in Hret by done.
  destruct (os_MkdirAll_ok env dataDir).
  - destruct (os_WriteFile_result env tokenFilePath); inversion Hret; subst;
      simpl; auto.
  - inversion Hret; subst. auto.
Qed.

(** [loadToken] with the mutex free, by what the token file holds. *)
Lemma loadToken_reads_token_file (restart : Env F)
    (unm : json F → TokenData → TokenData) (t : TokenData) (w : World) :
  tokenMutex w = false →
  files w !! tokenFilePath = Some (FToken t) →
  os_ReadFile_denied restart tokenFilePath = false →
  loadToken restart unm w =
    Ret () {| currentTokens := t; tokenMutex := false; files := files w;
              trace := trace w ++ [EvReadFile tokenFilePath] |}.
Proof.
  intros Hfree Hfile Hread. unfold loadToken. unfold_go. rewrite Hfree.
  simpl. rewrite Hfile, Hread. done.
Qed.

(** A record saved with success is the record [loadToken] restores at the
    next start, whatever the memory held before and whatever environment
    the restart runs in, as long as the token file can be read. *)
Theorem saveToken_loadToken_round_trip (restart : Env F)
    (unm : json F → TokenData → TokenData)
    (t forgotten : TokenData) (w w1 : World) :
  saveToken env t w = Ret (OK ()) w1 →
  os_ReadFile_denied restart tokenFilePath = false →
  ∃ w2, loadToken restart unm (with_tokens forgotten w1) = Ret () w2
        ∧ currentTokens w2 = t
        ∧ files w2 = files w1
        ∧ tokenMutex w2 = false.
Proof.
  intros Hsave Hread.
  assert (files w1 !! tokenFilePath = Some (FToken t) ∧ tokenMutex w1 = false)
    as [Hfile Hfree].
  { destruct (tokenMutex w) eqn:Hfree.
    { by rewrite saveToken_held in Hsave. }
    rewrite saveToken_outcome in Hsave by done.
    destruct (os_MkdirAll_ok env dataDir); [|done].
    destruct (os_WriteFile_result env tokenFilePath); inversion Hsave; subst.
    simpl. by rewrite lookup_insert_eq. }
  eexists. split.
  - apply loadToken_reads_token_file; done.
  - done.
Qed.

(** Without a token file, or with one that cannot be read, [loadToken]
    leaves the in-memory record as it was. *)
Lemma loadToken_without_file (unm : json F → TokenData → TokenData)
    (w : World) :
  tokenMutex w = false →
  files w !! tokenFilePath = None
  ∨ os_ReadFile_denied env tokenFilePath = true →
  ∃ w', loadToken env unm w = Ret () w'
        ∧ currentTokens w' = currentTokens w ∧ files w' = files w
        ∧ tokenMutex w' = false.
Proof.
  intros Hfree Hcase. unfold loadToken. unfold_go. rewrite Hfree. simpl.
  destruct (files w !! tokenFilePath) as [c|] eqn:Hfile.
  - destruct Hcase as [|Hdenied]; [done|]. rewrite Hdenied. simpl.
    eexists; split; [done|]. done.
  - simpl. eexists; split; [done|]. done.
Qed.

(** [ensureValidToken] hands out nothing but the stored access token, and
    only while it is non-empty and not within the margin of its expiry; in
    that case it has touched nothing and contacted nobody.  However it
    returns, the mutex is free again and neither the in-memory record nor
    any file has changed. *)
Theorem ensureValidToken_serves_only_fresh_stored_token
    (w w' : World) (r : result string) :
  ensureValidToken env w = Ret r w' →
  tokenMutex w' = false
  ∧ currentTokens w' = currentTokens w
  ∧ files w' = files w
  ∧ ∀ tok, r = OK tok →
      tok = AccessToken (currentTokens w) ∧ tok ≠ ""
      ∧ expiresWithinMargin env (currentTokens w) = false
      ∧ w' = w.
Proof.
  intros Hret. destruct (tokenMutex w) eqn:Hfree.
  { by rewrite ensureValidToken_held in Hret. }
  destruct (decide (AccessToken (currentTokens w) = "")) as [Hnone|Hsome].
  { rewrite ensureValidToken_unauthenticated in Hret by done.
    inversion Hret; subst. done. }
  destruct (expiresWithinMargin env (currentTokens w)) eqn:Hmargin.
  - rewrite ensureValidToken_expiring in Hret by done.
    destruct (refreshAccessToken env w) as [[u|e] w1|w1|w1|] eqn:Hrefresh;
      simpl in Hret; try done.
    { by destruct (refreshAccessToken_never_succeeds env w w1 u Hfree). }
    inversion Hret; subst.
    destruct (refreshAccessToken_releases env w w' _ Hfree Hrefresh)
      as (? & ? & ?).
    done.
  - rewrite ensureValidToken_fresh in Hret by done.
    inversion Hret; subst. split; [done|]. split; [done|]. split; [done|].
    intros tok [= <-]. done.
Qed.

(** [refreshAccessToken] never reports success.  With the mutex free it
    either fails, with the record and the files as they were, or the
    upstream has accepted the refresh and the call blocks: the mutex stays
    held, the in-memory record is the refreshed one, and no file has been
    written. *)
Theorem refreshAccessToken_fails_or_blocks (w : World) :
  tokenMutex w = false →
  (∃ e w', refreshAccessToken env w = Ret (Fail e) w'
           ∧ tokenMutex w' = false
           ∧ currentTokens w' = currentTokens w
           ∧ files w' = files w)
  ∨ (∃ newTokens w',
       http_PostForm_token env
         (GrantRefreshToken (RefreshToken (currentTokens w)))
         = HttpResp StatusOK (Some newTokens)
       ∧ refreshAccessToken env w = Blocked w'
       ∧ tokenMutex w' = true
       ∧ currentTokens w' = mergeRefreshed (currentTokens w) newTokens
       ∧ files w' = files w).
Proof.
  intros Hfree.
  destruct (decide (RefreshToken (currentTokens w) = "")) as [Hnone|Hsome].
  { destruct (refreshAccessToken_fails env w Hfree (or_introl Hnone))
      as (e & evs & -> & _).
    left. eexists _, _. done. }
  destruct (refresh_answer_cases env w) as [[newTokens Haccepted]|Hrejected].
  - right. exists newTokens. eexists. split; [done|].
    split; [by apply refreshAccessToken_blocks|]. done.
  - destruct (refreshAccessToken_fails env w Hfree (or_intror Hrejected))
      as (e & evs & -> & _).
    left. eexists _, _. done.
Qed.

(** A blocked [ensureValidToken] has left the mutex held. *)
Lemma ensureValidToken_blocked_holds (w w' : World) :
  tokenMutex w = false → ensureValidToken env w = Blocked w' →
  tokenMutex w' = true ∧ files w' = files w.
Proof.
  intros Hfree Hblocked.
  destruct (decide (AccessToken (currentTokens w) = "")) as [Hnone|Hsome].
  { by rewrite ensureValidToken_unauthenticated in Hblocked. }
  destruct (expiresWithinMargin env (currentTokens w)) eqn:Hmargin.
  2: { by rewrite ensureValidToken_fresh in Hblocked. }
  rewrite ensureValidToken_expiring in Hblocked by done.
  destruct (decide (RefreshToken (currentTokens w) = "")) as [Hno|Hrefresh].
  { destruct (refreshAccessToken_fails env w Hfree (or_introl Hno))
      as (e & evs & Heq & _).
    by rewrite Heq in Hblocked. }
  destruct (refresh_answer_cases env w) as [[newTokens Haccepted]|Hrejected].
  - rewrite (refreshAccessToken_blocks env w newTokens) in Hblocked by done.
    simpl in Hblocked. inversion Hblocked; subst. done.
  - destruct (refreshAccessToken_fails env w Hfree (or_intror Hrejected))
      as (e & evs & Heq & _).
    by rewrite Heq in Hblocked.
Qed.

(** Once a refresh has blocked, the mutex is never released: from then on
    every token check, every save, the status route, the activities route
    and both monthly statistics routes block as well, whatever the
    environment answers later. *)
Theorem blocked_refresh_disables_token_operations
    (later : Env F) (stat : string → bool) (w w' : World) :
  tokenMutex w = false →
  ensureValidToken env w = Blocked w' →
  tokenMutex w' = true
  ∧ ensureValidToken later w' = Blocked w'
  ∧ (∀ t, saveToken later t w' = Blocked w')
  ∧ handleStatus later stat w' = Blocked w'
  ∧ (∀ fuel refresh, handleGetActivities later stat fuel refresh w' = Blocked w')
  ∧ handleGetDistanceStats later w' = Blocked w'
  ∧ handleGetPaceStats later w' = Blocked w'.
Proof.
  intros Hfree Hblocked.
  destruct (ensureValidToken_blocked_holds w w' Hfree Hblocked) as [Hheld _].
  pose proof (ensureValidToken_held later w' Hheld) as Hcheck.
  split; [done|]. split; [done|].
  split. { intros t. unfold saveToken. unfold_go. by rewrite Hheld. }
  split. { unfold handleStatus. unfold_go. by rewrite Hheld. }
  split.
  { intros fuel refresh. unfold handleGetActivities.
    unfold mbind, M_bind. by rewrite Hcheck. }
  split.
  - unfold handleGetDistanceStats, mbind, M_bind. by rewrite Hcheck.
  - unfold handleGetPaceStats, mbind, M_bind. by rewrite Hcheck.
Qed.

(** [Add(-tokenTTLMargin)] on an int64 second: 60 seconds earlier, or the
    least time when that would fall below the int64 range. *)
Lemma time_Add_minus_margin (t : Z) :
  - 2 ^ 63 ≤ t < 2 ^ 63 →
  time_Add_seconds t (Z.quot (- tokenTTLMargin_ns) 1000000000)
  = if decide (- 2 ^ 63 + 60 ≤ t) then t - 60 else - (2 ^ 63 - 1).
Proof.
  intros Ht. change (Z.quot (- tokenTTLMargin_ns) 1000000000) with (-60).
  unfold time_Add_seconds.
  destruct (decide (- 2 ^ 63 + 60 ≤ t)) as [Hroom|Hnone].
  - rewrite wrap64_small by lia.
    replace (t <? t + -60) with false by (symmetry; apply Z.ltb_ge; lia).
    done.
  - assert (wrap64 (t + -60) = t + -60 + 2 ^ 64) as ->.
    { unfold wrap64.
      replace (t + -60 + 2 ^ 63)
        with (t + -60 + 2 ^ 63 + 2 ^ 64 + -1 * 2 ^ 64) by lia.
      rewrite Z.mod_add by done. rewrite Z.mod_small by lia. lia. }
    replace (t <? t + -60 + 2 ^ 64) with true
      by (symmetry; apply Z.ltb_lt; lia).
    done.
Qed.

(** With a clock after 1970, the status route reports the token as valid
    exactly when the access token is non-empty, not within the margin of
    [ensureValidToken], and not expiring at the very end of that margin,
    all on the expiry as [time.Unix] reads it; whenever it reports a valid
    token, [ensureValidToken] serves the stored token.  An [expires_at]
    above 9223371974719179007 wraps around to a time long past: the token
    is reported as not valid and is within the margin.  The route itself
    changes nothing. *)
Theorem handleStatus_token_status (stat : string → bool) (w : World) :
  0 ≤ now_ns env →
  tokenMutex w = false →
  ∃ report,
    handleStatus env stat w = Ret report w
    ∧ (token_status report = true ↔
         AccessToken (currentTokens w) ≠ ""
         ∧ expiresWithinMargin env (currentTokens w) = false
         ∧ time_Unix (ExpiresAt (currentTokens w)) * 1000000000
             ≠ time_Now_ns env + tokenTTLMargin_ns)
    ∧ (token_status report = true →
         ensureValidToken env w
           = Ret (OK (AccessToken (currentTokens w))) w)
    ∧ (9223371974719179007 < ExpiresAt (currentTokens w) < 2 ^ 63 →
         token_status report = false
         ∧ expiresWithinMargin env (currentTokens w) = true)
    ∧ (token_expires report = None ↔ ExpiresAt (currentTokens w) ≤ 0).
Proof.
  intros Hclock Hfree. unfold handleStatus. unfold_go. rewrite Hfree. simpl.
  rewrite relock_free by done.
  eexists. split; [done|]. simpl.
  assert (∀ P : Prop, ∀ `{Decision P}, negb (bool_decide P) = true ↔ ¬ P)
    as Hneg.
  { intros P ?. rewrite negb_true_iff, bool_decide_eq_false. done. }
  pose proof (wrap64_range (ExpiresAt (currentTokens w) + unixToInternal))
    as Hrange.
  fold (time_Unix (ExpiresAt (currentTokens w))) in Hrange.
  rewrite time_Add_minus_margin by done.
  set (seconds := time_Unix (ExpiresAt (currentTokens w))) in *.
  assert (token_valid :
    (time_Now_ns env
     <? (if decide (- 2 ^ 63 + 60 ≤ seconds) then seconds - 60
         else - (2 ^ 63 - 1)) * 1000000000) = true
    ↔ expiresWithinMargin env (currentTokens w) = false
      ∧ seconds * 1000000000 ≠ time_Now_ns env + tokenTTLMargin_ns).
  { unfold expiresWithinMargin. fold seconds.
    rewrite Z.ltb_lt, Z.ltb_ge.
    unfold time_Now_ns, unixToInternal, tokenTTLMargin_ns.
    destruct (decide (- 2 ^ 63 + 60 ≤ seconds)); lia. }
  split; [|split; [|split]].
  - rewrite andb_true_iff, Hneg, token_valid. tauto.
  - rewrite andb_true_iff, Hneg, token_valid. intros (Hsome & Hfresh & _).
    by apply ensureValidToken_fresh.
  - intros Hhigh.
    assert (expiresWithinMargin env (currentTokens w) = true) as Hwithin.
    { unfold expiresWithinMargin. fold seconds. apply Z.ltb_lt.
      destruct (time_Unix_cases (ExpiresAt (currentTokens w)))
        as [[? _]|[_ Hwrapped]]; [lia|lia|].
      fold seconds in Hwrapped. rewrite Hwrapped.
      unfold time_Now_ns, unixToInternal, tokenTTLMargin_ns. lia. }
    split; [|done]. apply not_true_is_false.
    rewrite andb_true_iff, token_valid. rewrite Hwithin.
    by intros (_ & [=] & _).
  - destruct (0 <? ExpiresAt (currentTokens w)) eqn:Hpos.
    + apply Z.ltb_lt in Hpos. split; [done|lia].
    + apply Z.ltb_ge in Hpos. done.
Qed.

(** Every way the OAuth callback returns.  Without a code nothing
    happens at all.  When the exchange fails the token record and the
    files are as they were.  When the exchange succeeds the in-memory
    record is the response, even when the answer is that the token could
    not be saved: then the token file does not hold it. *)
Theorem callback_outcomes (code error : string) (w w' : World)
    (r : Response F) :
  handleStravaCallback env code error w = Ret r w' →
  (code = "" ∧ r = missingCodeAnswer error ∧ w' = w)
  ∨ (code ≠ "" ∧ status r = 500 ∧ r ≠ saveFailedAnswer
     ∧ w' = with_event (EvPostToken (GrantAuthorizationCode code)) w)
  ∨ (code ≠ ""
     ∧ ∃ tokenResponse,
         http_PostForm_token env (GrantAuthorizationCode code)
           = HttpResp StatusOK (Some tokenResponse)
         ∧ currentTokens w' = tokenResponse
         ∧ ((r = successRedirect
             ∧ files w' = <[tokenFilePath := FToken tokenResponse]> (files w))
            ∨ (r = saveFailedAnswer
               ∧ (files w' = files w
                  ∨ files w' = <[tokenFilePath := FBytes ""]> (files w))))).
Proof.
  unfold handleStravaCallback.
  destruct (decide (code = "")) as [->|Hcode].
  { intros Hret. left. split; [done|]. unfold missingCodeAnswer.
    destruct (decide (error = "")); inversion Hret; done. }
  unfold http_PostForm, emit. unfold mbind at 1. unfold M_bind at 1.
  unfold mbind at 1. unfold M_bind at 1. unfold mret at 1. unfold M_ret at 1.
  destruct (http_PostForm_token env (GrantAuthorizationCode code))
    as [|statusCode decoded] eqn:Hpost.
  { intros [= <- <-]. right. left. done. }
  destruct (statusCode =? StatusOK) eqn:Hstatus; simpl.
  2: { intros [= <- <-]. right. left. done. }
  apply Z.eqb_eq in Hstatus as ->.
  destruct decoded as [tokenResponse|].
  2: { intros [= <- <-]. right. left. done. }
  unfold mbind, M_bind.
  destruct (tokenMutex w) eqn:Hfree.
  { by rewrite saveToken_held. }
  rewrite saveToken_outcome by done. intros Hret.
  right. right. split; [done|]. exists tokenResponse. split; [done|].
  destruct (os_MkdirAll_ok env dataDir).
  - destruct (os_WriteFile_result env tokenFilePath); inversion Hret; subst;
      simpl; split; try done.
    + by left.
    + right. split; [done|]. by left.
    + right. split; [done|]. by right.
  - inversion Hret; subst. simpl. split; [done|]. right. split; [done|].
    by left.
Qed.

End TokenStoreProperties.

(** ** Further properties of the bulk fetch *)

Section BulkFetchProperties.
Context {F : Type} (env : Env F).

#[local] Abbreviation World := (World F).

(** One turn of the page loop on a page that is answered with activities. *)
Lemma fetchPages_page (fuel : nat) (accessToken : string) (page : Z)
    (allActivities currentActivities : list (json F)) (w : World) :
  pageActivities env accessToken page = Some currentActivities →
  fetchPages env (S fuel) accessToken page allActivities w =
    if Z.of_nat (length currentActivities) <? perPage
    then Ret (OK (allActivities ++ currentActivities))
             (with_event (EvGetActivities accessToken page) w)
    else fetchPages env fuel accessToken (page + 1)
           (allActivities ++ currentActivities)
           (with_event (EvGetActivities accessToken page) w).
Proof.
  unfold pageActivities. intros Hpage. simpl. unfold_go.
  destruct (http_Get_activities env accessToken page)
    as [|statusCode decoded]; [done|].
  destruct (statusCode =? StatusOK); [|done]. simpl.
  destruct decoded as [v|]; [|done]. simpl in *. rewrite Hpage.
  by destruct (Z.of_nat (length currentActivities) <? perPage).
Qed.

(** The page loop over full pages followed by a short one. *)
Lemma fetchPages_collects (pages : list (list (json F))) :
  ∀ (fuel : nat) (accessToken : string) (page : Z)
    (allActivities lastPage : list (json F)) (w : World),
  (∀ i body, pages !! i = Some body →
     pageActivities env accessToken (page + Z.of_nat i) = Some body
     ∧ perPage ≤ Z.of_nat (length body)) →
  pageActivities env accessToken (page + Z.of_nat (length pages))
    = Some lastPage →
  Z.of_nat (length lastPage) < perPage →
  (length pages < fuel)%nat →
  fetchPages env fuel accessToken page allActivities w =
    Ret (OK (allActivities ++ concat pages ++ lastPage))
        {| currentTokens := currentTokens w; tokenMutex := tokenMutex w;
           files := files w;
           trace := trace w
                    ++ pageRequests accessToken page (S (length pages)) |}.
Proof.
  induction pages as [|body pages IH];
    intros fuel accessToken page allActivities lastPage w Hfull Hlast Hshort
      Hfuel.
  - destruct fuel as [|fuel]; [simpl in Hfuel; lia|].
    simpl in Hlast. rewrite Z.add_0_r in Hlast.
    rewrite (fetchPages_page _ _ _ _ lastPage) by done.
    apply Z.ltb_lt in Hshort. rewrite Hshort. done.
  - destruct fuel as [|fuel]; [simpl in Hfuel; lia|].
    destruct (Hfull 0%nat body eq_refl) as [Hbody Hlen].
    rewrite Z.add_0_r in Hbody.
    rewrite (fetchPages_page _ _ _ _ body) by done.
    apply Z.ltb_ge in Hlen. rewrite Hlen.
    rewrite (IH fuel accessToken (page + 1) _ lastPage).
    + simpl. rewrite <- !app_assoc. f_equal. f_equal.
      unfold pageRequests. f_equal.
      rewrite (seqZ_cons page) by lia. simpl. f_equal. f_equal. f_equal; lia.
    + intros i body' Hi. specialize (Hfull (S i) body' Hi).
      replace (page + 1 + Z.of_nat i) with (page + Z.of_nat (S i)) by lia.
      done.
    + simpl in Hlast.
      replace (page + 1 + Z.of_nat (length pages))
        with (page + Z.of_nat (S (length pages))) by lia.
      done.
    + done.
    + simpl in Hfuel. lia.
Qed.

(** What [fetchAndSaveAllActivities] does once the page loop has returned
    the activities. *)
Lemma fetchAndSave_after_pages (fuel : nat) (accessToken : string)
    (allActivities : list (json F)) (w w1 : World) :
  fetchPages env fuel accessToken 1 [] w = Ret (OK allActivities) w1 →
  fetchAndSaveAllActivities env fuel accessToken w =
    if negb (os_MkdirAll_ok env dataDir) then
      Ret (Fail ErrMkdirData) (with_event (EvMkdirAll dataDir) w1)
    else if negb (os_Create_ok env dataFilePath) then
      Ret (Fail ErrCreateDataFile)
          (with_event (EvCreate dataFilePath)
             (with_event (EvMkdirAll dataDir) w1))
    else if negb (json_Encode_ok env) then
      Ret (Fail ErrEncodeData)
          {| currentTokens := currentTokens w1; tokenMutex := tokenMutex w1;
             files := <[dataFilePath := FBytes ""]> (files w1);
             trace := trace w1 ++ [EvMkdirAll dataDir; EvCreate dataFilePath] |}
    else
      Ret (OK ())
          {| currentTokens := currentTokens w1; tokenMutex := tokenMutex w1;
             files := <[dataFilePath := FJson (encodeActivities allActivities)]>
                        (files w1);
             trace := trace w1 ++ [EvMkdirAll dataDir; EvCreate dataFilePath] |}.
Proof.
  intros Hpages. unfold fetchAndSaveAllActivities.
  unfold mbind at 1. unfold M_bind at 1. rewrite Hpages. unfold_go.
  destruct (os_MkdirAll_ok env dataDir); simpl; [|done].
  destruct (os_Create_ok env dataFilePath); simpl; [|done].
  destruct (json_Encode_ok env); simpl;
    unfold with_files, with_event; simpl; rewrite <- app_assoc;
    [rewrite insert_insert_eq|]; done.
Qed.

(** The bulk fetch collects the pages in order and stops at the first
    short one: when pages 1 to k are full, page k + 1 is short, and the
    cache can be written, it succeeds, the cache holds the concatenation
    of all k + 1 pages, exactly those pages have been requested, once each
    and in order, and nothing else has changed. *)
Theorem fetch_stores_concatenated_pages (fuel : nat) (accessToken : string)
    (pages : list (list (json F))) (lastPage : list (json F)) (w : World) :
  (∀ i body, pages !! i = Some body →
     pageActivities env accessToken (1 + Z.of_nat i) = Some body
     ∧ perPage ≤ Z.of_nat (length body)) →
  pageActivities env accessToken (1 + Z.of_nat (length pages))
    = Some lastPage →
  Z.of_nat (length lastPage) < perPage →
  (length pages < fuel)%nat →
  os_MkdirAll_ok env dataDir = true →
  os_Create_ok env dataFilePath = true →
  json_Encode_ok env = true →
  ∃ w',
    fetchAndSaveAllActivities env fuel accessToken w = Ret (OK ()) w'
    ∧ files w' = <[dataFilePath :=
                     FJson (encodeActivities (concat pages ++ lastPage))]>
                   (files w)
    ∧ trace w' = trace w
                 ++ pageRequests accessToken 1 (S (length pages))
                 ++ [EvMkdirAll dataDir; EvCreate dataFilePath]
    ∧ currentTokens w' = currentTokens w
    ∧ tokenMutex w' = tokenMutex w.
Proof.
  intros Hfull Hlast Hshort Hfuel Hmkdir Hcreate Hencode.
  pose proof (fetchPages_collects pages fuel accessToken 1 [] lastPage w
                Hfull Hlast Hshort Hfuel) as Hpages.
  rewrite (fetchAndSave_after_pages _ _ _ _ _ Hpages).
  rewrite Hmkdir, Hcreate, Hencode. simpl.
  eexists. split; [done|]. simpl. rewrite <- app_assoc. done.
Qed.

(** The page loop has no bound of its own: as long as every page is full
    it asks for the next one, so no number of requests is enough for the
    bulk fetch to return. *)
Lemma fetchPages_full_pages_go_on (fuel : nat) :
  ∀ (accessToken : string) (page : Z) (allActivities : list (json F))
    (w : World),
  (∀ later, page ≤ later → fullPage env accessToken later) →
  fetchPages env fuel accessToken page allActivities w = OutOfFuel.
Proof.
  induction fuel as [|fuel IH]; intros accessToken page allActivities w Hfull;
    [done|].
  destruct (Hfull page ltac:(lia)) as (v & currentActivities & Hget & Hdec & Hlen).
  rewrite (fetchPages_page _ _ _ _ currentActivities).
  - apply Z.ltb_ge in Hlen. rewrite Hlen. apply IH.
    intros later Hlater. apply Hfull. lia.
  - unfold pageActivities. rewrite Hget. simpl. done.
Qed.

(** An upstream that never sends a short page is never done with: the
    bulk fetch has not returned after any number of requests, and has
    written nothing. *)
Theorem fetch_full_pages_never_finish (accessToken : string) :
  (∀ page, 1 ≤ page → fullPage env accessToken page) →
  ∀ fuel w, fetchAndSaveAllActivities env fuel accessToken w = OutOfFuel.
Proof.
  intros Hfull fuel w. unfold fetchAndSaveAllActivities.
  unfold mbind at 1. unfold M_bind at 1.
  by rewrite fetchPages_full_pages_go_on.
Qed.

(** Every way the bulk fetch returns, in terms of its page loop. *)
Lemma fetchAndSave_returns (fuel : nat) (accessToken : string)
    (w w' : World) (r : result ()) :
  fetchAndSaveAllActivities env fuel accessToken w = Ret r w' →
  (∃ e, fetchPages env fuel accessToken 1 [] w = Ret (Fail e) w'
        ∧ r = Fail e ∧ pageFailure e)
  ∨ (∃ allActivities w1,
       fetchPages env fuel accessToken 1 [] w = Ret (OK allActivities) w1
       ∧ files w1 = files w).
Proof.
  intros Hret.
  destruct (fetchPages env fuel accessToken 1 [] w)
    as [[allActivities|e] w1| | |] eqn:Hpages.
  - right. exists allActivities, w1. split; [done|].
    by destruct (fetchPages_frame env _ _ _ _ _ _ _ Hpages) as (? & _).
  - left. exists e. unfold fetchAndSaveAllActivities in Hret.
    unfold mbind at 1 in Hret. unfold M_bind at 1 in Hret.
    rewrite Hpages in Hret. inversion Hret; subst.
    split; [done|]. split; [done|]. by eapply fetchPages_errors.
  - unfold fetchAndSaveAllActivities in Hret.
    unfold mbind at 1 in Hret. unfold M_bind at 1 in Hret.
    by rewrite Hpages in Hret.
  - unfold fetchAndSaveAllActivities in Hret.
    unfold mbind at 1 in Hret. unfold M_bind at 1 in Hret.
    by rewrite Hpages in Hret.
  - unfold fetchAndSaveAllActivities in Hret.
    unfold mbind at 1 in Hret. unfold M_bind at 1 in Hret.
    by rewrite Hpages in Hret.
Qed.

(** A failure of the bulk fetch that is not a page failure comes from
    writing the cache.  When the directory or the file cannot be created
    the files are as they were; when the encoding fails the cache file has
    already been created anew and is left empty, so a cache that was there
    before is lost. *)
Theorem fetch_write_failure_effects (fuel : nat) (accessToken : string)
    (w w' : World) (e : GoError) :
  fetchAndSaveAllActivities env fuel accessToken w = Ret (Fail e) w' →
  ¬ pageFailure e →
  ((e = ErrMkdirData ∨ e = ErrCreateDataFile) ∧ files w' = files w)
  ∨ (e = ErrEncodeData
     ∧ files w' = <[dataFilePath := FBytes ""]> (files w)
     ∧ json_Unmarshal_raw (F := F) (FBytes "") = None).
Proof.
  intros Hret Hwrite.
  destruct (fetchAndSave_returns _ _ _ _ _ Hret)
    as [(e' & _ & [= <-] & Hpage)|(allActivities & w1 & Hpages & Hfiles)];
    [done|].
  rewrite (fetchAndSave_after_pages _ _ _ _ _ Hpages) in Hret.
  destruct (os_MkdirAll_ok env dataDir); simpl in Hret.
  2: { inversion Hret; subst. left. split; [by left|done]. }
  destruct (os_Create_ok env dataFilePath); simpl in Hret.
  2: { inversion Hret; subst. left. split; [by right|done]. }
  destruct (json_Encode_ok env); simpl in Hret; [done|].
  inversion Hret; subst. right. simpl. by rewrite Hfiles.
Qed.

(** Decoding gives objects and nulls only. *)
Lemma decodeRawActivities_objects (v : json F) (l : list (json F)) :
  decodeRawActivities v = Some l → forallb isObjectOrNull l = true.
Proof.
  destruct v as [| | | |l'|]; simpl; try done.
  - by intros [= <-].
  - destruct (forallb isObjectOrNull l') eqn:Hall; [|done].
    by intros [= <-].
Qed.

(** The encoding of a list of activities decodes to the same list. *)
Lemma decode_encode_activities (l : list (json F)) :
  forallb isObjectOrNull l = true →
  decodeRawActivities (encodeActivities l) = Some l
  ∧ json_Unmarshal_raw_ignoring_error (FJson (encodeActivities l)) = l.
Proof.
  intros Hall. destruct l as [|v l]; [done|].
  unfold encodeActivities, decodeRawActivities. rewrite Hall. split; [done|].
  unfold json_Unmarshal_raw_ignoring_error.
  pose proof (proj1 (forallb_forall _ _) Hall) as Hin.
  clear Hall. rename Hin into Hall. rewrite <- (map_id (v :: l)) at 2.
  apply map_ext_in. intros v' Hin. specialize (Hall v' Hin).
  destruct v'; done.
Qed.

(** The page loop returns objects and nulls only. *)
Lemma fetchPages_objects (fuel : nat) :
  ∀ (accessToken : string) (page : Z) (allActivities result : list (json F))
    (w w' : World),
  forallb isObjectOrNull allActivities = true →
  fetchPages env fuel accessToken page allActivities w = Ret (OK result) w' →
  forallb isObjectOrNull result = true.
Proof.
  induction fuel as [|fuel IH];
    intros accessToken page allActivities result w w' Hall; [done|].
  simpl. unfold_go.
  destruct (http_Get_activities env accessToken page)
    as [|statusCode decoded]; [done|].
  destruct (statusCode =? StatusOK); [|done]. simpl.
  destruct decoded as [v|]; [|done]. simpl.
  destruct (decodeRawActivities v) as [currentActivities|] eqn:Hdec; [|done].
  apply decodeRawActivities_objects in Hdec.
  assert (forallb isObjectOrNull (allActivities ++ currentActivities) = true)
    as Hall'.
  { rewrite forallb_app, Hall, Hdec. done. }
  destruct (Z.of_nat (length currentActivities) <? perPage).
  - by intros [= <- _].
  - by apply IH.
Qed.

(** A cache written by a successful bulk fetch decodes again, to the very
    activities that were fetched, whether the decoding error is checked or
    ignored; no other file has changed. *)
Theorem fetched_cache_round_trip (fuel : nat) (accessToken : string)
    (w w' : World) :
  fetchAndSaveAllActivities env fuel accessToken w = Ret (OK ()) w' →
  ∃ allActivities cache,
    (∃ w1, fetchPages env fuel accessToken 1 [] w = Ret (OK allActivities) w1)
    ∧ files w' !! dataFilePath = Some cache
    ∧ json_Unmarshal_raw cache = Some allActivities
    ∧ json_Unmarshal_raw_ignoring_error cache = allActivities
    ∧ ∀ path, path ≠ dataFilePath → files w' !! path = files w !! path.
Proof.
  intros Hret.
  destruct (fetchAndSave_returns _ _ _ _ _ Hret)
    as [(e & _ & [=] & _)|(allActivities & w1 & Hpages & Hfiles)].
  pose proof (fetchPages_objects fuel accessToken 1 [] _ _ _ eq_refl Hpages)
    as Hall.
  destruct (decode_encode_activities _ Hall) as [Hdec Hlenient].
  rewrite (fetchAndSave_after_pages _ _ _ _ _ Hpages) in Hret.
  destruct (os_MkdirAll_ok env dataDir); simpl in Hret; [|done].
  destruct (os_Create_ok env dataFilePath); simpl in Hret; [|done].
  destruct (json_Encode_ok env); simpl in Hret; [|done].
  inversion Hret; subst. simpl.
  exists allActivities, (FJson (encodeActivities allActivities)).
  split; [by exists w1|]. split; [by rewrite lookup_insert_eq|].
  split; [done|]. split; [done|].
  intros path Hother. by rewrite lookup_insert_ne, Hfiles.
Qed.

End BulkFetchProperties.

(** ** Properties of the activities route *)

Section ActivitiesRouteProperties.
Context {F : Type} (env : Env F) (stat : string → bool).

#[local] Abbreviation World := (World F).

(** The second half of the route, by how the bulk fetch ends. *)
Lemma syncAndServeActivities_returns (fuel : nat) (accessToken : string)
    (answers all : list (Response F)) (w w' : World) :
  syncAndServeActivities env fuel accessToken answers w = Ret all w' →
  (∃ e, fetchAndSaveAllActivities env fuel accessToken w = Ret (Fail e) w'
        ∧ all = answers ++ [fetchFailedAnswer e])
  ∨ (∃ w1 final,
       fetchAndSaveAllActivities env fuel accessToken w = Ret (OK ()) w1
       ∧ os_ReadFile_denied env dataFilePath = true
       ∧ all = answers ++ [final] ∧ status final = 500)
  ∨ (∃ w1 fetched,
       fetchAndSaveAllActivities env fuel accessToken w = Ret (OK ()) w1
       ∧ (∃ w0, fetchPages env fuel accessToken 1 [] w = Ret (OK fetched) w0)
       ∧ w' = with_event (EvReadFile dataFilePath) w1
       ∧ files w1 !! dataFilePath = Some (FJson (encodeActivities fetched))
       ∧ all = answers ++ [{| status := 200; body := BActivities fetched |}]).
Proof.
  unfold syncAndServeActivities. unfold mbind at 1. unfold M_bind at 1.
  destruct (fetchAndSaveAllActivities env fuel accessToken w)
    as [[[]|e] w1| | |] eqn:Hfetch; try done.
  2: { unfold mret, M_ret. intros [= <- <-]. left. by exists e. }
  destruct (fetchAndSave_returns _ _ _ _ _ _ Hfetch)
    as [(e & _ & [=] & _)|(fetched & w0 & Hpages & Hfiles)].
  pose proof (fetchPages_objects env fuel accessToken 1 [] _ _ _ eq_refl Hpages)
    as Hall.
  destruct (decode_encode_activities _ Hall) as [_ Hlenient].
  assert (files w1 !! dataFilePath = Some (FJson (encodeActivities fetched)))
    as Hcache.
  { rewrite (fetchAndSave_after_pages _ _ _ _ _ _ Hpages) in Hfetch.
    destruct (os_MkdirAll_ok env dataDir); simpl in Hfetch; [|done].
    destruct (os_Create_ok env dataFilePath); simpl in Hfetch; [|done].
    destruct (json_Encode_ok env); simpl in Hfetch; [|done].
    inversion Hfetch; subst. simpl. by rewrite lookup_insert_eq. }
  unfold_go. simpl. rewrite Hcache.
  destruct (os_ReadFile_denied env dataFilePath) eqn:Hdenied.
  - intros [= <- <-]. right. left. eexists w1, _. done.
  - rewrite Hlenient. intros [= <- <-]. right. right.
    exists w1, fetched. split; [done|]. split; [by exists w0|]. done.
Qed.

(** The route after a token check that serves the stored token. *)
Lemma handleGetActivities_with_token (fuel : nat) (refresh : string)
    (w : World) :
  tokenMutex w = false →
  AccessToken (currentTokens w) ≠ "" →
  expiresWithinMargin env (currentTokens w) = false →
  handleGetActivities env stat fuel refresh w =
    match
      serveLocalActivities env
        (negb (stat dataFilePath)
         && bool_decide (is_Some (files w !! dataFilePath)))
        (bool_decide (refresh = "true")) w
    with
    | Ret (inl answers) w0 => Ret answers w0
    | Ret (inr answers) w0 =>
      syncAndServeActivities env fuel (AccessToken (currentTokens w)) answers w0
    | Blocked w0 => Blocked w0
    | Fatal w0 => Fatal w0
    | OutOfFuel => OutOfFuel
    end.
Proof.
  intros Hfree Hsome Hfresh. unfold handleGetActivities.
  unfold mbind at 1. unfold M_bind at 1.
  rewrite ensureValidToken_fresh by done.
  unfold os_Stat. unfold mbind at 1. unfold M_bind at 1.
  destruct (stat dataFilePath).
  { unfold serveLocalActivities. simpl. unfold_go. done. }
  destruct (files w !! dataFilePath) as [c|].
  - rewrite (bool_decide_eq_true_2 (is_Some _)) by (by eexists).
    change (negb false && true) with true.
    unfold mbind, M_bind.
    by destruct (serveLocalActivities env true _ w) as [[?|?] ?| | |].
  - rewrite (bool_decide_eq_false_2 (is_Some _)) by (by intros [? ?]).
    unfold serveLocalActivities. simpl. unfold_go. done.
Qed.

(** With a valid token and a cache that parses, the activities route
    answers from the cache unless a refresh is asked for: one answer, 200
    with the cached activities, one read of the cache, no request to the
    upstream and no file written, whatever the bound on the page loop. *)
Theorem activities_served_from_cache (fuel : nat) (refresh : string)
    (w : World) (cache : FileContent F) (localActivities : list (json F)) :
  tokenMutex w = false →
  AccessToken (currentTokens w) ≠ "" →
  expiresWithinMargin env (currentTokens w) = false →
  refresh ≠ "true" →
  stat dataFilePath = false →
  files w !! dataFilePath = Some cache →
  os_ReadFile_denied env dataFilePath = false →
  json_Unmarshal_raw cache = Some localActivities →
  handleGetActivities env stat fuel refresh w =
    Ret [{| status := 200; body := BActivities localActivities |}]
        (with_event (EvReadFile dataFilePath) w).
Proof.
  intros Hfree Hsome Hfresh Hrefresh Hstat Hfile Hread Hdecode.
  rewrite handleGetActivities_with_token by done.
  rewrite Hstat, Hfile. rewrite (bool_decide_eq_true_2 (is_Some _)) by (by eexists).
  rewrite bool_decide_eq_false_2 by done.
  unfold serveLocalActivities. unfold_go. simpl.
  rewrite Hfile, Hread, Hdecode. done.
Qed.

(** A cache that is there but does not parse gets two answers on one
    request: first 500 for the parse error, then, since the route goes on
    to the bulk fetch all the same, either a second 500 or 200 with the
    activities just fetched and stored. *)
Theorem corrupt_cache_is_answered_twice (fuel : nat) (refresh : string)
    (w w' : World) (cache : FileContent F) (answers : list (Response F)) :
  tokenMutex w = false →
  AccessToken (currentTokens w) ≠ "" →
  expiresWithinMargin env (currentTokens w) = false →
  refresh ≠ "true" →
  stat dataFilePath = false →
  files w !! dataFilePath = Some cache →
  os_ReadFile_denied env dataFilePath = false →
  json_Unmarshal_raw cache = None →
  handleGetActivities env stat fuel refresh w = Ret answers w' →
  ∃ final,
    answers = [corruptCacheAnswer; final]
    ∧ (status final = 500
       ∨ ∃ fetched,
           final = {| status := 200; body := BActivities fetched |}
           ∧ files w' !! dataFilePath
               = Some (FJson (encodeActivities fetched))).
Proof.
  intros Hfree Hsome Hfresh Hrefresh Hstat Hfile Hread Hdecode.
  rewrite handleGetActivities_with_token by done.
  rewrite Hstat, Hfile. rewrite (bool_decide_eq_true_2 (is_Some _)) by (by eexists).
  rewrite bool_decide_eq_false_2 by done.
  unfold serveLocalActivities. unfold_go. simpl.
  rewrite Hfile, Hread, Hdecode. intros Hsync.
  apply syncAndServeActivities_returns in Hsync
    as [(e & _ & ->)|[(w1 & final & _ & _ & -> & Hstatus)
                     |(w1 & fetched & _ & _ & -> & Hcache & ->)]].
  - eexists. split; [done|]. by left.
  - exists final. split; [done|]. by left.
  - eexists. split; [done|]. right. exists fetched. done.
Qed.

(** The files after a bulk fetch that failed. *)
Lemma failed_fetch_files (fuel : nat) (accessToken : string) (w w' : World)
    (e : GoError) :
  fetchAndSaveAllActivities env fuel accessToken w = Ret (Fail e) w' →
  (pageFailure e ∧ files w' = files w)
  ∨ (¬ pageFailure e
     ∧ (files w' = files w
        ∨ files w' = <[dataFilePath := FBytes ""]> (files w))).
Proof.
  intros Hret.
  destruct (fetchAndSave_returns _ _ _ _ _ _ Hret)
    as [(e' & Hpages & [= <-] & Hpage)|(allActivities & w1 & Hpages & Hfiles)].
  { left. split; [done|].
    by destruct (fetchPages_frame _ _ _ _ _ _ _ _ Hpages). }
  right. rewrite (fetchAndSave_after_pages _ _ _ _ _ _ Hpages) in Hret.
  destruct (os_MkdirAll_ok env dataDir); simpl in Hret.
  2: { inversion Hret; subst. split; [by intros [|[[? ?]|]]|by left]. }
  destruct (os_Create_ok env dataFilePath); simpl in Hret.
  2: { inversion Hret; subst. split; [by intros [|[[? ?]|]]|by left]. }
  destruct (json_Encode_ok env); simpl in Hret; [done|].
  inversion Hret; subst. split; [by intros [|[[? ?]|]]|].
  right. simpl. by rewrite Hfiles.
Qed.

(** When a refresh is asked for, or no cache can be seen, the route does
    not read the cache before the bulk fetch: its one answer is 200 with
    the activities just fetched and stored, or 500.  When the fetch failed
    on a page, the files are as they were, so a cache that was there is
    kept. *)
Theorem refresh_answers_from_upstream (fuel : nat) (refresh : string)
    (w w' : World) (answers : list (Response F)) :
  tokenMutex w = false →
  AccessToken (currentTokens w) ≠ "" →
  expiresWithinMargin env (currentTokens w) = false →
  refresh = "true" ∨ files w !! dataFilePath = None
  ∨ stat dataFilePath = true →
  handleGetActivities env stat fuel refresh w = Ret answers w' →
  (∃ e, answers = [fetchFailedAnswer e]
        ∧ fetchAndSaveAllActivities env fuel (AccessToken (currentTokens w)) w
            = Ret (Fail e) w'
        ∧ (pageFailure e → files w' = files w))
  ∨ (∃ final, answers = [final] ∧ status final = 500
              ∧ os_ReadFile_denied env dataFilePath = true)
  ∨ (∃ fetched,
       answers = [{| status := 200; body := BActivities fetched |}]
       ∧ (∃ w0, fetchPages env fuel (AccessToken (currentTokens w)) 1 [] w
                  = Ret (OK fetched) w0)
       ∧ files w' !! dataFilePath = Some (FJson (encodeActivities fetched))).
Proof.
  intros Hfree Hsome Hfresh Hcase.
  rewrite handleGetActivities_with_token by done.
  assert (serveLocalActivities env
            (negb (stat dataFilePath)
             && bool_decide (is_Some (files w !! dataFilePath)))
            (bool_decide (refresh = "true")) w = Ret (inr []) w) as ->.
  { unfold serveLocalActivities.
    destruct Hcase as [->|[Hnone|Hstat]].
    - rewrite (bool_decide_eq_true_2 ("true" = "true")) by done.
      by rewrite andb_false_r.
    - rewrite Hnone.
      rewrite (bool_decide_eq_false_2 (is_Some _)) by (by intros [? ?]).
      by rewrite andb_false_r.
    - by rewrite Hstat. }
  intros Hsync.
  apply syncAndServeActivities_returns in Hsync
    as [(e & Hfetch & ->)|[(w1 & final & _ & Hdenied & -> & Hstatus)
                          |(w1 & fetched & _ & Hpages & -> & Hcache & ->)]].
  - left. exists e. split; [done|]. split; [done|]. intros Hpage.
    by destruct (failed_fetch_files _ _ _ _ _ Hfetch) as [[_ ?]|[? _]].
  - right. left. by exists final.
  - right. right. by exists fetched.
Qed.

(** Without a valid token the route answers 401 and nothing else: the
    cache is neither looked for nor read, the upstream is not asked for
    activities, and the files and the token record are as they were. *)
Theorem activities_require_valid_token (fuel : nat) (refresh : string)
    (w w' : World) (e : GoError) :
  ensureValidToken env w = Ret (Fail e) w' →
  handleGetActivities env stat fuel refresh w = Ret [reloginAnswer e] w'
  ∧ files w' = files w
  ∧ currentTokens w' = currentTokens w
  ∧ ∃ evs, trace w' = trace w ++ evs
           ∧ ∀ ev, ev ∈ evs →
               isReadFile ev = false
               ∧ ∀ accessToken page, ev ≠ EvGetActivities accessToken page.
Proof.
  intros Hcheck. split.
  { unfold handleGetActivities. unfold mbind at 1. unfold M_bind at 1.
    by rewrite Hcheck. }
  destruct (ensureValidToken_failure_world env w w' e Hcheck)
    as (Hfree & Htokens & Hfiles & _).
  split; [done|]. split; [done|].
  destruct (decide (AccessToken (currentTokens w) = "")) as [Hnone|Hsome].
  { rewrite ensureValidToken_unauthenticated in Hcheck by done.
    inversion Hcheck; subst. exists []. split; [by rewrite app_nil_r|].
    intros ev Hin. by apply elem_of_nil in Hin. }
  destruct (expiresWithinMargin env (currentTokens w)) eqn:Hmargin.
  2: { by rewrite ensureValidToken_fresh in Hcheck. }
  rewrite ensureValidToken_expiring in Hcheck by done.
  assert (∃ evs, refreshAccessToken env w
                 = Ret (Fail e) {| currentTokens := currentTokens w;
                                   tokenMutex := false; files := files w;
                                   trace := trace w ++ evs |}
                 ∧ (evs = [] ∨ ∃ g, evs = [EvPostToken g]))
    as (evs & Hrefresh & Hevs).
  { destruct (decide (RefreshToken (currentTokens w) = "")) as [Hno|Hyes].
    - destruct (refreshAccessToken_fails env w Hfree (or_introl Hno))
        as (e' & evs & Heq & Hempty & _).
      rewrite Heq in Hcheck. simpl in Hcheck. inversion Hcheck; subst.
      exists evs. split; [done|]. left. by apply Hempty.
    - destruct (refresh_answer_cases env w) as [[newTokens Hacc]|Hrej].
      { by rewrite (refreshAccessToken_blocks env w newTokens) in Hcheck. }
      destruct (refreshAccessToken_fails env w Hfree (or_intror Hrej))
        as (e' & evs & Heq & _ & Hposted).
      rewrite Heq in Hcheck. simpl in Hcheck. inversion Hcheck; subst.
      exists evs. split; [done|]. right. eexists. by apply Hposted. }
  rewrite Hrefresh in Hcheck. simpl in Hcheck. inversion Hcheck; subst.
  exists evs. split; [done|]. intros ev Hin.
  destruct Hevs as [->|[g ->]].
  - by apply elem_of_nil in Hin.
  - apply list_elem_of_singleton in Hin as ->. done.
Qed.

End ActivitiesRouteProperties.

(** ** Further properties of the monthly aggregates *)

Section MonthlyAggregateProperties.
Context {F : Type} {num : Float64 F} {gotime : GoTime} {gojson : GoJson F}.
Context (env : Env F).

#[local] Abbreviation World := (World F).

(** A kept activity has all four fields in the cache, with positive
    distance and moving time. *)
Lemma extractMinimal_fields (activity : json F) (m : MinimalActivityData F) :
  fltb fzero fzero = false →
  extractMinimal activity = Some m →
  index activity "distance" = Some (JNum (Distance m))
  ∧ index activity "moving_time" = Some (JNum (MovingTime m))
  ∧ index activity "start_date" = Some (JStr (StartDate m))
  ∧ index activity "type" = Some (JStr (Type_ m))
  ∧ fgtb (Distance m) fzero = true
  ∧ fgtb (MovingTime m) fzero = true.
Proof.
  intros Hzero. unfold extractMinimal.
  destruct (getFloat (index activity "distance")) as [distance okd] eqn:Hd.
  destruct (getFloat (index activity "moving_time")) as [movingTime okm]
    eqn:Hm.
  destruct (assertString (index activity "start_date")) as [startDate ok1]
    eqn:Hs.
  destruct (assertString (index activity "type")) as [activityType ok2]
    eqn:Ht.
  destruct ok1, ok2; simpl; try done.
  destruct (fgtb distance fzero) eqn:Hdpos; simpl; [|done].
  destruct (fgtb movingTime fzero) eqn:Hmpos; simpl; [|done].
  intros [= <-]. simpl.
  assert (∀ v x ok, getFloat v = (x, ok) → fgtb x fzero = true →
                    v = Some (JNum x)) as Hfloat.
  { intros v x ok Hget Hpos. unfold getFloat in Hget.
    destruct v as [[]|]; inversion Hget; subst; try done;
      unfold fgtb in Hpos; congruence. }
  assert (∀ (v : option (json F)) x,
            assertString v = (x, true) → v = Some (JStr x)) as Hstring.
  { intros v x Hget. unfold assertString in Hget.
    by destruct v as [[]|]; inversion Hget; subst. }
  rewrite (Hfloat _ _ _ Hd Hdpos), (Hfloat _ _ _ Hm Hmpos).
  rewrite (Hstring _ _ Hs), (Hstring _ _ Ht). done.
Qed.

(** Whenever [readLocalActivities] succeeds, its result is not empty and
    every activity in it comes from a cached activity that has a numeric
    positive distance, a numeric positive moving time, and a start date and
    a type that are strings; the files are as they were. *)
Theorem kept_activities_are_complete_and_positive (w w' : World)
    (activities : list (MinimalActivityData F)) :
  fltb fzero fzero = false →
  readLocalActivities env w = Ret (OK activities) w' →
  activities ≠ []
  ∧ files w' = files w
  ∧ ∃ cache rawActivities,
      files w !! dataFilePath = Some cache
      ∧ json_Unmarshal_raw cache = Some rawActivities
      ∧ ∀ m, m ∈ activities →
          fgtb (Distance m) fzero = true
          ∧ fgtb (MovingTime m) fzero = true
          ∧ ∃ raw, raw ∈ rawActivities
              ∧ index raw "distance" = Some (JNum (Distance m))
              ∧ index raw "moving_time" = Some (JNum (MovingTime m))
              ∧ index raw "start_date" = Some (JStr (StartDate m))
              ∧ index raw "type" = Some (JStr (Type_ m)).
Proof.
  intros Hzero. unfold readLocalActivities. unfold_go. simpl.
  destruct (files w !! dataFilePath) as [cache|] eqn:Hfile; [|done].
  destruct (os_ReadFile_denied env dataFilePath); [done|].
  destruct (json_Unmarshal_raw cache) as [rawActivities|] eqn:Hdecode;
    [|done].
  destruct (decide (length (omap extractMinimal rawActivities) = 0%nat))
    as [Hempty|Hkept]; [done|].
  intros [= <- <-]. split.
  { intros Hnil. by rewrite Hnil in Hkept. }
  split; [done|]. exists cache, rawActivities. split; [done|].
  split; [done|]. intros m Hin.
  apply list_elem_of_omap in Hin as (raw & Hraw & Hextract).
  destruct (extractMinimal_fields raw m Hzero Hextract)
    as (? & ? & ? & ? & ? & ?).
  split; [done|]. split; [done|]. by exists raw.
Qed.

(** An activity whose start date does not parse leaves the accumulators
    of both monthly aggregates as they are. *)
Lemma undated_activity_is_skipped (activity : MinimalActivityData F)
    (statsMap : gmap string (MonthlySportStats F))
    (paceMap : gmap string (MonthlyPaceStats F)) :
  parses (StartDate activity) ≠ true →
  distanceStep statsMap activity = statsMap
  ∧ paceStep paceMap activity = paceMap.
Proof.
  unfold parses, distanceStep, paceStep. intros Hundated.
  destruct (time_Parse_RFC3339 (StartDate activity)) as [t|]; [|done].
  destruct Hundated. by apply bool_decide_eq_true_2.
Qed.

(** Activities whose start date does not parse are ignored by both
    monthly aggregates: removing them from the input changes neither. *)
Theorem monthly_stats_ignore_undated
    (activities : list (MinimalActivityData F)) :
  monthlyDistanceStats activities
    = monthlyDistanceStats
        (filter (λ a, parses (StartDate a) = true) activities)
  ∧ monthlyPaceStats activities
    = monthlyPaceStats
        (filter (λ a, parses (StartDate a) = true) activities).
Proof.
  unfold monthlyDistanceStats, monthlyPaceStats.
  enough (∀ statsMap paceMap,
            foldl distanceStep statsMap activities
              = foldl distanceStep statsMap
                  (filter (λ a, parses (StartDate a) = true) activities)
            ∧ foldl paceStep paceMap activities
              = foldl paceStep paceMap
                  (filter (λ a, parses (StartDate a) = true) activities))
    as Hfold.
  { destruct (Hfold ∅ ∅) as [<- <-]. done. }
  induction activities as [|activity activities IH]; intros statsMap paceMap;
    [done|].
  rewrite filter_cons. simpl.
  destruct (decide (parses (StartDate activity) = true)) as [Hdated|Hundated].
  - simpl. apply IH.
  - destruct (undated_activity_is_skipped activity statsMap paceMap Hundated)
      as [-> ->].
    apply IH.
Qed.

(** *** One record per month *)

(** Every record of the accumulator carries its own key. *)
Lemma distanceStep_keyed (statsMap : gmap string (MonthlySportStats F))
    (activity : MinimalActivityData F) :
  map_Forall (λ monthYear stat, MonthYear stat = monthYear) statsMap →
  map_Forall (λ monthYear stat, MonthYear stat = monthYear)
    (distanceStep statsMap activity).
Proof.
  intros Hkeyed. unfold distanceStep.
  destruct (time_Parse_RFC3339 (StartDate activity)) as [t|]; [|done].
  apply map_Forall_insert_2; [|done].
  destruct (statsMap !! Format_2006_01 t) as [stat|] eqn:Hstat.
  - apply Hkeyed in Hstat. by repeat case_decide.
  - by repeat case_decide.
Qed.

(** The months of the accumulator after one activity. *)
Lemma distanceStep_months (statsMap : gmap string (MonthlySportStats F))
    (activity : MinimalActivityData F) (monthYear : string) :
  is_Some (distanceStep statsMap activity !! monthYear)
  ↔ is_Some (statsMap !! monthYear) ∨ monthOf activity = Some monthYear.
Proof.
  unfold distanceStep, monthOf.
  destruct (time_Parse_RFC3339 (StartDate activity)) as [t|]; simpl.
  - rewrite lookup_insert_is_Some. split.
    + intros [->|[_ ?]]; [by right|by left].
    + intros [?|[= ->]]; [|by left].
      destruct (decide (Format_2006_01 t = monthYear)); [by left|by right].
  - split; [by left|]. by intros [?|?].
Qed.

Lemma accumulated_keyed_months (activities : list (MinimalActivityData F)) :
  ∀ statsMap : gmap string (MonthlySportStats F),
  map_Forall (λ monthYear stat, MonthYear stat = monthYear) statsMap →
  map_Forall (λ monthYear stat, MonthYear stat = monthYear)
    (foldl distanceStep statsMap activities)
  ∧ ∀ monthYear,
      is_Some (foldl distanceStep statsMap activities !! monthYear)
      ↔ is_Some (statsMap !! monthYear)
        ∨ ∃ a, a ∈ activities ∧ monthOf a = Some monthYear.
Proof.
  induction activities as [|activity activities IH]; intros statsMap Hkeyed.
  { split; [done|]. intros monthYear. split; [by left|].
    intros [?|(a & Hin & _)]; [done|]. by apply elem_of_nil in Hin. }
  simpl.
  destruct (IH _ (distanceStep_keyed statsMap activity Hkeyed))
    as [Hkeyed' Hmonths].
  split; [done|]. intros monthYear.
  rewrite Hmonths, distanceStep_months. split.
  - intros [[?|?]|(a & Hin & Hmonth)].
    + by left.
    + right. exists activity. split; [apply list_elem_of_here|done].
    + right. exists a. split; [by apply list_elem_of_further|done].
  - intros [?|(a & Hin & Hmonth)]; [by left; left|].
    apply elem_of_cons in Hin as [->|Hin]; [by left; right|].
    right. by exists a.
Qed.

(** The records of a keyed map, by their month. *)
Lemma keyed_months (statsMap : gmap string (MonthlySportStats F)) :
  map_Forall (λ monthYear stat, MonthYear stat = monthYear) statsMap →
  MonthYear <$> (map_to_list statsMap).*2 = (map_to_list statsMap).*1.
Proof.
  intros Hkeyed. apply map_Forall_to_list in Hkeyed.
  induction Hkeyed as [|[monthYear stat] l Hhead _ IH]; [done|].
  rewrite !fmap_cons. simpl in Hhead. simpl fst. simpl snd.
  rewrite Hhead. f_equal. apply IH.
Qed.

(** The monthly distance aggregate has exactly one record for every month
    in which an activity with a parseable date starts, and no record for
    any other month: months are not zero-filled. *)
Theorem monthly_distance_one_record_per_month
    (activities : list (MinimalActivityData F)) :
  NoDup (MonthYear <$> monthlyDistanceStats activities)
  ∧ ∀ monthYear,
      monthYear ∈ (MonthYear <$> monthlyDistanceStats activities)
      ↔ ∃ a, a ∈ activities ∧ monthOf a = Some monthYear.
Proof.
  unfold monthlyDistanceStats.
  destruct (accumulated_keyed_months activities ∅) as [Hkeyed Hmonths].
  { apply map_Forall_empty. }
  rewrite keyed_months by done. split.
  - apply NoDup_fst_map_to_list.
  - intros monthYear. specialize (Hmonths monthYear).
    rewrite lookup_empty in Hmonths. rewrite list_elem_of_fmap. split.
    + intros ([monthYear' stat] & -> & Hin).
      apply elem_of_map_to_list in Hin.
      destruct (proj1 Hmonths) as [[? [=]]|?]; [by eexists|done].
    + intros Hactivity.
      destruct (proj2 Hmonths (or_intror Hactivity)) as [stat Hstat].
      exists (monthYear, stat). split; [done|].
      by apply elem_of_map_to_list.
Qed.

(** Every record of the monthly distance aggregate holds, per category,
    the distances of the activities of its month and that category, added
    up from zero in cache order.  No property of addition is used: this
    holds in binary64 as it stands. *)
Theorem monthly_record_is_ordered_sum
    (activities : list (MinimalActivityData F)) (stat : MonthlySportStats F) :
  stat ∈ monthlyDistanceStats activities →
  RunWalkHike stat
    = foldl fadd fzero (cellDistances (MonthYear stat) "RunWalkHike" activities)
  ∧ Bike stat
    = foldl fadd fzero (cellDistances (MonthYear stat) "Bike" activities)
  ∧ Other stat
    = foldl fadd fzero (cellDistances (MonthYear stat) "Other" activities).
Proof.
  unfold monthlyDistanceStats. intros Hin.
  apply list_elem_of_fmap in Hin as ([monthYear stat'] & -> & Hin).
  apply elem_of_map_to_list in Hin. simpl.
  destruct (accumulated_keyed_months activities ∅) as [Hkeyed _].
  { apply map_Forall_empty. }
  rewrite (Hkeyed _ _ Hin).
  pose proof (λ category Hcat,
    monthly_cells_are_ordered_sums activities ∅ monthYear category Hcat)
    as Hcell.
  unfold cell in Hcell. rewrite Hin, lookup_empty in Hcell. simpl in Hcell.
  split; [|split].
  - by rewrite <- (Hcell "RunWalkHike") by auto.
  - by rewrite <- (Hcell "Bike") by auto.
  - by rewrite <- (Hcell "Other") by auto.
Qed.

(** *** The two monthly aggregates agree on distances *)

(** One activity moves the distances of the pace accumulator as it moves
    the distance accumulator. *)
Lemma paceStep_distances (paceMap : gmap string (MonthlyPaceStats F))
    (activity : MinimalActivityData F) :
  distancesOf <$> paceStep paceMap activity
  = distanceStep (distancesOf <$> paceMap) activity.
Proof.
  unfold paceStep, distanceStep.
  destruct (time_Parse_RFC3339 (StartDate activity)) as [t|]; [|done].
  rewrite fmap_insert, lookup_fmap. f_equal.
  destruct (paceMap !! Format_2006_01 t) as [stat|]; simpl;
    by repeat case_decide.
Qed.

Lemma accumulated_distances (activities : list (MinimalActivityData F)) :
  ∀ paceMap : gmap string (MonthlyPaceStats F),
  distancesOf <$> foldl paceStep paceMap activities
  = foldl distanceStep (distancesOf <$> paceMap) activities.
Proof.
  induction activities as [|activity activities IH]; intros paceMap; [done|].
  simpl. by rewrite IH, paceStep_distances.
Qed.

(** The monthly pace aggregate and the monthly distance aggregate of the
    same activities hold the same months with the same distances: the
    records of the first, reduced to month and distances, are those of the
    second (each aggregate comes in the order of a map iteration). *)
Theorem monthly_pace_and_distance_agree
    (activities : list (MinimalActivityData F)) :
  distancesOf <$> monthlyPaceStats activities
  ≡ₚ monthlyDistanceStats activities.
Proof.
  unfold monthlyPaceStats, monthlyDistanceStats.
  rewrite <- (fmap_empty (M := gmap string) distancesOf).
  rewrite <- accumulated_distances.
  rewrite map_to_list_fmap.
  rewrite <- !list_fmap_compose.
  apply reflexive_eq. apply list_fmap_ext. by intros i [monthYear stat] _.
Qed.

(** *** Every kept distance is accounted for once *)







End MonthlyAggregateProperties.

(** ** Further properties of the date-range aggregate *)

Section WeeklyRouteProperties.
Context {F : Type} {num : Float64 F} {gotime : GoTime} {gojson : GoJson F}.
Context (env : Env F).

#[local] Abbreviation World := (World F).

(** One iteration of the activity loop, on the day of the activity. *)
Lemma addDailyActivity_own_day (startDay endDay : Z)
    (weeklyData : gmap Z (PaceStat F)) (activity : StravaActivity F) (d : Z) :
  activityDay activity = Some d →
  addDailyActivity (startDay * secondsPerDay) (endDay * secondsPerDay)
    weeklyData activity !! d
  = if decide (startDay ≤ d ≤ endDay)
    then Some (addPaceStat (default zeroPaceStat (weeklyData !! d))
                 (calculatePaceStats activity))
    else weeklyData !! d.
Proof.
  unfold addDailyActivity, activityDay.
  destruct (time_Parse_RFC3339 (sa_StartDateLocal activity)) as [t|];
    [|done].
  simpl. intros [= <-]. unfold dateKey, truncateDay, secondsPerDay.
  assert (86400 * (unixSec t / 86400) / 86400 = unixSec t / 86400) as Hday.
  { rewrite Z.mul_comm. by rewrite Z.div_mul. }
  rewrite !Hday. set (q := unixSec t / 86400). clearbody q.
  destruct (Z.eqb_spec (86400 * q) (startDay * 86400)),
    (Z.ltb_spec (startDay * 86400) (86400 * q)),
    (Z.eqb_spec (86400 * q) (endDay * 86400)),
    (Z.ltb_spec (86400 * q) (endDay * 86400 + 86400));
    simpl; destruct (decide (startDay ≤ q ≤ endDay));
    try lia; try done; by rewrite lookup_insert_eq.
Qed.

(** The activity loop, seen from one day of the range. *)
Lemma addDailyActivities_day (startDay endDay d : Z)
    (activities : list (StravaActivity F)) :
  startDay ≤ d ≤ endDay →
  ∀ (weeklyData : gmap Z (PaceStat F)) (currentDayStats : PaceStat F),
  weeklyData !! d = Some currentDayStats →
  foldl (addDailyActivity (startDay * secondsPerDay) (endDay * secondsPerDay))
    weeklyData activities !! d
  = Some (foldl addPaceStat currentDayStats (dayContributions d activities)).
Proof.
  intros Hin.
  induction activities as [|activity activities IH];
    intros weeklyData currentDayStats Hcur; [done|].
  simpl. unfold dayContributions. rewrite filter_cons.
  destruct (decide (activityDay activity = Some d)) as [Hday|Hother].
  - rewrite fmap_cons. simpl. apply IH.
    rewrite addDailyActivity_own_day by done.
    rewrite decide_True by done. by rewrite Hcur.
  - apply IH. by rewrite addDailyActivity_other_day.
Qed.

(** The activity loop, seen from a day outside the range. *)
Lemma addDailyActivities_outside (startDay endDay d : Z)
    (activities : list (StravaActivity F)) :
  ¬ (startDay ≤ d ≤ endDay) →
  ∀ weeklyData : gmap Z (PaceStat F),
  foldl (addDailyActivity (startDay * secondsPerDay) (endDay * secondsPerDay))
    weeklyData activities !! d
  = weeklyData !! d.
Proof.
  intros Hout.
  induction activities as [|activity activities IH]; intros weeklyData;
    [done|].
  simpl. rewrite IH.
  destruct (decide (activityDay activity = Some d)) as [Hday|Hother].
  - rewrite addDailyActivity_own_day by done. by rewrite decide_False.
  - by rewrite addDailyActivity_other_day.
Qed.

(** The daily map of a range of whole days, day by day. *)
Lemma weeklyPaceData_lookup (startDay endDay d : Z)
    (activities : list (StravaActivity F)) :
  weeklyPaceData (startDay * secondsPerDay) (endDay * secondsPerDay)
    activities !! d
  = if decide (startDay ≤ d ≤ endDay)
    then Some (foldl addPaceStat zeroPaceStat (dayContributions d activities))
    else None.
Proof.
  unfold weeklyPaceData.
  destruct (decide (startDay ≤ d ≤ endDay)) as [Hin|Hout].
  - apply addDailyActivities_day; [done|].
    rewrite zeroFill_days. by rewrite decide_True.
  - rewrite addDailyActivities_outside by done.
    rewrite zeroFill_days. by rewrite decide_False.
Qed.

(** The handler on a range given by two dates that parse. *)
Lemma weekly_stats_of_range (w : World) (startQuery endQuery : string)
    (startDay endDay : Z) :
  startQuery ≠ "" → endQuery ≠ "" →
  time_ParseInLocation_date startQuery = Some startDay →
  time_ParseInLocation_date endQuery = Some endDay →
  ∃ activities,
    loadLocalActivities env w
      = Ret activities (with_event (EvReadFile dataFilePath) w)
    ∧ handleGetWeeklyPaceStats env startQuery endQuery w
      = Ret {| status := 200;
               body := BWeekly (weeklyPaceData (startDay * secondsPerDay)
                                  (endDay * secondsPerDay) activities) |}
            (with_event (EvReadFile dataFilePath) w).
Proof.
  intros Hstart Hend Hs He.
  destruct (loadLocalActivities_returns env w) as [activities Hload].
  exists activities. split; [done|].
  unfold handleGetWeeklyPaceStats.
  rewrite !bool_decide_eq_false_2 by done. simpl. rewrite Hs, He.
  unfold mbind, M_bind. by rewrite Hload.
Qed.

(** For a range given by two dates, the record of every day of the range
    is the sum, added up from zero in cache order, of the zone distances
    of the activities counted on that day, and no other day has a record.
    No property of addition is used. *)
Theorem weekly_day_is_ordered_sum (w : World) (startQuery endQuery : string)
    (startDay endDay : Z) :
  startQuery ≠ "" → endQuery ≠ "" →
  time_ParseInLocation_date startQuery = Some startDay →
  time_ParseInLocation_date endQuery = Some endDay →
  ∃ activities weeklyData w',
    loadLocalActivities env w = Ret activities w'
    ∧ handleGetWeeklyPaceStats env startQuery endQuery w
      = Ret {| status := 200; body := BWeekly weeklyData |} w'
    ∧ ∀ d, weeklyData !! d
           = if decide (startDay ≤ d ≤ endDay)
             then Some (foldl addPaceStat zeroPaceStat
                          (dayContributions d activities))
             else None.
Proof.
  intros Hstart Hend Hs He.
  destruct (weekly_stats_of_range w _ _ _ _ Hstart Hend Hs He)
    as (activities & Hload & Hret).
  eexists activities, _, _. split; [done|]. split; [done|].
  intros d. apply weeklyPaceData_lookup.
Qed.

(** A range whose start date is after its end date is not an error: the
    answer is 200 with no day at all, whatever the cache holds. *)
Theorem weekly_reversed_range_is_empty (w : World)
    (startQuery endQuery : string) (startDay endDay : Z) :
  startQuery ≠ "" → endQuery ≠ "" →
  time_ParseInLocation_date startQuery = Some startDay →
  time_ParseInLocation_date endQuery = Some endDay →
  endDay < startDay →
  handleGetWeeklyPaceStats env startQuery endQuery w
    = Ret {| status := 200; body := BWeekly ∅ |}
          (with_event (EvReadFile dataFilePath) w).
Proof.
  intros Hstart Hend Hs He Hreversed.
  destruct (weekly_stats_of_range w _ _ _ _ Hstart Hend Hs He)
    as (activities & _ & ->).
  do 3 f_equal. apply map_eq. intros d.
  rewrite weeklyPaceData_lookup, lookup_empty.
  rewrite decide_False by lia. done.
Qed.

(** Without both dates the range is the current week: the days with a
    record are the seven days from the Monday on or before today (UTC) to
    the Sunday after it.  A single date that is given is ignored, even when
    it does not parse. *)
Theorem weekly_default_is_current_week (w : World)
    (startQuery endQuery : string) :
  startQuery = "" ∨ endQuery = "" →
  ∃ monday weeklyData,
    handleGetWeeklyPaceStats env startQuery endQuery w
      = Ret {| status := 200; body := BWeekly weeklyData |}
            (with_event (EvReadFile dataFilePath) w)
    ∧ (monday + 4) mod 7 = 1
    ∧ monday ≤ now_ns env / 1000000000 / secondsPerDay ≤ monday + 6
    ∧ ∀ d, is_Some (weeklyData !! d) ↔ monday ≤ d ≤ monday + 6.
Proof.
  intros Hmissing.
  destruct (defaultWeek_monday_to_sunday env) as (monday & Hweek & Hmon & Hnow).
  destruct (loadLocalActivities_returns env w) as [activities Hload].
  exists monday. eexists. split.
  { unfold handleGetWeeklyPaceStats.
    assert (negb (bool_decide (startQuery = ""))
            && negb (bool_decide (endQuery = "")) = false) as ->.
    { destruct Hmissing as [Hs | He]; rewrite ?Hs, ?He; [done|].
      apply andb_false_r. }
    rewrite Hweek. unfold mbind, M_bind. by rewrite Hload. }
  split; [done|]. split; [done|]. intros d.
  rewrite weeklyPaceData_lookup.
  destruct (decide (monday ≤ d ≤ monday + 6)); split; done.
Qed.


(** Every way the date-range handler returns. *)
Lemma weekly_stats_outcomes (w : World) (startQuery endQuery : string) :
  (∃ msg,
     handleGetWeeklyPaceStats env startQuery endQuery w
       = Ret {| status := 400; body := BError msg None |} w
     ∧ startQuery ≠ "" ∧ endQuery ≠ ""
     ∧ (time_ParseInLocation_date startQuery = None
        ∨ time_ParseInLocation_date endQuery = None))
  ∨ (∃ weeklyData,
       handleGetWeeklyPaceStats env startQuery endQuery w
         = Ret {| status := 200; body := BWeekly weeklyData |}
               (with_event (EvReadFile dataFilePath) w)
       ∧ (startQuery = "" ∨ endQuery = ""
          ∨ (is_Some (time_ParseInLocation_date startQuery)
             ∧ is_Some (time_ParseInLocation_date endQuery)))).
Proof.
  destruct (loadLocalActivities_returns env w) as [activities Hload].
  unfold handleGetWeeklyPaceStats.
  destruct (decide (startQuery = "")) as [->|Hstart].
  { right. rewrite (bool_decide_eq_true_2 ("" = "")) by done.
    rewrite andb_false_l. destruct (defaultWeek env) as [startDate endDate].
    unfold mbind, M_bind. rewrite Hload.
    eexists. split; [done|]. by left. }
  destruct (decide (endQuery = "")) as [->|Hend].
  { right. rewrite (bool_decide_eq_true_2 ("" = "")) by done.
    rewrite andb_false_r. destruct (defaultWeek env) as [startDate endDate].
    unfold mbind, M_bind. rewrite Hload.
    eexists. split; [done|]. right. by left. }
  rewrite !bool_decide_eq_false_2 by done. simpl.
  destruct (time_ParseInLocation_date startQuery) as [startDay|] eqn:Hs.
  2: { left. eexists. split; [done|]. split; [done|]. split; [done|].
       by left. }
  destruct (time_ParseInLocation_date endQuery) as [endDay|] eqn:He.
  2: { left. eexists. split; [done|]. split; [done|]. split; [done|].
       by right. }
  right. unfold mbind, M_bind. rewrite Hload. eexists. split; [done|].
  right. right. split; by eexists.
Qed.

(** The date-range route asks for no token: it returns in every state,
    also without a stored token and while the token mutex is held, never
    with 401, and changes neither the token record nor any file; all it
    does is read the cache at most once. *)
Theorem weekly_route_needs_no_token (w : World)
    (startQuery endQuery : string) :
  ∃ r w',
    handleGetWeeklyPaceStats env startQuery endQuery w = Ret r w'
    ∧ (status r = 200 ∨ status r = 400)
    ∧ currentTokens w' = currentTokens w
    ∧ tokenMutex w' = tokenMutex w
    ∧ files w' = files w
    ∧ (trace w' = trace w ∨ trace w' = trace w ++ [EvReadFile dataFilePath]).
Proof.
  destruct (weekly_stats_outcomes w startQuery endQuery)
    as [(msg & -> & _)|(weeklyData & -> & _)].
  - eexists _, _. split; [done|]. simpl. split; [by right|].
    repeat split; by left.
  - eexists _, _. split; [done|]. simpl. split; [by left|].
    repeat split; by right.
Qed.

(** The date-range route answers 400 exactly when both dates are given
    and one of them does not parse; it has then not read the cache.  In
    every other case it answers 200 after reading the cache. *)
Theorem weekly_bad_request_iff (w w' : World) (startQuery endQuery : string)
    (r : Response F) :
  handleGetWeeklyPaceStats env startQuery endQuery w = Ret r w' →
  (status r = 400
   ↔ startQuery ≠ "" ∧ endQuery ≠ ""
     ∧ (time_ParseInLocation_date startQuery = None
        ∨ time_ParseInLocation_date endQuery = None))
  ∧ (status r = 400 → w' = w)
  ∧ (status r ≠ 400 →
     status r = 200 ∧ w' = with_event (EvReadFile dataFilePath) w).
Proof.
  destruct (weekly_stats_outcomes w startQuery endQuery)
    as [(msg & -> & Hs & He & Hbad)|(weeklyData & -> & Hok)];
    intros [= <- <-]; simpl.
  - split; [done|]. split; [done|]. done.
  - split; [|done]. split; [done|].
    intros (Hs & He & Hbad).
    destruct Hok as [?|[?|[[? Hs'] [? He']]]]; [done|done|].
    destruct Hbad; congruence.
Qed.

(** A run with positive distance and moving time puts its whole distance,
    in kilometres, into exactly one zone, chosen by its average speed in
    metres per second: at least 4.8 red, at least 3.8 orange, at least 3.0
    yellow, otherwise green; the other three zones get zero. *)
Theorem run_lands_in_one_zone (activity : StravaActivity F) :
  matchesZones activity = true →
  let speed := fdiv (sa_Distance activity) (sa_MovingTime activity) in
  let distanceKM := fdiv (sa_Distance activity) f1000 in
  calculatePaceStats activity
  = if fgeb speed f4_8 then
      {| Red := distanceKM; Orange := fzero; Yellow := fzero; Green := fzero |}
    else if fgeb speed f3_8 then
      {| Red := fzero; Orange := distanceKM; Yellow := fzero; Green := fzero |}
    else if fgeb speed f3_0 then
      {| Red := fzero; Orange := fzero; Yellow := distanceKM; Green := fzero |}
    else
      {| Red := fzero; Orange := fzero; Yellow := fzero; Green := distanceKM |}.
Proof.
  unfold matchesZones, calculatePaceStats, getPaceZone.
  intros [Hrun Hpositive]%andb_true_iff.
  rewrite Hrun. apply negb_true_iff in Hpositive. rewrite Hpositive. simpl.
  destruct (fgeb _ f4_8); [done|].
  destruct (fgeb _ f3_8); [done|].
  destruct (fgeb _ f3_0); done.
Qed.

End WeeklyRouteProperties.

(** ** Routes over a missing or unusable cache *)

Section CacheEdgeProperties.
Context {F : Type} {num : Float64 F} {gotime : GoTime} {gojson : GoJson F}.
Context (env : Env F).

#[local] Abbreviation World := (World F).

(** [loadLocalActivities] over a cache that is missing, unreadable or not
    a JSON document. *)
Lemma loadLocalActivities_unusable (w : World) :
  files w !! dataFilePath = None
  ∨ os_ReadFile_denied env dataFilePath = true
  ∨ (∃ raw, files w !! dataFilePath = Some (FBytes raw)) →
  loadLocalActivities env w = Ret [] (with_event (EvReadFile dataFilePath) w).
Proof.
  unfold loadLocalActivities, dataFilePath. unfold_go. simpl.
  intros [Hnone|[Hdenied|[raw Hraw]]].
  - by rewrite Hnone.
  - rewrite Hdenied. by destruct (files w !! _).
  - rewrite Hraw. by destruct (os_ReadFile_denied env _).
Qed.

(** Over a cache that is missing, unreadable or not a JSON document the
    date-range route does not fail: for a range given by two dates it
    answers 200 with a record of four zeros for every day of the range. *)
Theorem weekly_without_cache_is_all_zero (w : World)
    (startQuery endQuery : string) (startDay endDay : Z) :
  files w !! dataFilePath = None
  ∨ os_ReadFile_denied env dataFilePath = true
  ∨ (∃ raw, files w !! dataFilePath = Some (FBytes raw)) →
  startQuery ≠ "" → endQuery ≠ "" →
  time_ParseInLocation_date startQuery = Some startDay →
  time_ParseInLocation_date endQuery = Some endDay →
  ∃ weeklyData,
    handleGetWeeklyPaceStats env startQuery endQuery w
      = Ret {| status := 200; body := BWeekly weeklyData |}
            (with_event (EvReadFile dataFilePath) w)
    ∧ ∀ d, weeklyData !! d
           = if decide (startDay ≤ d ≤ endDay) then Some zeroPaceStat
             else None.
Proof.
  intros Hunusable Hstart Hend Hs He.
  pose proof (loadLocalActivities_unusable w Hunusable) as Hload.
  eexists. split.
  - unfold handleGetWeeklyPaceStats.
    rewrite !bool_decide_eq_false_2 by done. simpl. rewrite Hs, He.
    unfold mbind, M_bind. by rewrite Hload.
  - intros d. by rewrite weeklyPaceData_lookup.
Qed.

(** With a valid token, both monthly routes are decided by what
    [readLocalActivities] returns: 200 with the aggregate of the kept
    activities when it succeeds, 500 with its error when it fails; over a
    missing cache file that error is the file-not-found error.  Neither
    route changes a file. *)
Theorem monthly_routes_follow_the_cache (w w' : World)
    (read : result (list (MinimalActivityData F))) :
  tokenMutex w = false →
  AccessToken (currentTokens w) ≠ "" →
  expiresWithinMargin env (currentTokens w) = false →
  readLocalActivities env w = Ret read w' →
  handleGetDistanceStats env w
    = Ret match read with
          | OK activities =>
            {| status := 200;
               body := BDistanceStats (monthlyDistanceStats activities) |}
          | Fail e =>
            {| status := 500;
               body := BError "Gagal menghitung statistik jarak" (Some e) |}
          end w'
  ∧ handleGetPaceStats env w
    = Ret match read with
          | OK activities =>
            {| status := 200;
               body := BPaceStats (monthlyPaceStats activities) |}
          | Fail e =>
            {| status := 500;
               body := BError "Gagal menghitung statistik pace" (Some e) |}
          end w'
  ∧ files w' = files w
  ∧ (files w !! dataFilePath = None → read = Fail ErrDataFileNotFound).
Proof.
  intros Hfree Hsome Hfresh Hread.
  unfold handleGetDistanceStats, handleGetPaceStats.
  unfold mbind at 1 3. unfold M_bind at 1 3.
  rewrite ensureValidToken_fresh by done.
  unfold calculateMonthlyDistanceStats, calculateMonthlyPaceStats.
  unfold mbind, M_bind. rewrite Hread.
  split; [by destruct read|]. split; [by destruct read|].
  revert Hread. unfold readLocalActivities. unfold_go. simpl.
  destruct (files w !! dataFilePath) as [cache|].
  - destruct (os_ReadFile_denied env dataFilePath).
    { by intros [= <- <-]. }
    destruct (json_Unmarshal_raw cache) as [rawActivities|].
    + destruct (decide _); by intros [= <- <-].
    + by intros [= <- <-].
  - by intros [= <- <-].
Qed.

End CacheEdgeProperties.

(** ** Scenarios of the further properties *)

(** The first token is saved on an empty disk. *)
Lemma saveToken_success_mirror_equals_file_witness :
  let w := scenarioWorld noTokens ∅ in
  ∃ w',
    saveToken offlineEnv freshTokens w = Ret (OK ()) w'
    ∧ (currentTokens w' = freshTokens
       ∧ files w' !! tokenFilePath = Some (FToken freshTokens)
       ∧ tokenMutex w' = false
       ∧ ∀ path, path ≠ tokenFilePath → files w' !! path = files w !! path).
Proof.
  eexists. split; [vm_compute; reflexivity|].
  apply (saveToken_success_mirror_equals_file offlineEnv freshTokens
           (scenarioWorld noTokens ∅)).
  vm_compute. reflexivity.
Defined.

(** The data directory cannot be created: the token is in memory only. *)
Lemma saveToken_failure_mirror_ahead_of_file_witness :
  let w := scenarioWorld noTokens ∅ in
  ∃ w',
    saveToken noDirectoryEnv freshTokens w = Ret (Fail ErrMkdirData) w'
    ∧ (currentTokens w' = freshTokens
       ∧ tokenMutex w' = false
       ∧ (files w' = files w
          ∨ files w' = <[tokenFilePath := FBytes ""]> (files w))).
Proof.
  eexists. split; [vm_compute; reflexivity|].
  apply (saveToken_failure_mirror_ahead_of_file noDirectoryEnv freshTokens
           (scenarioWorld noTokens ∅) _ ErrMkdirData).
  vm_compute. reflexivity.
Defined.

(** A token saved before a restart is loaded after it. *)
Lemma saveToken_loadToken_round_trip_witness :
  ∃ w1,
    saveToken offlineEnv freshTokens (scenarioWorld noTokens ∅)
      = Ret (OK ()) w1
    ∧ ∃ w2, loadToken rejectingEnv keepTokens (with_tokens noTokens w1)
              = Ret () w2
            ∧ currentTokens w2 = freshTokens
            ∧ files w2 = files w1
            ∧ tokenMutex w2 = false.
Proof.
  eexists. split; [vm_compute; reflexivity|].
  apply (saveToken_loadToken_round_trip offlineEnv rejectingEnv keepTokens
           freshTokens noTokens (scenarioWorld noTokens ∅)).
  - vm_compute. reflexivity.
  - reflexivity.
Defined.

(** The first start, before any login. *)
Lemma loadToken_without_file_witness :
  ∃ w', loadToken offlineEnv keepTokens (scenarioWorld noTokens ∅) = Ret () w'
        ∧ currentTokens w' = noTokens ∧ files w' = ∅
        ∧ tokenMutex w' = false.
Proof.
  apply (loadToken_without_file offlineEnv keepTokens
           (scenarioWorld noTokens ∅)); [reflexivity|].
  left. reflexivity.
Defined.

(** A fresh token is served as it is stored. *)
Lemma ensureValidToken_serves_only_fresh_stored_token_witness :
  let w := scenarioWorld freshTokens (tokenFileOnly freshTokens) in
  ensureValidToken offlineEnv w = Ret (OK "access-1") w
  ∧ (tokenMutex w = false
     ∧ currentTokens w = currentTokens w
     ∧ files w = files w
     ∧ ∀ tok, OK "access-1" = OK tok →
         tok = AccessToken (currentTokens w) ∧ tok ≠ ""
         ∧ expiresWithinMargin offlineEnv (currentTokens w) = false
         ∧ w = w).
Proof.
  split; [vm_compute; reflexivity|].
  apply (ensureValidToken_serves_only_fresh_stored_token offlineEnv
           (scenarioWorld freshTokens (tokenFileOnly freshTokens))).
  vm_compute. reflexivity.
Defined.

(** A refresh that the upstream accepts blocks. *)
Lemma refreshAccessToken_fails_or_blocks_witness :
  let w := scenarioWorld expiringTokens (tokenFileOnly expiringTokens) in
  (∃ e w', refreshAccessToken refreshingEnv w = Ret (Fail e) w'
           ∧ tokenMutex w' = false
           ∧ currentTokens w' = currentTokens w
           ∧ files w' = files w)
  ∨ (∃ newTokens w',
       http_PostForm_token refreshingEnv
         (GrantRefreshToken (RefreshToken (currentTokens w)))
         = HttpResp StatusOK (Some newTokens)
       ∧ refreshAccessToken refreshingEnv w = Blocked w'
       ∧ tokenMutex w' = true
       ∧ currentTokens w' = mergeRefreshed (currentTokens w) newTokens
       ∧ files w' = files w).
Proof.
  apply (refreshAccessToken_fails_or_blocks refreshingEnv
           (scenarioWorld expiringTokens (tokenFileOnly expiringTokens))).
  reflexivity.
Defined.

(** After the accepted refresh has blocked, nothing that needs the token
    goes through, also when the network is gone. *)
Lemma blocked_refresh_disables_token_operations_witness :
  let w := scenarioWorld expiringTokens (tokenFileOnly expiringTokens) in
  ∃ w',
    ensureValidToken refreshingEnv w = Blocked w'
    ∧ (tokenMutex w' = true
       ∧ ensureValidToken offlineEnv w' = Blocked w'
       ∧ (∀ t, saveToken offlineEnv t w' = Blocked w')
       ∧ handleStatus offlineEnv noStatErrors w' = Blocked w'
       ∧ (∀ fuel refresh,
            handleGetActivities offlineEnv noStatErrors fuel refresh w'
              = Blocked w')
       ∧ handleGetDistanceStats offlineEnv w' = Blocked w'
       ∧ handleGetPaceStats offlineEnv w' = Blocked w').
Proof.
  eexists. split; [vm_compute; reflexivity|].
  apply (blocked_refresh_disables_token_operations refreshingEnv offlineEnv
           noStatErrors
           (scenarioWorld expiringTokens (tokenFileOnly expiringTokens))).
  - reflexivity.
  - vm_compute. reflexivity.
Defined.

(** A token that expires exactly 60 seconds from now: the status route
    reports it as not valid. *)
Lemma handleStatus_token_status_witness :
  let w := scenarioWorld boundaryTokens (tokenFileOnly boundaryTokens) in
  ∃ report,
    handleStatus offlineEnv noStatErrors w = Ret report w
    ∧ (token_status report = true ↔
         AccessToken (currentTokens w) ≠ ""
         ∧ expiresWithinMargin offlineEnv (currentTokens w) = false
         ∧ time_Unix (ExpiresAt (currentTokens w)) * 1000000000
             ≠ time_Now_ns offlineEnv + tokenTTLMargin_ns)
    ∧ (token_status report = true →
         ensureValidToken offlineEnv w
           = Ret (OK (AccessToken (currentTokens w))) w)
    ∧ (9223371974719179007 < ExpiresAt (currentTokens w) < 2 ^ 63 →
         token_status report = false
         ∧ expiresWithinMargin offlineEnv (currentTokens w) = true)
    ∧ (token_expires report = None ↔ ExpiresAt (currentTokens w) ≤ 0).
Proof.
  apply (handleStatus_token_status offlineEnv noStatErrors
           (scenarioWorld boundaryTokens (tokenFileOnly boundaryTokens))).
  - discriminate.
  - reflexivity.
Defined.

(** The greatest [expires_at]: [time.Unix] wraps it around to a time
    before the year 1, so the status route reports the token as not valid
    and [ensureValidToken] goes for a refresh. *)
Example greatest_expiry_is_long_past :
  let w := scenarioWorld farFutureTokens (tokenFileOnly farFutureTokens) in
  time_Unix (ExpiresAt (currentTokens w)) = -9223371974719179009
  ∧ token_status <$> returned (handleStatus offlineEnv noStatErrors w)
    = Some false
  ∧ expiresWithinMargin offlineEnv (currentTokens w) = true
  ∧ ensureValidToken rejectingEnv w
    = Ret (Fail (ErrRefreshStatus 401))
          (with_event (EvPostToken (GrantRefreshToken "refresh-1")) w).
Proof. repeat split. Qed.

(** A successful exchange of the code [code-1]. *)
Lemma callback_outcomes_witness :
  let w := scenarioWorld noTokens ∅ in
  let r : Response float := successRedirect in
  ∃ w',
    handleStravaCallback exchangingEnv "code-1" "" w = Ret r w'
    ∧ (("code-1" = "" ∧ r = missingCodeAnswer "" ∧ w' = w)
       ∨ ("code-1" ≠ "" ∧ status r = 500 ∧ r ≠ saveFailedAnswer
          ∧ w' = with_event (EvPostToken (GrantAuthorizationCode "code-1")) w)
       ∨ ("code-1" ≠ ""
          ∧ ∃ tokenResponse,
              http_PostForm_token exchangingEnv (GrantAuthorizationCode "code-1")
                = HttpResp StatusOK (Some tokenResponse)
              ∧ currentTokens w' = tokenResponse
              ∧ ((r = successRedirect
                  ∧ files w'
                    = <[tokenFilePath := FToken tokenResponse]> (files w))
                 ∨ (r = saveFailedAnswer
                    ∧ (files w' = files w
                       ∨ files w'
                         = <[tokenFilePath := FBytes ""]> (files w)))))).
Proof.
  eexists. split; [vm_compute; reflexivity|].
  apply (callback_outcomes exchangingEnv "code-1" ""
           (scenarioWorld noTokens ∅)).
  vm_compute. reflexivity.
Defined.

(** Two pages: 200 activities, then one ride. *)
Lemma fetch_stores_concatenated_pages_witness :
  let w := scenarioWorld freshTokens ∅ in
  ∃ w',
    fetchAndSaveAllActivities twoPagesEnv 3 "access-1" w = Ret (OK ()) w'
    ∧ files w' = <[dataFilePath :=
                     FJson (encodeActivities
                              (concat [fullPageOfBare]
                               ++ [manualRide]))]> (files w)
    ∧ trace w' = trace w
                 ++ pageRequests "access-1" 1 2
                 ++ [EvMkdirAll dataDir; EvCreate dataFilePath]
    ∧ currentTokens w' = currentTokens w
    ∧ tokenMutex w' = tokenMutex w.
Proof.
  apply (fetch_stores_concatenated_pages twoPagesEnv 3 "access-1"
           [fullPageOfBare] [manualRide]
           (scenarioWorld freshTokens ∅)).
  - intros [|i] body Hi; [|done]. injection Hi as <-.
    split; [vm_compute; reflexivity|vm_compute; discriminate].
  - vm_compute. reflexivity.
  - reflexivity.
  - simpl. lia.
  - reflexivity.
  - reflexivity.
  - reflexivity.
Defined.

(** Four requests are not enough against an upstream of full pages. *)
Lemma fetch_full_pages_never_finish_witness :
  fetchAndSaveAllActivities endlessEnv 4 "access-1"
    (scenarioWorld freshTokens ∅) = OutOfFuel.
Proof.
  apply (fetch_full_pages_never_finish endlessEnv "access-1").
  intros page _.
  exists (JArr (fullPageOfBare)), (fullPageOfBare).
  split; [reflexivity|].
  split; [vm_compute; reflexivity|vm_compute; discriminate].
Defined.

(** The encoding fails over an existing cache: the cache is lost. *)
Lemma fetch_write_failure_effects_witness :
  let w := scenarioWorld freshTokens (cacheOf (JArr [morningRun])) in
  ∃ w',
    fetchAndSaveAllActivities encodeFailsEnv 3 "access-1" w
      = Ret (Fail ErrEncodeData) w'
    ∧ (((ErrEncodeData = ErrMkdirData ∨ ErrEncodeData = ErrCreateDataFile)
        ∧ files w' = files w)
       ∨ (ErrEncodeData = ErrEncodeData
          ∧ files w' = <[dataFilePath := FBytes ""]> (files w)
          ∧ json_Unmarshal_raw (F := float) (FBytes "") = None)).
Proof.
  eexists. split; [vm_compute; reflexivity|].
  apply (fetch_write_failure_effects encodeFailsEnv 3 "access-1"
           (scenarioWorld freshTokens (cacheOf (JArr [morningRun])))).
  - vm_compute. reflexivity.
  - by intros [|[[? ?]|]].
Defined.

(** The cache written from two pages decodes to the 201 activities. *)
Lemma fetched_cache_round_trip_witness :
  let w := scenarioWorld freshTokens ∅ in
  ∃ w',
    fetchAndSaveAllActivities twoPagesEnv 3 "access-1" w = Ret (OK ()) w'
    ∧ ∃ allActivities cache,
        (∃ w1, fetchPages twoPagesEnv 3 "access-1" 1 [] w
                 = Ret (OK allActivities) w1)
        ∧ files w' !! dataFilePath = Some cache
        ∧ json_Unmarshal_raw cache = Some allActivities
        ∧ json_Unmarshal_raw_ignoring_error cache = allActivities
        ∧ ∀ path, path ≠ dataFilePath → files w' !! path = files w !! path.
Proof.
  eexists. split; [vm_compute; reflexivity|].
  apply (fetched_cache_round_trip twoPagesEnv 3 "access-1"
           (scenarioWorld freshTokens ∅)).
  vm_compute. reflexivity.
Defined.

(** A cache that parses is served without any request. *)
Lemma activities_served_from_cache_witness :
  let w := scenarioWorld freshTokens (cacheOf (JArr [morningRun])) in
  handleGetActivities offlineEnv noStatErrors 0 "" w
  = Ret [{| status := 200; body := BActivities [morningRun] |}]
        (with_event (EvReadFile dataFilePath) w).
Proof.
  apply (activities_served_from_cache offlineEnv noStatErrors 0 ""
           (scenarioWorld freshTokens (cacheOf (JArr [morningRun])))
           (FJson (JArr [morningRun])) [morningRun]).
  - reflexivity.
  - discriminate.
  - reflexivity.
  - discriminate.
  - reflexivity.
  - reflexivity.
  - reflexivity.
  - vm_compute. reflexivity.
Defined.

(** A cache that is not JSON, with the network gone: two answers. *)
Lemma corrupt_cache_is_answered_twice_witness :
  let w := scenarioWorld freshTokens corruptCache in
  ∃ answers w',
    handleGetActivities offlineEnv noStatErrors 3 "" w = Ret answers w'
    ∧ ∃ final,
        answers = [corruptCacheAnswer; final]
        ∧ (status final = 500
           ∨ ∃ fetched,
               final = {| status := 200; body := BActivities fetched |}
               ∧ files w' !! dataFilePath
                   = Some (FJson (encodeActivities fetched))).
Proof.
  eexists _, _. split; [vm_compute; reflexivity|].
  apply (corrupt_cache_is_answered_twice offlineEnv noStatErrors 3 ""
           (scenarioWorld freshTokens corruptCache) _ (FBytes "{")).
  - reflexivity.
  - discriminate.
  - reflexivity.
  - discriminate.
  - reflexivity.
  - reflexivity.
  - reflexivity.
  - reflexivity.
  - vm_compute. reflexivity.
Defined.

(** A forced refresh whose second page fails keeps the cache. *)
Lemma refresh_answers_from_upstream_witness :
  let w := scenarioWorld freshTokens (cacheOf (JArr [morningRun])) in
  ∃ answers w',
    handleGetActivities secondPageFailsEnv noStatErrors 5 "true" w
      = Ret answers w'
    ∧ ((∃ e, answers = [fetchFailedAnswer e]
             ∧ fetchAndSaveAllActivities secondPageFailsEnv 5
                 (AccessToken (currentTokens w)) w = Ret (Fail e) w'
             ∧ (pageFailure e → files w' = files w))
       ∨ (∃ final, answers = [final] ∧ status final = 500
                   ∧ os_ReadFile_denied secondPageFailsEnv dataFilePath = true)
       ∨ (∃ fetched,
            answers = [{| status := 200; body := BActivities fetched |}]
            ∧ (∃ w0, fetchPages secondPageFailsEnv 5
                       (AccessToken (currentTokens w)) 1 [] w
                       = Ret (OK fetched) w0)
            ∧ files w' !! dataFilePath
                = Some (FJson (encodeActivities fetched)))).
Proof.
  eexists _, _. split; [vm_compute; reflexivity|].
  apply (refresh_answers_from_upstream secondPageFailsEnv noStatErrors 5
           "true" (scenarioWorld freshTokens (cacheOf (JArr [morningRun])))).
  - reflexivity.
  - discriminate.
  - reflexivity.
  - by left.
  - vm_compute. reflexivity.
Defined.

(** Before any login the activities route answers 401. *)
Lemma activities_require_valid_token_witness :
  let w := scenarioWorld noTokens (cacheOf (JArr [morningRun])) in
  ensureValidToken offlineEnv w = Ret (Fail ErrNoAccessToken) w
  ∧ (handleGetActivities offlineEnv noStatErrors 3 "true" w
       = Ret [reloginAnswer ErrNoAccessToken] w
     ∧ files w = files w
     ∧ currentTokens w = currentTokens w
     ∧ ∃ evs, trace w = trace w ++ evs
              ∧ ∀ ev, ev ∈ evs →
                  isReadFile ev = false
                  ∧ ∀ accessToken page, ev ≠ EvGetActivities accessToken page).
Proof.
  split; [reflexivity|].
  apply (activities_require_valid_token offlineEnv noStatErrors 3 "true"
           (scenarioWorld noTokens (cacheOf (JArr [morningRun])))).
  reflexivity.
Defined.

(** A cache of a run and a ride without moving time: the run is kept. *)
Lemma kept_activities_are_complete_and_positive_witness :
  let w := scenarioWorld freshTokens (cacheOf (JArr [morningRun; manualRide])) in
  ∃ activities w',
    readLocalActivities offlineEnv w = Ret (OK activities) w'
    ∧ (activities ≠ []
       ∧ files w' = files w
       ∧ ∃ cache rawActivities,
           files w !! dataFilePath = Some cache
           ∧ json_Unmarshal_raw cache = Some rawActivities
           ∧ ∀ m, m ∈ activities →
               fgtb (Distance m) fzero = true
               ∧ fgtb (MovingTime m) fzero = true
               ∧ ∃ raw, raw ∈ rawActivities
                   ∧ index raw "distance" = Some (JNum (Distance m))
                   ∧ index raw "moving_time" = Some (JNum (MovingTime m))
                   ∧ index raw "start_date" = Some (JStr (StartDate m))
                   ∧ index raw "type" = Some (JStr (Type_ m))).
Proof.
  eexists _, _. split; [vm_compute; reflexivity|].
  apply (kept_activities_are_complete_and_positive offlineEnv
           (scenarioWorld freshTokens (cacheOf (JArr [morningRun; manualRide])))).
  - reflexivity.
  - vm_compute. reflexivity.
Defined.

(** Three activities of March 2024: 0.1 + 0.3 for the runs, 0.2 for the
    ride. *)
Lemma monthly_record_is_ordered_sum_witness :
  let activities := omap extractMinimal shortActivities in
  ∃ stat,
    stat ∈ monthlyDistanceStats activities
    ∧ (RunWalkHike stat
         = foldl fadd fzero
             (cellDistances (MonthYear stat) "RunWalkHike" activities)
       ∧ Bike stat
         = foldl fadd fzero (cellDistances (MonthYear stat) "Bike" activities)
       ∧ Other stat
         = foldl fadd fzero
             (cellDistances (MonthYear stat) "Other" activities)).
Proof.
  eexists. split; [vm_compute; apply list_elem_of_here|].
  apply (monthly_record_is_ordered_sum (omap extractMinimal shortActivities)).
  vm_compute. apply list_elem_of_here.
Defined.

(** The week of 11 to 17 March 2024 over a cache of four activities. *)
Lemma weekly_day_is_ordered_sum_witness :
  let w := scenarioWorld noTokens (cacheOf marchWeekCache) in
  ∃ activities weeklyData w',
    loadLocalActivities offlineEnv w = Ret activities w'
    ∧ handleGetWeeklyPaceStats offlineEnv "2024-03-11" "2024-03-17" w
      = Ret {| status := 200; body := BWeekly weeklyData |} w'
    ∧ ∀ d, weeklyData !! d
           = if decide (19793 ≤ d ≤ 19799)
             then Some (foldl addPaceStat zeroPaceStat
                          (dayContributions d activities))
             else None.
Proof.
  apply (weekly_day_is_ordered_sum offlineEnv
           (scenarioWorld noTokens (cacheOf marchWeekCache))
           "2024-03-11" "2024-03-17" 19793 19799).
  - discriminate.
  - discriminate.
  - vm_compute. reflexivity.
  - vm_compute. reflexivity.
Defined.

(** The same week asked for backwards. *)
Lemma weekly_reversed_range_is_empty_witness :
  let w := scenarioWorld noTokens (cacheOf marchWeekCache) in
  handleGetWeeklyPaceStats offlineEnv "2024-03-17" "2024-03-11" w
  = Ret {| status := 200; body := BWeekly ∅ |}
        (with_event (EvReadFile dataFilePath) w).
Proof.
  apply (weekly_reversed_range_is_empty offlineEnv
           (scenarioWorld noTokens (cacheOf marchWeekCache))
           "2024-03-17" "2024-03-11" 19799 19793).
  - discriminate.
  - discriminate.
  - vm_compute. reflexivity.
  - vm_compute. reflexivity.
  - reflexivity.
Defined.

(** An end date alone, which does not even parse, is ignored. *)
Lemma weekly_default_is_current_week_witness :
  let w := scenarioWorld noTokens (cacheOf marchWeekCache) in
  ∃ monday weeklyData,
    handleGetWeeklyPaceStats offlineEnv "" "tomorrow" w
      = Ret {| status := 200; body := BWeekly weeklyData |}
            (with_event (EvReadFile dataFilePath) w)
    ∧ (monday + 4) mod 7 = 1
    ∧ monday ≤ now_ns offlineEnv / 1000000000 / secondsPerDay ≤ monday + 6
    ∧ ∀ d, is_Some (weeklyData !! d) ↔ monday ≤ d ≤ monday + 6.
Proof.
  apply (weekly_default_is_current_week offlineEnv
           (scenarioWorld noTokens (cacheOf marchWeekCache)) "" "tomorrow").
  by left.
Defined.

(** A start date that does not parse. *)
Lemma weekly_bad_request_iff_witness :
  let w := scenarioWorld noTokens (cacheOf marchWeekCache) in
  ∃ r w',
    handleGetWeeklyPaceStats offlineEnv "yesterday" "2024-03-17" w = Ret r w'
    ∧ (status r = 400
       ↔ "yesterday" ≠ "" ∧ "2024-03-17" ≠ ""
         ∧ (time_ParseInLocation_date "yesterday" = None
            ∨ time_ParseInLocation_date "2024-03-17" = None))
    ∧ (status r = 400 → w' = w)
    ∧ (status r ≠ 400 →
       status r = 200 ∧ w' = with_event (EvReadFile dataFilePath) w).
Proof.
  eexists _, _. split; [vm_compute; reflexivity|].
  apply (weekly_bad_request_iff offlineEnv
           (scenarioWorld noTokens (cacheOf marchWeekCache)) _
           "yesterday" "2024-03-17").
  vm_compute. reflexivity.
Defined.

(** A 10 km run at 3.33 m/s is a yellow run of 10 km. *)
Lemma run_lands_in_one_zone_witness :
  calculatePaceStats tenKilometreRun = kilometres 0 0 10 0.
Proof.
  rewrite (run_lands_in_one_zone tenKilometreRun); reflexivity.
Defined.

(** The week of 11 to 17 March 2024 before any synchronisation. *)
Lemma weekly_without_cache_is_all_zero_witness :
  let w := scenarioWorld noTokens ∅ in
  ∃ weeklyData,
    handleGetWeeklyPaceStats offlineEnv "2024-03-11" "2024-03-17" w
      = Ret {| status := 200; body := BWeekly weeklyData |}
            (with_event (EvReadFile dataFilePath) w)
    ∧ ∀ d, weeklyData !! d
           = if decide (19793 ≤ d ≤ 19799) then Some zeroPaceStat else None.
Proof.
  apply (weekly_without_cache_is_all_zero offlineEnv (scenarioWorld noTokens ∅)
           "2024-03-11" "2024-03-17" 19793 19799).
  - by left.
  - discriminate.
  - discriminate.
  - vm_compute. reflexivity.
  - vm_compute. reflexivity.
Defined.

(** A valid token before any synchronisation: both routes answer 500 with
    the file-not-found error. *)
Lemma monthly_routes_follow_the_cache_witness :
  let w := scenarioWorld freshTokens (tokenFileOnly freshTokens) in
  let w' := with_event (EvReadFile dataFilePath) w in
  handleGetDistanceStats offlineEnv w
    = Ret {| status := 500;
             body := BError "Gagal menghitung statistik jarak"
                            (Some ErrDataFileNotFound) |} w'
  ∧ handleGetPaceStats offlineEnv w
    = Ret {| status := 500;
             body := BError "Gagal menghitung statistik pace"
                            (Some ErrDataFileNotFound) |} w'
  ∧ files w' = files w
  ∧ (files w !! dataFilePath = None
     → Fail (A := list (MinimalActivityData float)) ErrDataFileNotFound
       = Fail ErrDataFileNotFound).
Proof.
  apply (monthly_routes_follow_the_cache offlineEnv
           (scenarioWorld freshTokens (tokenFileOnly freshTokens)) _
           (Fail ErrDataFileNotFound)).
  - reflexivity.
  - discriminate.
  - reflexivity.
  - reflexivity.
Defined.



